(** * organize.py: categorise a folder by extension, attribute files to banks

    A shallow embedding of [src/organize.py].  The file system is an explicit
    tree that every operation threads through; Python exceptions are the
    [Raise] branch of a small error monad.

    Modelling conventions.
    - Strings are byte strings ([string]); [str.lower] and [str.upper] act on
      the ASCII letters only.
    - A path is the list of its components below the processed folder; a
      name joined to a path is one component ([is_entry_name]).
    - [pathlib]'s [suffix] and [stem] follow the CPython definition in which
      a name owns a suffix when its last dot is neither its first nor its
      last character.
    - [Path.iterdir] lists a directory in the order its entries are stored;
      the listing is taken once, before the loop body runs.
    - What [pandas.read_csv] and [fitz] make of a file is part of the file's
      content: each file records what either reader returns on it, or that
      the reader raises.
    - [re.search] is not part of the repository: it is a parameter of the
      association stage. *)

From Stdlib Require Import List String Ascii Bool Arith Lia.
From Stdlib Require Import DecimalString DecimalNat Decimal.
Import ListNotations.
Local Open Scope string_scope.
Local Open Scope list_scope.
Local Open Scope nat_scope.

Set Implicit Arguments.

(** ** Exceptions and the error monad *)

Inductive exn : Type :=
| FileNotFoundError
| NotADirectoryError
| IsADirectoryError
| DirectoryNotEmpty
| DestinationExists
| KeyError
| ReError
| ReadError.

Inductive result (A : Type) : Type :=
| Ok (a : A)
| Raise (e : exn).

Arguments Ok {A} a.
Arguments Raise {A} e.

Definition bind {A B : Type} (m : result A) (k : A -> result B) : result B :=
  match m with
  | Ok a => k a
  | Raise e => Raise e
  end.

Notation "x <- m ;; k" := (bind m (fun x => k))
  (at level 61, m at next level, right associativity).
Notation "' pat <- m ;; k" := (bind m (fun x => match x with pat => k end))
  (at level 61, pat pattern, m at next level, right associativity).

(** [for x in xs: body], with the state threaded through and the first
    exception ending the loop. *)
Fixpoint for_each {S X : Type} (body : S -> X -> result S) (xs : list X) (s : S)
  : result S :=
  match xs with
  | [] => Ok s
  | x :: xs' => s' <- body s x ;; for_each body xs' s'
  end.

(** ** Strings as Python uses them *)

Definition is_upper (c : ascii) : bool :=
  let n := nat_of_ascii c in (65 <=? n) && (n <=? 90).

Definition is_lower (c : ascii) : bool :=
  let n := nat_of_ascii c in (97 <=? n) && (n <=? 122).

Definition lower_ascii (c : ascii) : ascii :=
  if is_upper c then ascii_of_nat (nat_of_ascii c + 32) else c.

Definition upper_ascii (c : ascii) : ascii :=
  if is_lower c then ascii_of_nat (nat_of_ascii c - 32) else c.

Fixpoint map_string (f : ascii -> ascii) (s : string) : string :=
  match s with
  | EmptyString => EmptyString
  | String c t => String (f c) (map_string f t)
  end.

(** [s.lower()] and [s.upper()] on strings of ASCII characters
    ([is_ascii_name] below); the mapping of Python knows more letters than
    the twenty-six, so what is stated of arbitrary names that the code maps
    by case is stated of such names. *)
Definition lower (s : string) : string := map_string lower_ascii s.
Definition upper (s : string) : string := map_string upper_ascii s.

(** Every character of the name is an ASCII character: on such names the
    case mapping of the model is [str.lower] and [str.upper]. *)
Fixpoint is_ascii_name (s : string) : bool :=
  match s with
  | EmptyString => true
  | String c t => (nat_of_ascii c <? 128) && is_ascii_name t
  end.

(** [s[i:]] *)
Fixpoint drop (i : nat) (s : string) : string :=
  match i, s with
  | O, _ => s
  | S _, EmptyString => EmptyString
  | S i', String _ t => drop i' t
  end.

(** [s[:i]] *)
Fixpoint take (i : nat) (s : string) : string :=
  match i, s with
  | O, _ => EmptyString
  | S _, EmptyString => EmptyString
  | S i', String c t => String c (take i' t)
  end.

(** [s.rfind(c)], [None] standing for -1 *)
Fixpoint rfind (c : ascii) (s : string) : option nat :=
  match s with
  | EmptyString => None
  | String a t =>
      match rfind c t with
      | Some i => Some (S i)
      | None => if Ascii.eqb a c then Some 0 else None
      end
  end.

(** The index at which [pathlib] splits a name into stem and suffix. *)
Definition split_point (name : string) : option nat :=
  match rfind "."%char name with
  | Some i => if (0 <? i) && (i <? String.length name - 1) then Some i else None
  | None => None
  end.

(** [Path(name).suffix] *)
Definition suffix (name : string) : string :=
  match split_point name with
  | Some i => drop i name
  | None => EmptyString
  end.

(** [Path(name).stem] *)
Definition stem (name : string) : string :=
  match split_point name with
  | Some i => take i name
  | None => name
  end.

(** What [pathlib] returns as a suffix: nothing, or a dot and at least one
    more character. *)
Definition is_suffix_shape (k : string) : Prop :=
  k = "" \/ exists c t, k = String "."%char (String c t).

(** [s.split('_')[0]] *)
Fixpoint before_underscore (s : string) : string :=
  match s with
  | EmptyString => EmptyString
  | String c t => if Ascii.eqb c "_"%char then EmptyString
                  else String c (before_underscore t)
  end.

(** [c in s] for one character *)
Fixpoint occurs (c : ascii) (s : string) : bool :=
  match s with
  | EmptyString => false
  | String a t => Ascii.eqb a c || occurs c t
  end.

(** A name that [pathlib]'s [/] joins to a path as one more component, or
    leaves out when it is empty: not [.], not [..], and without a slash or a
    null character. *)
Definition is_entry_name (s : string) : bool :=
  negb (String.eqb s ".") && negb (String.eqb s "..") &&
  negb (occurs "/"%char s) && negb (occurs "000"%char s).

(** [needle in hay] *)
Fixpoint is_substring (needle hay : string) : bool :=
  String.prefix needle hay ||
  match hay with
  | EmptyString => false
  | String _ t => is_substring needle t
  end.

(** [str(n)] for a length *)
Definition str_nat (n : nat) : string := NilZero.string_of_uint (Nat.to_uint n).

(** [f"{subfolder.stem.split('_')[0]}_{count}"] for a subfolder of the given
    name *)
Definition counted_name (name : string) (count : nat) : string :=
  (before_underscore (stem name) ++ "_" ++ str_nat count)%string.

(** [f"{ext[1:].upper()}_{n}"] *)
Definition type_folder_name (ext : string) (n : nat) : string :=
  (upper (drop 1 ext) ++ "_" ++ str_nat n)%string.


(** ** The file system *)

(** What the two external readers make of a file: [as_csv] is the data frame
    [pandas.read_csv] returns, as the rows of the [str] form of its cells
    (the header line is not a row), [as_pdf] the document [fitz.open]
    returns, as the pages with what [page.get_text()] gives on each. *)
Record content : Type := mkContent {
  as_csv : result (list (list string));
  as_pdf : result (list (result string))
}.

#[warnings="-register-all"]
Inductive node : Type :=
| File (c : content)
| Dir (entries : list (string * node)).

Definition dir := list (string * node).
Definition path := list string.

Fixpoint dir_get (es : dir) (name : string) : option node :=
  match es with
  | [] => None
  | (n, nd) :: es' => if String.eqb n name then Some nd else dir_get es' name
  end.

Fixpoint dir_del (es : dir) (name : string) : dir :=
  match es with
  | [] => []
  | (n, nd) :: es' =>
      if String.eqb n name then dir_del es' name else (n, nd) :: dir_del es' name
  end.

(** Replace the entry in place, or add it at the end. *)
Fixpoint dir_set (es : dir) (name : string) (new : node) : dir :=
  match es with
  | [] => [(name, new)]
  | (n, nd) :: es' =>
      if String.eqb n name then (n, new) :: es' else (n, nd) :: dir_set es' name new
  end.

Definition names (es : dir) : list string := map fst es.

(** [base / name] for a name that is one component ([is_entry_name]);
    joining the empty string gives the path back. *)
Definition path_join (base : path) (name : string) : path :=
  if String.eqb name "" then base else base ++ [name].

Fixpoint fs_get (root : node) (p : path) : option node :=
  match p with
  | [] => Some root
  | n :: p' =>
      match root with
      | File _ => None
      | Dir es =>
          match dir_get es n with
          | Some nd => fs_get nd p'
          | None => None
          end
      end
  end.

(** [p.exists()], [p.is_file()], [p.is_dir()] *)
Definition path_exists (root : node) (p : path) : bool :=
  match fs_get root p with Some _ => true | None => false end.

Definition is_file (root : node) (p : path) : bool :=
  match fs_get root p with Some (File _) => true | _ => false end.

Definition is_dir (root : node) (p : path) : bool :=
  match fs_get root p with Some (Dir _) => true | _ => false end.

(** [list(p.iterdir())], as entry names *)
Definition iterdir (root : node) (p : path) : result (list string) :=
  match fs_get root p with
  | Some (Dir es) => Ok (names es)
  | Some (File _) => Raise NotADirectoryError
  | None => Raise FileNotFoundError
  end.

(** The chain of new directories [mkdir(parents=True)] creates. *)
Fixpoint fresh_dirs (p : path) : node :=
  match p with
  | [] => Dir []
  | n :: p' => Dir [(n, fresh_dirs p')]
  end.

(** [p.mkdir(parents=True)] *)
Fixpoint mkdir_parents (root : node) (p : path) : result node :=
  match p with
  | [] => Raise DestinationExists
  | n :: p' =>
      match root with
      | File _ => Raise NotADirectoryError
      | Dir es =>
          match dir_get es n with
          | Some nd => nd' <- mkdir_parents nd p' ;; Ok (Dir (dir_set es n nd'))
          | None => Ok (Dir (es ++ [(n, fresh_dirs p')]))
          end
      end
  end.

(** Unlink the entry at [p] from its parent. *)
Fixpoint fs_remove (root : node) (p : path) : result node :=
  match p with
  | [] => Raise FileNotFoundError
  | n :: p' =>
      match root with
      | File _ => Raise NotADirectoryError
      | Dir es =>
          match p' with
          | [] => Ok (Dir (dir_del es n))
          | _ :: _ =>
              match dir_get es n with
              | Some nd => nd' <- fs_remove nd p' ;; Ok (Dir (dir_set es n nd'))
              | None => Raise FileNotFoundError
              end
          end
      end
  end.

(** Link [new] at [p], over whatever is there; the parent has to exist. *)
Fixpoint fs_put (root : node) (p : path) (new : node) : result node :=
  match p with
  | [] => Raise FileNotFoundError
  | n :: p' =>
      match root with
      | File _ => Raise NotADirectoryError
      | Dir es =>
          match p' with
          | [] => Ok (Dir (dir_set es n new))
          | _ :: _ =>
              match dir_get es n with
              | Some nd => nd' <- fs_put nd p' new ;; Ok (Dir (dir_set es n nd'))
              | None => Raise FileNotFoundError
              end
          end
      end
  end.

Fixpoint path_eqb (p q : path) : bool :=
  match p, q with
  | [], [] => true
  | a :: p', b :: q' => String.eqb a b && path_eqb p' q'
  | _, _ => false
  end.

Fixpoint is_prefix (p q : path) : bool :=
  match p, q with
  | [], _ => true
  | _ :: _, [] => false
  | a :: p', b :: q' => String.eqb a b && is_prefix p' q'
  end.

(** [os.rename(src, dst)] on one POSIX device: a file replaces a file, a
    directory replaces an empty directory, everything else that is in the
    way raises. *)
Definition rename (root : node) (src dst : path) : result node :=
  match fs_get root src with
  | None => Raise FileNotFoundError
  | Some moved =>
      if path_eqb src dst then Ok root
      else if is_prefix src dst then Raise NotADirectoryError
      else
        _ <- match fs_get root dst, moved with
             | None, _ => Ok tt
             | Some (File _), File _ => Ok tt
             | Some (File _), Dir _ => Raise NotADirectoryError
             | Some (Dir _), File _ => Raise IsADirectoryError
             | Some (Dir []), Dir _ => Ok tt
             | Some (Dir (_ :: _)), Dir _ => Raise DirectoryNotEmpty
             end ;;
        root1 <- fs_remove root src ;;
        fs_put root1 dst moved
  end.

(** The last component of a path, [os.path.basename]. *)
Definition basename (p : path) : string := last p "".

(** [shutil.move(src, dst)].  When [os.rename] raises, [shutil] falls back
    on copying, which on one device raises in its turn: the model keeps the
    exception of the rename. *)
Definition shutil_move (root : node) (src dst : path) : result node :=
  if is_dir root dst then
    if path_eqb src dst then rename root src dst
    else
      let real_dst := dst ++ [basename src] in
      if path_exists root real_dst then Raise DestinationExists
      else rename root src real_dst
  else rename root src dst.

(** The tree with the node at [p] replaced, for statements about what an
    operation below [p] leaves of the rest. *)
Fixpoint fs_replace (root : node) (p : path) (new : node) : node :=
  match p with
  | [] => new
  | n :: p' =>
      match root with
      | File c => File c
      | Dir es =>
          match dir_get es n with
          | Some child => Dir (dir_set es n (fs_replace child p' new))
          | None => Dir es
          end
      end
  end.

(** ** organize.py *)

(** [create_folder] *)
Definition create_folder (root : node) (p : path) : result node :=
  if negb (path_exists root p) then mkdir_parents root p else Ok root.

(** The inventory is a [dict]: keys in the order of their first insertion. *)
Definition inventory := list (string * list string).

Fixpoint inventory_add (inv : inventory) (ext file : string) : inventory :=
  match inv with
  | [] => [(ext, [file])]
  | (e, fs) :: inv' =>
      if String.eqb e ext then (e, fs ++ [file]) :: inv'
      else (e, fs) :: inventory_add inv' ext file
  end.

(** Lines 33-38: the first loop of [categorize_files_by_type], from the
    inventory it has reached. *)
Definition inventory_from (root : node) (base_path : path)
    (listing : list string) (inv : inventory) : inventory :=
  fold_left
    (fun inv file =>
       if is_file root (base_path ++ [file])
       then inventory_add inv (lower (suffix file)) file
       else inv)
    listing inv.

(** Lines 32-38 *)
Definition build_inventory (root : node) (base_path : path) (listing : list string)
  : inventory :=
  inventory_from root base_path listing [].

(** Lines 41-46: one round of the second loop. *)
Definition move_group (base_path : path) (root : node) (group : string * list string)
  : result node :=
  let '(ext, files) := group in
  let type_folder := path_join base_path (type_folder_name ext (List.length files)) in
  root1 <- create_folder root type_folder ;;
  for_each (fun r file => shutil_move r (base_path ++ [file]) type_folder) files root1.

(** [categorize_files_by_type]: the new file system and the keys returned. *)
Definition categorize_files_by_type (root : node) (base_path : path)
  : result (node * list string) :=
  listing <- iterdir root base_path ;;
  let file_inventory := build_inventory root base_path listing in
  root' <- for_each (move_group base_path) file_inventory root ;;
  Ok (root', map fst file_inventory).

(** *** Vocabulary for the statements about categorization *)

(** The direct regular files of the folder whose lowercased suffix is [k],
    in listing order. *)
Definition files_with_ext (es : dir) (k : string) : list string :=
  filter (fun f => is_file (Dir es) [f] && String.eqb (lower (suffix f)) k) (names es).

(** The name of the type folder of a group of the inventory. *)
Definition folder_of (g : string * list string) : string :=
  type_folder_name (fst g) (List.length (snd g)).

(** Nothing is in the way of moving [files] into the folder [F] of the
    directory: no entry bears the name [F], or a directory does that holds
    no entry named like one of the files. *)
Definition target_free (es : dir) (F : string) (files : list string) : Prop :=
  dir_get es F = None \/
  exists inside, dir_get es F = Some (Dir inside) /\
                 forall f, In f files -> dir_get inside f = None.

(** The entries a directory held under the name [F] before the run, none
    when [F] was not a directory. *)
Definition entries_before (es : dir) (F : string) : dir :=
  match dir_get es F with
  | Some (Dir inside) => inside
  | _ => []
  end.

(** [inv.get(k, [])] *)
Fixpoint group_of (inv : inventory) (k : string) : list string :=
  match inv with
  | [] => []
  | (e, fs) :: inv' => if String.eqb e k then fs else group_of inv' k
  end.

(** ** The registry, [bank.json] *)

(** A JSON object whose keys may be absent: [d.get(k, default)] reads an
    absent key as the default, [d[k]] raises [KeyError] on it. *)
Record account : Type := mkAccount {
  Account_ID : option string;
  Account_Name : option string
}.

Record bank_data : Type := mkBank {
  Bank_ID : option string;
  Accounts : option (list account)
}.

Definition json_data := list (string * bank_data).

Definition get_default {A : Type} (field : option A) (default : A) : A :=
  match field with Some v => v | None => default end.

Definition get_item {A : Type} (field : option A) : result A :=
  match field with Some v => Ok v | None => Raise KeyError end.

(** [all(...)] of a computation that is carried out on every element before
    anything is tested: one exception anywhere makes the whole raise. *)
Fixpoint collect {A : Type} (rs : list (result A)) : result (list A) :=
  match rs with
  | [] => Ok []
  | r :: rs' => a <- r ;; l <- collect rs' ;; Ok (a :: l)
  end.

Section Association.

(** [re.search(pattern, text)] as a truth value; [Raise ReError] when the
    pattern does not compile. *)
Variable re_search : string -> string -> result bool.

(** [move_to_bank_folder] *)
Definition move_to_bank_folder (root : node) (type_folder file : path) (bank : string)
  : result node :=
  let bank_folder := path_join type_folder bank in
  root1 <- create_folder root bank_folder ;;
  shutil_move root1 file bank_folder.

(** The body of the [try] of [check_csv_for_account_id]: pandas applies
    [str.contains] to every cell of every row and only then asks [any]. *)
Definition csv_contains (root : node) (file : path) (account_id : string)
  : result bool :=
  match fs_get root file with
  | None => Raise FileNotFoundError
  | Some (Dir _) => Raise IsADirectoryError
  | Some (File c) =>
      df <- as_csv c ;;
      hits <- collect (map (fun row => collect (map (re_search account_id) row)) df) ;;
      Ok (existsb (fun row => existsb (fun hit => hit) row) hits)
  end.

(** [check_csv_for_account_id]: [except Exception] turns a raise into
    [False]. *)
Definition check_csv_for_account_id (root : node) (file : path) (account_id : string)
  : bool :=
  match csv_contains root file account_id with
  | Ok found => found
  | Raise _ => false
  end.

(** The loop over the pages, which stops at the first page that holds the
    account ID and raises at the first page that cannot be read. *)
Fixpoint pages_contain (pages : list (result string)) (account_id : string)
  : result bool :=
  match pages with
  | [] => Ok false
  | page :: pages' =>
      text <- page ;;
      if is_substring account_id text then Ok true
      else pages_contain pages' account_id
  end.

(** The body of the [try] of [check_pdf_for_account_id]. *)
Definition pdf_contains (root : node) (file : path) (account_id : string)
  : result bool :=
  match fs_get root file with
  | None => Raise FileNotFoundError
  | Some (Dir _) => Raise IsADirectoryError
  | Some (File c) => pdf <- as_pdf c ;; pages_contain pdf account_id
  end.

(** [check_pdf_for_account_id] *)
Definition check_pdf_for_account_id (root : node) (file : path) (account_id : string)
  : bool :=
  match pdf_contains root file account_id with
  | Ok found => found
  | Raise _ => false
  end.

(** Lines 78-86: the account IDs against the file name.  The flag returned
    is [associated]. *)
Fixpoint accounts_by_filename (type_folder : path) (name bank : string)
    (accounts : list account) (root : node) : result (node * bool) :=
  match accounts with
  | [] => Ok (root, false)
  | acc :: accounts' =>
      let account_id := get_default (Account_ID acc) "" in
      hit <- re_search account_id name ;;
      if hit then
        _ <- get_item (Account_Name acc) ;;
        root' <- move_to_bank_folder root type_folder (type_folder ++ [name]) bank ;;
        Ok (root', true)
      else accounts_by_filename type_folder name bank accounts' root
  end.

(** Lines 92-99 and 102-109: the account IDs against the content, with the
    check of the file's type. *)
Fixpoint accounts_by_content (check : node -> path -> string -> bool)
    (type_folder : path) (name bank : string)
    (accounts : list account) (root : node) : result (node * bool) :=
  match accounts with
  | [] => Ok (root, false)
  | acc :: accounts' =>
      account_id <- get_item (Account_ID acc) ;;
      if check root (type_folder ++ [name]) account_id then
        _ <- get_item (Account_Name acc) ;;
        root' <- move_to_bank_folder root type_folder (type_folder ++ [name]) bank ;;
        Ok (root', true)
      else accounts_by_content check type_folder name bank accounts' root
  end.

(** Lines 89-109 *)
Definition by_content (type_folder : path) (name bank : string)
    (accounts : list account) (root : node) : result (node * bool) :=
  if String.eqb (lower (suffix name)) ".csv" then
    accounts_by_content check_csv_for_account_id type_folder name bank accounts root
  else if String.eqb (lower (suffix name)) ".pdf" then
    accounts_by_content check_pdf_for_account_id type_folder name bank accounts root
  else Ok (root, false).

(** Lines 66-111: the loop over the banks for one file. *)
Fixpoint banks_loop (type_folder : path) (name : string)
    (banks : json_data) (root : node) : result (node * bool) :=
  match banks with
  | [] => Ok (root, false)
  | (bank, data) :: banks' =>
      let bank_id := get_default (Bank_ID data) "" in
      let accounts := get_default (Accounts data) [] in
      hit <- (if is_substring bank name then Ok true else re_search bank_id name) ;;
      if hit then
        root' <- move_to_bank_folder root type_folder (type_folder ++ [name]) bank ;;
        Ok (root', true)
      else
        '(root1, associated) <- accounts_by_filename type_folder name bank accounts root ;;
        '(root2, associated) <-
           (if negb associated then by_content type_folder name bank accounts root1
            else Ok (root1, associated)) ;;
        if associated then Ok (root2, true)
        else banks_loop type_folder name banks' root2
  end.

(** Lines 64-111: one round of the loop over the files of a type folder. *)
Definition associate_file (type_folder : path) (json : json_data)
    (root : node) (name : string) : result node :=
  '(root', _) <- banks_loop type_folder name json root ;;
  Ok root'.

(** One round of the loop of [update_subfolder_counts]. *)
Definition update_subfolder (type_folder : path) (root : node) (name : string)
  : result node :=
  let subfolder := type_folder ++ [name] in
  if is_dir root subfolder then
    inside <- iterdir root subfolder ;;
    let new_name := counted_name name (List.length inside) in
    rename root subfolder (path_join type_folder new_name)
  else Ok root.

(** [update_subfolder_counts] *)
Definition update_subfolder_counts (root : node) (type_folder : path) : result node :=
  listing <- iterdir root type_folder ;;
  for_each (update_subfolder type_folder) listing root.

(** Lines 56-59: the folder the associator looks into. *)
Definition resolve_type_folder (root : node) (base_path : path) (file_type : string)
  : result path :=
  listing <- iterdir root (path_join base_path (upper (drop 1 file_type))) ;;
  Ok (path_join base_path
        (upper (drop 1 file_type) ++ "_" ++ str_nat (List.length listing))%string).

(** Lines 55-114: one round of the loop over the file types. *)
Definition associate_type (base_path : path) (json : json_data)
    (root : node) (file_type : string) : result node :=
  type_folder <- resolve_type_folder root base_path file_type ;;
  if negb (path_exists root type_folder) then Ok root
  else
    listing <- iterdir root type_folder ;;
    root' <- for_each (associate_file type_folder json) listing root ;;
    update_subfolder_counts root' type_folder.

(** [associate_files_with_sources] *)
Definition associate_files_with_sources (root : node) (base_path : path)
    (file_types : list string) (json : json_data) : result node :=
  for_each (associate_type base_path json) file_types root.

(** [main], on the folder the user names (the root of the tree, [None] when
    it does not exist) and the registry at [./bank.json] ([None] when that
    file does not exist).  The result is the folder as the run leaves it. *)
Definition main (folder : option node) (registry : option json_data)
  : result (option node) :=
  match folder, registry with
  | Some root, Some json =>
      '(root1, file_types) <- categorize_files_by_type root [] ;;
      root2 <- associate_files_with_sources root1 [] file_types json ;;
      Ok (Some root2)
  | _, _ => Ok folder
  end.

(** *** The order of attribution, as the specification words it

    A file is tested against the strategies of one bank (the bank in the
    file name, then the accounts in the file name, then the accounts in the
    content) before the next bank of the registry; the first test that
    succeeds names the bank. *)

Inductive strategy : Type :=
| BankInFilename
| AccountInFilename (acc : account)
| AccountInContent (acc : account).

Definition strategies_of (data : bank_data) : list strategy :=
  let accounts := get_default (Accounts data) [] in
  BankInFilename :: map AccountInFilename accounts ++ map AccountInContent accounts.

Definition attempt : Type := (string * bank_data * strategy)%type.

Definition attempts_of_bank (entry : string * bank_data) : list attempt :=
  map (fun s => (fst entry, snd entry, s)) (strategies_of (snd entry)).

(** The tests in the order they are tried: bank by bank. *)
Definition attempts (json : json_data) : list attempt :=
  flat_map attempts_of_bank json.

(** One test on the file [name] of [type_folder]. *)
Definition try_attempt (root : node) (type_folder : path) (name : string)
    (a : attempt) : result bool :=
  let '(bank, data, s) := a in
  match s with
  | BankInFilename =>
      if is_substring bank name then Ok true
      else re_search (get_default (Bank_ID data) "") name
  | AccountInFilename acc =>
      hit <- re_search (get_default (Account_ID acc) "") name ;;
      if hit then _ <- get_item (Account_Name acc) ;; Ok true else Ok false
  | AccountInContent acc =>
      if String.eqb (lower (suffix name)) ".csv" then
        account_id <- get_item (Account_ID acc) ;;
        if check_csv_for_account_id root (type_folder ++ [name]) account_id
        then _ <- get_item (Account_Name acc) ;; Ok true else Ok false
      else if String.eqb (lower (suffix name)) ".pdf" then
        account_id <- get_item (Account_ID acc) ;;
        if check_pdf_for_account_id root (type_folder ++ [name]) account_id
        then _ <- get_item (Account_Name acc) ;; Ok true else Ok false
      else Ok false
  end.

(** The bank of the first test that succeeds. *)
Fixpoint first_match (root : node) (type_folder : path) (name : string)
    (l : list attempt) : result (option string) :=
  match l with
  | [] => Ok None
  | a :: l' =>
      hit <- try_attempt root type_folder name a ;;
      if hit then Ok (Some (fst (fst a))) else first_match root type_folder name l'
  end.

(** What attribution does with the outcome: move the file to the bank's
    subfolder, or leave everything as it is. *)
Definition settle (root : node) (type_folder : path) (name : string)
    (outcome : result (option string)) : result (node * bool) :=
  match outcome with
  | Ok (Some bank) =>
      root' <- move_to_bank_folder root type_folder (type_folder ++ [name]) bank ;;
      Ok (root', true)
  | Ok None => Ok (root, false)
  | Raise e => Raise e
  end.

End Association.

(** [re.search] on patterns without metacharacters, where it is the search
    for the pattern as a literal. *)
Definition literal_search (pattern text : string) : result bool :=
  Ok (is_substring pattern text).

(** ** Sample data *)

(** A file neither reader can read. *)
Definition unreadable : content := mkContent (Raise ReadError) (Raise ReadError).

(** A file [read_csv] parses into the given rows. *)
Definition csv_file (rows : list (list string)) : node :=
  File (mkContent (Ok rows) (Raise ReadError)).

(** A file [fitz] opens with the given page texts. *)
Definition pdf_file (pages : list string) : node :=
  File (mkContent (Raise ReadError) (Ok (map Ok pages))).

(** The registry and the folder of the scenario of the specification. *)
Definition chase_registry : json_data :=
  [("Chase", mkBank (Some "CHK1") (Some [mkAccount (Some "9988") (Some "Savings")]))].

Definition scenario_folder : node :=
  Dir [("statement_9988.csv", csv_file [["date"; "amount"]]);
       ("random.csv", csv_file [["x"]])].

(** A registry whose second bank has an empty [Bank_ID]. *)
Definition two_banks : json_data :=
  [("Alpha", mkBank (Some "AAA") (Some []));
   ("Beta", mkBank (Some "") (Some []))].

(** ** Vocabulary for the further properties *)

(** The direct regular files of the directory have ASCII names. *)
Definition ascii_files (es : dir) : Prop :=
  forall f, In f (names es) -> is_file (Dir es) [f] = true -> is_ascii_name f = true.

(** The banks of the registry have names that join as one component. *)
Definition entry_names (json : json_data) : Prop :=
  forall bank data, In (bank, data) json -> is_entry_name bank = true.

(** Nothing is in the way of any type folder of the directory. *)
Definition type_folders_free (es : dir) : Prop :=
  forall f, In f (names es) -> is_file (Dir es) [f] = true ->
            target_free es
              (type_folder_name (lower (suffix f))
                 (List.length (files_with_ext es (lower (suffix f)))))
              (files_with_ext es (lower (suffix f))).

(** The names of the type folders categorization makes for the directory. *)
Definition is_type_folder_of (es : dir) (x : string) : Prop :=
  exists f, In f (names es) /\ is_file (Dir es) [f] = true /\
            x = type_folder_name (lower (suffix f))
                  (List.length (files_with_ext es (lower (suffix f)))).

(** The result of a loop run in the folder at [type_folder], put back into
    the tree. *)
Definition put_back (type_folder : path) (root : node) (m : result (node * bool))
  : result (node * bool) :=
  '(nd', flag) <- m ;; Ok (fs_replace root type_folder nd', flag).

(** ** What the content checks print *)

Inductive reader : Type := CSV | PDF.

(** The lines the two checks print, with the values they are built from. *)
Inductive line : Type :=
| Checking (r : reader) (file : path) (account_id : string)
| Found (file : path) (account_id : string)
| FoundOnPage (page_number : nat) (file : path) (account_id : string)
| ErrorReading (r : reader) (file : path) (e : exn).

(** The loop over the pages with the number [enumerate] gives the page: the
    number of the first page that holds the account ID. *)
Fixpoint page_of (pages : list (result string)) (account_id : string)
    (page_number : nat) : result (option nat) :=
  match pages with
  | [] => Ok None
  | page :: pages' =>
      text <- page ;;
      if is_substring account_id text then Ok (Some page_number)
      else page_of pages' account_id (S page_number)
  end.

Section Output.

Variable re_search : string -> string -> result bool.

(** [check_csv_for_account_id] with its output: the value returned and the
    lines printed, in order. *)
Definition check_csv_with_output (root : node) (file : path) (account_id : string)
  : bool * list line :=
  match csv_contains re_search root file account_id with
  | Ok true => (true, [Checking CSV file account_id; Found file account_id])
  | Ok false => (false, [Checking CSV file account_id])
  | Raise e => (false, [Checking CSV file account_id; ErrorReading CSV file e])
  end.

(** The body of the [try] of [check_pdf_for_account_id], with the page of
    the match. *)
Definition pdf_page (root : node) (file : path) (account_id : string)
  : result (option nat) :=
  match fs_get root file with
  | None => Raise FileNotFoundError
  | Some (Dir _) => Raise IsADirectoryError
  | Some (File c) => pdf <- as_pdf c ;; page_of pdf account_id 1
  end.

(** [check_pdf_for_account_id] with its output. *)
Definition check_pdf_with_output (root : node) (file : path) (account_id : string)
  : bool * list line :=
  match pdf_page root file account_id with
  | Ok (Some page_number) =>
      (true, [Checking PDF file account_id; FoundOnPage page_number file account_id])
  | Ok None => (false, [Checking PDF file account_id])
  | Raise e => (false, [Checking PDF file account_id; ErrorReading PDF file e])
  end.

End Output.
(** * Properties

    ** The string helpers on sample names *)

Example suffix_csv : suffix "statement_9988.csv" = ".csv".
Proof. reflexivity. Qed.

Example suffix_hidden : suffix ".bashrc" = "".
Proof. reflexivity. Qed.

Example suffix_trailing_dot : suffix "notes." = "".
Proof. reflexivity. Qed.

Example stem_dotted : stem "U.S. Bank" = "U.S".
Proof. reflexivity. Qed.

Example type_folder_name_csv : type_folder_name ".csv" 12 = "CSV_12".
Proof. reflexivity. Qed.

(** ** Directory entries *)

Lemma dir_get_set_eq (es : dir) (n : string) (v : node) :
  dir_get (dir_set es n v) n = Some v.
Proof.
  induction es as [|[m nd] es IH]; simpl.
  - now rewrite String.eqb_refl.
  - destruct (String.eqb m n) eqn:E; simpl; rewrite E; auto.
Qed.

Lemma dir_get_set_neq (es : dir) (n m : string) (v : node) :
  n <> m -> dir_get (dir_set es n v) m = dir_get es m.
Proof.
  intros Hnm. induction es as [|[k nd] es IH]; simpl.
  - apply String.eqb_neq in Hnm. now rewrite Hnm.
  - destruct (String.eqb k n) eqn:E; simpl.
    + apply String.eqb_eq in E. subst k.
      apply String.eqb_neq in Hnm. now rewrite Hnm.
    + now rewrite IH.
Qed.

Lemma dir_get_del_eq (es : dir) (n : string) : dir_get (dir_del es n) n = None.
Proof.
  induction es as [|[m nd] es IH]; simpl; auto.
  destruct (String.eqb m n) eqn:E; simpl; auto. now rewrite E.
Qed.

Lemma dir_get_del_neq (es : dir) (n m : string) :
  n <> m -> dir_get (dir_del es n) m = dir_get es m.
Proof.
  intros Hnm. induction es as [|[k nd] es IH]; simpl; auto.
  destruct (String.eqb k n) eqn:E; simpl.
  - apply String.eqb_eq in E. subst k.
    apply String.eqb_neq in Hnm. now rewrite Hnm.
  - now rewrite IH.
Qed.

Lemma dir_get_app (es : dir) (n m : string) (v : node) :
  dir_get es n = None ->
  dir_get (es ++ [(n, v)]) m = if String.eqb n m then Some v else dir_get es m.
Proof.
  induction es as [|[k nd] es IH]; simpl; intros H; auto.
  destruct (String.eqb k n) eqn:E; [discriminate|].
  destruct (String.eqb k m) eqn:E'.
  - apply String.eqb_eq in E'. subst m. now rewrite String.eqb_sym, E.
  - auto.
Qed.

Lemma dir_get_In (es : dir) (n : string) (nd : node) :
  dir_get es n = Some nd -> In n (names es).
Proof.
  induction es as [|[k v] es IH]; simpl; [discriminate|].
  destruct (String.eqb k n) eqn:E; intros H.
  - left. now apply String.eqb_eq.
  - right. auto.
Qed.

Lemma dir_get_None (es : dir) (n : string) :
  dir_get es n = None <-> ~ In n (names es).
Proof.
  induction es as [|[k v] es IH]; simpl.
  - tauto.
  - destruct (String.eqb k n) eqn:E.
    + apply String.eqb_eq in E. split; [discriminate | tauto].
    + apply String.eqb_neq in E. tauto.
Qed.

(** ** The keys of the inventory *)

Lemma inventory_add_keys (inv : inventory) (ext file : string) :
  map fst (inventory_add inv ext file) =
  if in_dec string_dec ext (map fst inv) then map fst inv else map fst inv ++ [ext].
Proof.
  induction inv as [|[e fs] inv IH]; simpl; auto.
  destruct (String.eqb e ext) eqn:E; simpl.
  - apply String.eqb_eq in E. destruct (string_dec e ext); [|contradiction].
    reflexivity.
  - apply String.eqb_neq in E. destruct (string_dec e ext); [contradiction|].
    rewrite IH. destruct (in_dec string_dec ext (map fst inv)); reflexivity.
Qed.

Lemma inventory_add_NoDup (inv : inventory) (ext file : string) :
  NoDup (map fst inv) -> NoDup (map fst (inventory_add inv ext file)).
Proof.
  intros H. rewrite inventory_add_keys.
  destruct (in_dec string_dec ext (map fst inv)) as [|Hn]; auto.
  apply NoDup_app; auto.
  - constructor; [simpl; tauto | constructor].
  - intros x Hx [<-|[]]. contradiction.
Qed.

Lemma inventory_add_key_In (inv : inventory) (ext file k : string) :
  In k (map fst (inventory_add inv ext file)) <-> In k (map fst inv) \/ k = ext.
Proof.
  rewrite inventory_add_keys.
  destruct (in_dec string_dec ext (map fst inv)) as [Hi|Hn].
  - split; [tauto|]. intros [H | ->]; auto.
  - rewrite in_app_iff. simpl. intuition.
Qed.

Lemma inventory_from_NoDup root base listing : forall inv,
  NoDup (map fst inv) -> NoDup (map fst (inventory_from root base listing inv)).
Proof.
  induction listing as [|f l IH]; simpl; intros inv H; auto.
  apply IH. destruct (is_file root (base ++ [f])); auto.
  now apply inventory_add_NoDup.
Qed.

Lemma inventory_from_key_In root base listing : forall inv k,
  In k (map fst (inventory_from root base listing inv)) <->
  In k (map fst inv) \/
  exists f, In f listing /\ is_file root (base ++ [f]) = true /\ k = lower (suffix f).
Proof.
  induction listing as [|f l IH]; simpl; intros inv k.
  - split; [tauto|]. intros [H|(f & [] & _)]; auto.
  - rewrite IH. destruct (is_file root (base ++ [f])) eqn:E.
    + rewrite inventory_add_key_In. split.
      * intros [[H | ->] | (g & Hg & Hf & Hk)]; eauto 7.
      * intros [H | (g & [<- | Hg] & Hf & Hk)]; eauto 7.
    + split.
      * intros [H | (g & Hg & Hf & Hk)]; eauto 7.
      * intros [H | (g & [<- | Hg] & Hf & Hk)]; eauto 7. congruence.
Qed.

(** A loop over a list in two parts. *)
Lemma for_each_app {S X : Type} (body : S -> X -> result S) (l1 l2 : list X) (s : S) :
  for_each body (l1 ++ l2) s = (s1 <- for_each body l1 s ;; for_each body l2 s1).
Proof.
  revert s. induction l1 as [|x l1 IH]; intros s; simpl; auto.
  destruct (body s x); simpl; auto.
Qed.


(** ** What categorization returns *)

(** C8, as the code has it: when categorization returns on a folder whose
    direct regular files have ASCII names, its keys are pairwise distinct
    and are exactly the lowercased suffixes of the direct regular files of
    the folder, each with its leading dot (the empty string for a file
    without suffix). *)
Theorem categorize_returns_dotted_suffixes (es : dir) (root' : node) (keys : list string) :
  ascii_files es ->
  categorize_files_by_type (Dir es) [] = Ok (root', keys) ->
  NoDup keys /\
  forall k, In k keys <->
            exists f, In f (names es) /\ is_file (Dir es) [f] = true /\
                      k = lower (suffix f).
Proof.
  intros _. unfold categorize_files_by_type, iterdir. simpl. unfold build_inventory.
  destruct (for_each _ _ _) as [r|e]; simpl; [|discriminate].
  intros H. injection H as _ <-. split.
  - apply inventory_from_NoDup. constructor.
  - intros k. rewrite inventory_from_key_In. simpl. tauto.
Qed.

Lemma categorize_returns_dotted_suffixes_witness :
  let es := [("a.csv", csv_file []); ("B.PDF", pdf_file []); ("c.csv", csv_file [])] in
  NoDup [".csv"; ".pdf"] /\
  forall k, In k [".csv"; ".pdf"] <->
            exists f, In f (names es) /\ is_file (Dir es) [f] = true /\
                      k = lower (suffix f).
Proof.
  intros es.
  apply (@categorize_returns_dotted_suffixes es
           (Dir [("CSV_2", Dir [("a.csv", csv_file []); ("c.csv", csv_file [])]);
                 ("PDF_1", Dir [("B.PDF", pdf_file [])])])).
  - intros f [<- | [<- | [<- | []]]] _; reflexivity.
  - reflexivity.
Defined.

(** C8, as the claim has it, fails: for a folder that holds [a.csv] the key
    returned is [.csv], with its dot, and [csv] is not among the keys. *)
Lemma categorize_keys_keep_the_dot :
  exists root' keys,
    categorize_files_by_type (Dir [("a.csv", csv_file [])]) [] = Ok (root', keys) /\
    In ".csv" keys /\ ~ In "csv" keys.
Proof.
  eexists. eexists. split; [reflexivity|]. split.
  - simpl. auto.
  - simpl. intros [H|[]]. discriminate.
Qed.

(** ** Names of type folders *)

Lemma digits_no_underscore (d : Decimal.uint) :
  occurs "_" (NilEmpty.string_of_uint d) = false.
Proof. induction d; simpl; auto. Qed.

Lemma str_nat_no_underscore (n : nat) : occurs "_" (str_nat n) = false.
Proof.
  unfold str_nat, NilZero.string_of_uint.
  destruct (Nat.to_uint n) eqn:E; try reflexivity;
    rewrite <- E at 1; rewrite E; apply digits_no_underscore.
Qed.

Lemma occurs_append (c : ascii) (s t : string) :
  occurs c (s ++ t)%string = occurs c s || occurs c t.
Proof.
  induction s as [|a s IH]; simpl; auto. rewrite IH. now rewrite orb_assoc.
Qed.

(** A name [s_d] with [d] free of underscores splits in one way only. *)
Lemma split_last_underscore (s1 s2 d1 d2 : string) :
  occurs "_" d1 = false -> occurs "_" d2 = false ->
  (s1 ++ "_" ++ d1)%string = (s2 ++ "_" ++ d2)%string ->
  s1 = s2 /\ d1 = d2.
Proof.
  revert s2. induction s1 as [|a s1 IH]; intros [|b s2] H1 H2; simpl; intros E.
  - injection E as E. auto.
  - injection E as Ec Ed. subst d1. subst b.
    rewrite occurs_append in H1. simpl in H1.
    rewrite orb_true_r in H1. discriminate.
  - injection E as Ec Ed. subst d2. subst a.
    rewrite occurs_append in H2. simpl in H2.
    rewrite orb_true_r in H2. discriminate.
  - injection E as Ec Ed. subst b. destruct (IH s2 H1 H2 Ed) as [-> ->]. auto.
Qed.

Lemma lower_upper_lower_ascii (c : ascii) :
  lower_ascii (upper_ascii (lower_ascii c)) = lower_ascii c.
Proof. destruct c as [[] [] [] [] [] [] [] []]; reflexivity. Qed.

Lemma lower_upper_lower (s : string) : lower (upper (lower s)) = lower s.
Proof.
  unfold lower, upper. induction s as [|c s IH]; simpl; auto.
  now rewrite lower_upper_lower_ascii, IH.
Qed.

Lemma drop_map_string (f : ascii -> ascii) (i : nat) : forall s,
  drop i (map_string f s) = map_string f (drop i s).
Proof. induction i as [|i IH]; intros [|c s]; simpl; auto. Qed.

Lemma rfind_drop (c : ascii) : forall s i,
  rfind c s = Some i ->
  exists t, drop i s = String c t /\ String.length s = i + 1 + String.length t.
Proof.
  induction s as [|a s IH]; simpl; intros i H; [discriminate|].
  destruct (rfind c s) as [j|] eqn:E.
  - injection H as <-. destruct (IH j eq_refl) as (t & Ht & Hl).
    exists t. simpl. split; auto.
  - destruct (Ascii.eqb a c) eqn:Ea; [|discriminate].
    injection H as <-. apply Ascii.eqb_eq in Ea. subst a.
    exists s. simpl. auto.
Qed.

Lemma suffix_shape (name : string) : is_suffix_shape (suffix name).
Proof.
  unfold suffix, split_point.
  destruct (rfind "." name) as [i|] eqn:E; [|now left].
  destruct ((0 <? i) && (i <? String.length name - 1)) eqn:B; [|now left].
  apply andb_prop in B. destruct B as [_ B]. apply Nat.ltb_lt in B.
  destruct (rfind_drop _ _ E) as (t & Ht & Hl). rewrite Ht.
  destruct t as [|c t]; simpl in Hl; [lia|]. right. eauto.
Qed.

Lemma lower_suffix_shape (name : string) : is_suffix_shape (lower (suffix name)).
Proof.
  destruct (suffix_shape name) as [-> | (c & t & ->)]; [now left|].
  right. exists (lower_ascii c), (lower t). reflexivity.
Qed.

Lemma type_folder_name_nonempty (ext : string) (n : nat) :
  String.eqb (type_folder_name ext n) "" = false.
Proof.
  apply String.eqb_neq. unfold type_folder_name. intros H.
  assert (O : occurs "_" (upper (drop 1 ext) ++ "_" ++ str_nat n)%string = true).
  { rewrite occurs_append. simpl. now rewrite orb_true_r. }
  rewrite H in O. discriminate.
Qed.

(** Two keys of one inventory name two different type folders. *)
Lemma type_folder_name_inj (f g : string) (n m : nat) :
  type_folder_name (lower (suffix f)) n = type_folder_name (lower (suffix g)) m ->
  lower (suffix f) = lower (suffix g).
Proof.
  unfold type_folder_name. intros H.
  apply split_last_underscore in H; auto using str_nat_no_underscore.
  destruct H as [H _].
  assert (D : drop 1 (lower (suffix f)) = drop 1 (lower (suffix g))).
  { unfold lower at 1 2. rewrite !drop_map_string.
    fold (lower (drop 1 (suffix f))). fold (lower (drop 1 (suffix g))).
    rewrite <- (lower_upper_lower (drop 1 (suffix f))).
    rewrite <- (lower_upper_lower (drop 1 (suffix g))).
    unfold lower at 2 4. rewrite <- !drop_map_string.
    fold (lower (suffix f)). fold (lower (suffix g)). now rewrite H. }
  destruct (lower_suffix_shape f) as [Ef | (c & t & Ef)];
    destruct (lower_suffix_shape g) as [Eg | (c' & t' & Eg)];
    rewrite Ef, Eg in *; simpl in D; try discriminate; congruence.
Qed.

(** ** Moving the files of one group *)

Lemma shutil_move_into (es inside : dir) (f F : string) (nd : node) :
  f <> F ->
  dir_get es f = Some nd ->
  dir_get es F = Some (Dir inside) ->
  dir_get inside f = None ->
  shutil_move (Dir es) [f] [F] =
  Ok (Dir (dir_set (dir_del es f) F (Dir (dir_set inside f nd)))).
Proof.
  intros Hne Hf HF Hin.
  assert (Hb : String.eqb f F = false) by now apply String.eqb_neq.
  unfold shutil_move, is_dir, path_exists, rename. simpl.
  rewrite HF, Hb. simpl. change (basename [f]) with f.
  rewrite Hin, Hf. simpl.
  rewrite dir_get_del_neq, HF by auto. reflexivity.
Qed.

Lemma dir_set_absent (es : dir) (n : string) (v : node) :
  dir_get es n = None -> dir_set es n v = es ++ [(n, v)].
Proof.
  induction es as [|[k nd] es IH]; simpl; auto.
  destruct (String.eqb k n); [discriminate|]. intros H. now rewrite IH.
Qed.

Lemma file_is_not_target (es : dir) (f F : string) (c : content) (files : list string) :
  dir_get es f = Some (File c) -> target_free es F files -> f <> F.
Proof.
  intros Hf [HF | (inside & HF & _)] ->; congruence.
Qed.

Lemma move_files_ok (F : string) : forall files es inside,
  NoDup files ->
  dir_get es F = Some (Dir inside) ->
  (forall f, In f files ->
             f <> F /\ (exists nd, dir_get es f = Some nd) /\ dir_get inside f = None) ->
  exists es' inside',
    for_each (fun r file => shutil_move r ([] ++ [file]) [F]) files (Dir es) = Ok (Dir es') /\
    dir_get es' F = Some (Dir inside') /\
    (forall f, In f files -> dir_get es' f = None /\ dir_get inside' f = dir_get es f) /\
    (forall x, ~ In x files -> dir_get inside' x = dir_get inside x) /\
    (forall x, x <> F -> ~ In x files -> dir_get es' x = dir_get es x) /\
    names inside' = names inside ++ files.
Proof.
  induction files as [|f files IH]; intros es inside Hnd HF Hfiles.
  - exists es, inside. simpl. rewrite app_nil_r. repeat split; auto; contradiction.
  - inversion Hnd as [|? ? Hnotin Hnd']; subst.
    destruct (Hfiles f (or_introl eq_refl)) as (HfF & (nd & Hf) & Hin).
    simpl. rewrite (shutil_move_into _ HfF Hf HF Hin). simpl.
    set (es1 := dir_set (dir_del es f) F (Dir (dir_set inside f nd))).
    assert (Hes1 : forall x, x <> F -> x <> f -> dir_get es1 x = dir_get es x).
    { intros x HxF Hxf. unfold es1.
      rewrite dir_get_set_neq, dir_get_del_neq; auto. }
    destruct (IH es1 (dir_set inside f nd))
      as (es' & inside' & Hrun & HF' & Hin' & Hfr & Hfr' & Hnames).
    + assumption.
    + unfold es1. apply dir_get_set_eq.
    + intros g Hg. destruct (Hfiles g (or_intror Hg)) as (HgF & (ndg & Hgs) & Hgin).
      assert (g <> f) by (intros ->; contradiction).
      split; auto. split.
      * exists ndg. rewrite Hes1; auto.
      * rewrite dir_get_set_neq; auto.
    + exists es', inside'. split; [exact Hrun|]. split; [exact HF'|].
      split; [|split; [|split]].
      * intros g [<- | Hg].
        -- split.
           ++ rewrite Hfr' by auto. unfold es1.
              rewrite dir_get_set_neq by auto. apply dir_get_del_eq.
           ++ rewrite Hfr by auto. rewrite dir_get_set_eq. auto.
        -- destruct (Hin' g Hg) as [H1 H2]. split; auto.
           rewrite H2. destruct (Hfiles g (or_intror Hg)) as (HgF & _ & _).
           apply Hes1; auto. intros ->; contradiction.
      * intros x Hx. simpl in Hx. rewrite Hfr by tauto.
        apply dir_get_set_neq; intros ->; tauto.
      * intros x HxF Hx. simpl in Hx. rewrite Hfr' by tauto.
        apply Hes1; auto; intros ->; tauto.
      * rewrite Hnames, (dir_set_absent _ _ _ Hin). unfold names.
        rewrite map_app, <- app_assoc. reflexivity.
Qed.

Lemma path_join_type_folder (ext : string) (n : nat) :
  path_join [] (type_folder_name ext n) = [type_folder_name ext n].
Proof. unfold path_join. now rewrite type_folder_name_nonempty. Qed.

Lemma move_group_ok (es : dir) (g : string * list string) :
  NoDup (snd g) ->
  (forall f, In f (snd g) -> exists c, dir_get es f = Some (File c)) ->
  target_free es (folder_of g) (snd g) ->
  exists es' inside',
    move_group [] (Dir es) g = Ok (Dir es') /\
    dir_get es' (folder_of g) = Some (Dir inside') /\
    (forall f, In f (snd g) -> dir_get es' f = None /\ dir_get inside' f = dir_get es f) /\
    (forall x, ~ In x (snd g) ->
               dir_get inside' x = dir_get (entries_before es (folder_of g)) x) /\
    (forall x, x <> folder_of g -> ~ In x (snd g) -> dir_get es' x = dir_get es x) /\
    names inside' = names (entries_before es (folder_of g)) ++ snd g.
Proof.
  destruct g as [ext files]. unfold folder_of, entries_before, move_group.
  simpl fst; simpl snd. rewrite path_join_type_folder.
  set (F := type_folder_name ext (List.length files)).
  intros Hnd Hfiles Hfree.
  assert (HneF : forall f, In f files -> f <> F).
  { intros f Hf. destruct (Hfiles f Hf) as (c & Hc).
    eapply file_is_not_target; eauto. }
  unfold create_folder, path_exists. simpl.
  destruct Hfree as [HF | (inside & HF & Hins)]; rewrite HF; simpl.
  - assert (Hget : forall x, dir_get (es ++ [(F, Dir [])]) x =
                             if String.eqb F x then Some (Dir []) else dir_get es x).
    { intros x. now apply dir_get_app. }
    destruct (@move_files_ok F files (es ++ [(F, Dir [])]) [])
      as (es' & inside' & Hrun & HF' & Hin' & Hfr & Hfr' & Hnames); auto.
    + rewrite Hget. now rewrite String.eqb_refl.
    + intros f Hf. split; auto. split; auto.
      destruct (Hfiles f Hf) as (c & Hc). exists (File c).
      rewrite Hget. specialize (HneF f Hf).
      destruct (String.eqb F f) eqn:E; auto.
      apply String.eqb_eq in E. congruence.
    + exists es', inside'. split; [exact Hrun|]. split; [exact HF'|].
      split; [|split; [|split]]; [| | |exact Hnames].
      * intros f Hf. destruct (Hin' f Hf) as [H1 H2]. split; auto.
        rewrite H2, Hget. specialize (HneF f Hf).
        destruct (String.eqb F f) eqn:E; auto.
        apply String.eqb_eq in E. congruence.
      * intros x Hx. now rewrite Hfr.
      * intros x HxF Hx. rewrite Hfr', Hget by auto.
        destruct (String.eqb F x) eqn:E; auto.
        apply String.eqb_eq in E. congruence.
  - destruct (@move_files_ok F files es inside)
      as (es' & inside' & Hrun & HF' & Hin' & Hfr & Hfr' & Hnames); auto.
    + intros f Hf. split; auto. split; auto.
      destruct (Hfiles f Hf) as (c & Hc). eauto.
    + exists es', inside'. auto 10.
Qed.

(** ** Moving every group *)

Lemma NoDup_app_disjoint {A : Type} (l1 l2 : list A) :
  NoDup (l1 ++ l2) -> forall a, In a l1 -> ~ In a l2.
Proof.
  induction l1 as [|x l1 IH]; simpl; intros H a Ha Hb; [contradiction|].
  inversion H as [|? ? Hx Hrest]; subst. destruct Ha as [<- | Ha].
  - apply Hx. apply in_or_app. now right.
  - now apply (IH Hrest a).
Qed.

Lemma in_group_files (inv : inventory) (f : string) :
  In f (List.concat (map snd inv)) <-> exists g, In g inv /\ In f (snd g).
Proof.
  rewrite in_concat. split.
  - intros (l & Hl & Hf). apply in_map_iff in Hl. destruct Hl as (g & <- & Hg). eauto.
  - intros (g & Hg & Hf). exists (snd g). split; auto. now apply in_map.
Qed.

Lemma target_free_ext (es es' : dir) (F : string) (files : list string) :
  dir_get es' F = dir_get es F -> target_free es F files -> target_free es' F files.
Proof. unfold target_free. intros ->. auto. Qed.

Lemma move_groups_ok : forall (inv : inventory) (es : dir),
  NoDup (map folder_of inv) ->
  NoDup (List.concat (map snd inv)) ->
  (forall g f, In g inv -> In f (snd g) -> exists c, dir_get es f = Some (File c)) ->
  (forall g, In g inv -> target_free es (folder_of g) (snd g)) ->
  exists es',
    for_each (move_group []) inv (Dir es) = Ok (Dir es') /\
    (forall g, In g inv ->
       exists inside',
         dir_get es' (folder_of g) = Some (Dir inside') /\
         (forall f, In f (snd g) ->
                    dir_get es' f = None /\ dir_get inside' f = dir_get es f) /\
         (forall x, ~ In x (snd g) ->
                    dir_get inside' x = dir_get (entries_before es (folder_of g)) x) /\
         names inside' = names (entries_before es (folder_of g)) ++ snd g) /\
    (forall x, ~ In x (map folder_of inv) -> ~ In x (List.concat (map snd inv)) ->
               dir_get es' x = dir_get es x).
Proof.
  induction inv as [|g inv IH]; intros es Hfold Hcat Hfiles Hfree.
  - exists es. simpl. split; [reflexivity|]. split; [intros g []|auto].
  - simpl in Hfold, Hcat.
    inversion Hfold as [|? ? Hgnot Hfold']; subst.
    pose proof (NoDup_app_remove_r _ _ Hcat) as Hg_nd.
    pose proof (NoDup_app_remove_l _ _ Hcat) as Hcat'.
    pose proof (NoDup_app_disjoint _ _ Hcat) as Hdisj.
    assert (Hfile_folder : forall h g' f, In h (g :: inv) -> In f (snd h) ->
                                          In g' (g :: inv) -> f <> folder_of g').
    { intros h g' f Hh Hf Hg'. destruct (Hfiles h f Hh Hf) as (c & Hc).
      eapply file_is_not_target; eauto. }
    destruct (@move_group_ok es g) as (es1 & inside1 & Hrun1 & HF1 & Hin1 & Hold1 & Hfr1 & Hnames1).
    { assumption. }
    { intros f Hf. apply (Hfiles g f); simpl; auto. }
    { apply Hfree. simpl. auto. }
    assert (Hkeep_file : forall h f, In h inv -> In f (snd h) -> dir_get es1 f = dir_get es f).
    { intros h f Hh Hf. apply Hfr1.
      - apply (Hfile_folder h g f); simpl; auto.
      - intros Hfg. apply (Hdisj f Hfg). apply in_group_files. eauto. }
    assert (Hkeep_folder : forall h, In h inv ->
                                     dir_get es1 (folder_of h) = dir_get es (folder_of h)).
    { intros h Hh. apply Hfr1.
      - intros E. apply Hgnot. rewrite <- E. now apply in_map.
      - intros Hfg. apply (Hfile_folder g h (folder_of h)); simpl; auto. }
    destruct (IH es1) as (es' & Hrun & Hgroups & Hframe); auto.
    { intros h f Hh Hf. rewrite (Hkeep_file h f Hh Hf). apply (Hfiles h f); simpl; auto. }
    { intros h Hh. eapply target_free_ext; [apply Hkeep_folder; auto|].
      apply Hfree. simpl. auto. }
    exists es'. split; [|split].
    + simpl. rewrite Hrun1. simpl. exact Hrun.
    + intros h [<- | Hh].
      * assert (Hsame : dir_get es' (folder_of g) = dir_get es1 (folder_of g)).
        { apply Hframe; auto. intros Hc. apply in_group_files in Hc.
          destruct Hc as (h & Hh & Hf).
          apply (Hfile_folder h g (folder_of g)); simpl; auto. }
        exists inside1. split; [congruence|]. split; [|auto].
        intros f Hf. destruct (Hin1 f Hf) as [H1 H2]. split; auto.
        rewrite <- H1. apply Hframe.
        -- intros Hc. apply in_map_iff in Hc. destruct Hc as (h & Hhf & Hh).
           apply (Hfile_folder g h f); simpl; auto.
        -- now apply Hdisj.
      * destruct (Hgroups h Hh) as (inside' & HF' & Hin' & Hold' & Hnames').
        assert (Hbefore : entries_before es1 (folder_of h) = entries_before es (folder_of h)).
        { unfold entries_before. now rewrite Hkeep_folder. }
        exists inside'. split; auto. split; [|split].
        -- intros f Hf. destruct (Hin' f Hf) as [H1 H2]. split; auto.
           rewrite H2. eapply Hkeep_file; eauto.
        -- intros x Hx. rewrite (Hold' x Hx). now rewrite Hbefore.
        -- now rewrite Hnames', Hbefore.
    + intros x Hx1 Hx2. simpl in Hx1, Hx2. rewrite Hframe.
      * apply Hfr1; [intros E; apply Hx1; left; congruence|]. intros Hc. apply Hx2. apply in_or_app. now left.
      * tauto.
      * intros Hc. apply Hx2. apply in_or_app. now right.
Qed.

(** ** The groups of the inventory *)

Lemma group_of_add (inv : inventory) (ext file k : string) :
  group_of (inventory_add inv ext file) k =
  group_of inv k ++ (if String.eqb ext k then [file] else []).
Proof.
  induction inv as [|[e fs] inv IH]; simpl.
  - destruct (String.eqb ext k); reflexivity.
  - destruct (String.eqb e ext) eqn:E; simpl.
    + apply String.eqb_eq in E. subst e.
      destruct (String.eqb ext k); auto using app_nil_r.
    + destruct (String.eqb e k) eqn:E'; auto.
      apply String.eqb_eq in E'. subst e. rewrite String.eqb_sym, E. now rewrite app_nil_r.
Qed.

Lemma group_of_inventory_from root base : forall listing inv k,
  group_of (inventory_from root base listing inv) k =
  group_of inv k ++
  filter (fun f => is_file root (base ++ [f]) && String.eqb (lower (suffix f)) k) listing.
Proof.
  induction listing as [|f l IH]; intros inv k; simpl.
  - now rewrite app_nil_r.
  - rewrite IH. destruct (is_file root (base ++ [f])); simpl; auto.
    rewrite group_of_add. rewrite <- app_assoc.
    destruct (String.eqb (lower (suffix f)) k); reflexivity.
Qed.

Lemma group_of_In (inv : inventory) (k : string) (fs : list string) :
  NoDup (map fst inv) -> In (k, fs) inv -> fs = group_of inv k.
Proof.
  induction inv as [|[e gs] inv IH]; simpl; intros Hnd H; [contradiction|].
  inversion Hnd as [|? ? He Hnd']; subst. destruct H as [H | H].
  - injection H as -> ->. now rewrite String.eqb_refl.
  - destruct (String.eqb e k) eqn:E; auto.
    apply String.eqb_eq in E. subst e. exfalso. apply He.
    change k with (fst (k, fs)). now apply in_map.
Qed.

Lemma build_inventory_groups (es : dir) (g : string * list string) :
  In g (build_inventory (Dir es) [] (names es)) ->
  snd g = files_with_ext es (fst g) /\
  exists f, In f (names es) /\ is_file (Dir es) [f] = true /\ fst g = lower (suffix f).
Proof.
  destruct g as [k fs]. intros H. unfold build_inventory in *. simpl. split.
  - assert (Hnd : NoDup (map fst (inventory_from (Dir es) [] (names es) []))).
    { apply inventory_from_NoDup. constructor. }
    rewrite (group_of_In _ _ _ Hnd H).
    rewrite group_of_inventory_from. reflexivity.
  - assert (Hk : In k (map fst (inventory_from (Dir es) [] (names es) []))).
    { change k with (fst (k, fs)). now apply in_map. }
    apply inventory_from_key_In in Hk. destruct Hk as [[]|Hk]. exact Hk.
Qed.

Lemma files_with_ext_In (es : dir) (k f : string) :
  In f (files_with_ext es k) <->
  In f (names es) /\ is_file (Dir es) [f] = true /\ lower (suffix f) = k.
Proof.
  unfold files_with_ext. rewrite filter_In, andb_true_iff, String.eqb_eq. tauto.
Qed.

Lemma is_file_top (es : dir) (f : string) :
  is_file (Dir es) [f] = true <-> exists c, dir_get es f = Some (File c).
Proof.
  unfold is_file. simpl. destruct (dir_get es f) as [[c|d]|]; split;
    try discriminate; eauto; intros (c' & Hc); discriminate.
Qed.

Lemma build_inventory_folders (es : dir) :
  NoDup (map folder_of (build_inventory (Dir es) [] (names es))).
Proof.
  pose proof (@build_inventory_groups es) as Hg.
  assert (Hnd : NoDup (map fst (build_inventory (Dir es) [] (names es)))).
  { apply inventory_from_NoDup. constructor. }
  induction (build_inventory (Dir es) [] (names es)) as [|g inv IH]; simpl.
  - constructor.
  - inversion Hnd as [|? ? Hnot Hnd']; subst. constructor.
    + intros Hin. apply in_map_iff in Hin. destruct Hin as (h & Hh & Hin).
      apply Hnot. replace (fst g) with (fst h); [now apply in_map|].
      destruct (Hg g (or_introl eq_refl)) as (_ & f & _ & _ & Ef).
      destruct (Hg h (or_intror Hin)) as (_ & f' & _ & _ & Ef').
      unfold folder_of in Hh. rewrite Ef, Ef' in *.
      now apply type_folder_name_inj in Hh.
    + apply IH; auto. intros h Hh. apply Hg. now right.
Qed.

Lemma build_inventory_files (es : dir) :
  NoDup (names es) ->
  NoDup (List.concat (map snd (build_inventory (Dir es) [] (names es)))).
Proof.
  intros Hes. pose proof (@build_inventory_groups es) as Hg.
  assert (Hnd : NoDup (map fst (build_inventory (Dir es) [] (names es)))).
  { apply inventory_from_NoDup. constructor. }
  induction (build_inventory (Dir es) [] (names es)) as [|g inv IH]; simpl.
  - constructor.
  - inversion Hnd as [|? ? Hnot Hnd']; subst. apply NoDup_app.
    + destruct (Hg g (or_introl eq_refl)) as (-> & _).
      now apply NoDup_filter.
    + apply IH; auto. intros h Hh. apply Hg. now right.
    + intros a Ha Hc. apply in_group_files in Hc. destruct Hc as (h & Hh & Hah).
      destruct (Hg g (or_introl eq_refl)) as (Eg & _).
      destruct (Hg h (or_intror Hh)) as (Eh & _).
      rewrite Eg in Ha. rewrite Eh in Hah.
      apply files_with_ext_In in Ha. apply files_with_ext_In in Hah.
      apply Hnot. replace (fst g) with (fst h); [now apply in_map|].
      destruct Ha as (_ & _ & <-). destruct Hah as (_ & _ & <-). reflexivity.
Qed.

Lemma build_inventory_has_group (es : dir) (f : string) :
  In f (names es) -> is_file (Dir es) [f] = true ->
  In (lower (suffix f), files_with_ext es (lower (suffix f)))
     (build_inventory (Dir es) [] (names es)).
Proof.
  intros Hf Hfile.
  assert (Hk : In (lower (suffix f))
                  (map fst (build_inventory (Dir es) [] (names es)))).
  { apply inventory_from_key_In. right. exists f. auto. }
  apply in_map_iff in Hk. destruct Hk as ([k fs] & Hk & Hin). simpl in Hk. subst k.
  destruct (build_inventory_groups _ _ Hin) as (E & _). simpl in E. now subst fs.
Qed.

(** ** Categorization runs through and fills the type folders *)

Lemma categorize_ok (es : dir) :
  NoDup (names es) ->
  (forall f, In f (names es) -> is_file (Dir es) [f] = true ->
             target_free es
               (type_folder_name (lower (suffix f))
                  (List.length (files_with_ext es (lower (suffix f)))))
               (files_with_ext es (lower (suffix f)))) ->
  exists es',
    categorize_files_by_type (Dir es) [] =
      Ok (Dir es', map fst (build_inventory (Dir es) [] (names es))) /\
    forall f c, dir_get es f = Some (File c) ->
      let k := lower (suffix f) in
      let F := type_folder_name k (List.length (files_with_ext es k)) in
      exists inside,
        dir_get es' F = Some (Dir inside) /\
        dir_get inside f = Some (File c) /\
        dir_get es' f = None /\
        names inside = names (entries_before es F) ++ files_with_ext es k.
Proof.
  intros Hes Hfree.
  destruct (@move_groups_ok (build_inventory (Dir es) [] (names es)) es)
    as (es' & Hrun & Hgroups & _).
  - apply build_inventory_folders.
  - now apply build_inventory_files.
  - intros g f Hg Hf. apply is_file_top.
    destruct (build_inventory_groups _ _ Hg) as (E & _). rewrite E in Hf.
    now apply files_with_ext_In in Hf.
  - intros g Hg. destruct (build_inventory_groups _ _ Hg) as (E & f & Hf & Hfile & Ek).
    unfold folder_of. rewrite E, Ek. now apply Hfree.
  - exists es'. split.
    + unfold categorize_files_by_type, iterdir. simpl. now rewrite Hrun.
    + intros f c Hc k F.
      assert (Hf : In f (names es)) by (eapply dir_get_In; eauto).
      assert (Hfile : is_file (Dir es) [f] = true) by (apply is_file_top; eauto).
      destruct (Hgroups _ (build_inventory_has_group _ _ Hf Hfile))
        as (inside & HF & Hin & Hold & Hnames).
      unfold folder_of in *. simpl in *. exists inside. split; [exact HF|].
      destruct (Hin f) as [H1 H2]; [apply files_with_ext_In; auto|].
      split; [congruence|]. split; auto.
Qed.

Lemma fs_get_top (es : dir) (f : string) : fs_get (Dir es) [f] = dir_get es f.
Proof. simpl. now destruct (dir_get es f). Qed.

(** C4, as the code has it.  In a folder with pairwise distinct entry names
    whose direct regular files have ASCII names and where nothing is in the
    way of a type folder (no entry bears its name, or a directory does that
    holds no file of the group's names), categorization returns, and every
    direct regular file [f] is gone from
    the top level and lies in the folder named by its uppercased suffix
    without the dot, an underscore and the number [n] of files of that
    suffix.  That folder lists what it held before, followed by exactly the
    [n] files of the suffix: a folder the run created holds [n] entries. *)
Theorem categorize_fills_type_folders (es : dir) :
  NoDup (names es) ->
  ascii_files es ->
  (forall f, In f (names es) -> is_file (Dir es) [f] = true ->
             target_free es
               (type_folder_name (lower (suffix f))
                  (List.length (files_with_ext es (lower (suffix f)))))
               (files_with_ext es (lower (suffix f)))) ->
  exists root' keys,
    categorize_files_by_type (Dir es) [] = Ok (root', keys) /\
    forall f c, fs_get (Dir es) [f] = Some (File c) ->
      let k := lower (suffix f) in
      let n := List.length (files_with_ext es k) in
      let F := (upper (drop 1 k) ++ "_" ++ str_nat n)%string in
      fs_get root' [F; f] = Some (File c) /\
      fs_get root' [f] = None /\
      iterdir root' [F] = Ok (names (entries_before es F) ++ files_with_ext es k) /\
      (path_exists (Dir es) [F] = false ->
       exists listing,
         iterdir root' [F] = Ok listing /\
         listing = files_with_ext es k /\
         F = (upper (drop 1 k) ++ "_" ++ str_nat (List.length listing))%string).
Proof.
  intros Hes _ Hfree. destruct (categorize_ok Hes Hfree) as (es' & Hrun & Hall).
  exists (Dir es'), (map fst (build_inventory (Dir es) [] (names es))).
  split; [exact Hrun|]. intros f c Hc k n F. rewrite fs_get_top in Hc.
  destruct (Hall f c Hc) as (inside & HF & Hin & Hgone & Hnames).
  fold k in HF, Hnames. unfold type_folder_name in HF, Hnames. fold n in HF, Hnames.
  fold F in HF, Hnames.
  assert (Hlist : iterdir (Dir es') [F] =
                  Ok (names (entries_before es F) ++ files_with_ext es k)).
  { unfold iterdir. simpl. rewrite HF. now rewrite Hnames. }
  repeat split.
  - simpl. rewrite HF. simpl. now rewrite Hin.
  - now rewrite fs_get_top.
  - exact Hlist.
  - exists (files_with_ext es k). split; auto.
    rewrite Hlist. unfold entries_before. unfold path_exists in H.
    rewrite fs_get_top in H. destruct (dir_get es F); [discriminate|]. reflexivity.
Qed.

Lemma categorize_fills_type_folders_witness :
  let es := [("a.csv", csv_file [["1"]]); ("notes.pdf", pdf_file ["p"]);
             ("PDF_1", Dir [("old.pdf", pdf_file [])]); ("B.CSV", csv_file [])] in
  exists root' keys,
    categorize_files_by_type (Dir es) [] = Ok (root', keys) /\
    forall f c, fs_get (Dir es) [f] = Some (File c) ->
      let k := lower (suffix f) in
      let n := List.length (files_with_ext es k) in
      let F := (upper (drop 1 k) ++ "_" ++ str_nat n)%string in
      fs_get root' [F; f] = Some (File c) /\
      fs_get root' [f] = None /\
      iterdir root' [F] = Ok (names (entries_before es F) ++ files_with_ext es k) /\
      (path_exists (Dir es) [F] = false ->
       exists listing,
         iterdir root' [F] = Ok listing /\
         listing = files_with_ext es k /\
         F = (upper (drop 1 k) ++ "_" ++ str_nat (List.length listing))%string).
Proof.
  intros es. apply (@categorize_fills_type_folders es).
  - repeat constructor; simpl; intuition discriminate.
  - intros f [<- | [<- | [<- | [<- | []]]]] _; reflexivity.
  - intros f [<- | [<- | [<- | [<- | []]]]] Hfile; try discriminate Hfile.
    + left. reflexivity.
    + right. eexists. split; [reflexivity|].
      intros g [<- | []]. reflexivity.
    + left. reflexivity.
Defined.

(** C4, as the claim has it, fails.  With the regular files [a.csv] and
    [CSV_1], listed in that order, categorization returns, and no folder
    [CSV_1] exists afterwards although one file had the suffix [.csv]: the
    file [a.csv] was renamed over the file [CSV_1].  With the regular files
    [_2] and [x], in either order, the two files without suffix end as the
    one file [_2], and no folder [_2] exists. *)
Lemma categorize_renames_over_a_file_named_like_the_folder :
  (List.length (files_with_ext [("a.csv", csv_file [["1"]]); ("CSV_1", File unreadable)]
                  ".csv") = 1 /\
   exists root',
     categorize_files_by_type
       (Dir [("a.csv", csv_file [["1"]]); ("CSV_1", File unreadable)]) []
       = Ok (root', [".csv"; ""]) /\
     path_exists root' ["CSV_1"] = false /\
     fs_get root' ["CSV_1"; "a.csv"] = None) /\
  categorize_files_by_type (Dir [("_2", File unreadable); ("x", csv_file [["1"]])]) []
    = Ok (Dir [("_2", csv_file [["1"]])], [""]) /\
  categorize_files_by_type (Dir [("x", csv_file [["1"]]); ("_2", File unreadable)]) []
    = Ok (Dir [("_2", csv_file [["1"]])], [""]).
Proof.
  split; [|split; reflexivity].
  split; [reflexivity|]. eexists. split; [reflexivity|]. split; reflexivity.
Qed.




(** ** Substrings *)

Lemma prefix_spec (a s : string) :
  String.prefix a s = true <-> exists r, s = (a ++ r)%string.
Proof.
  revert s. induction a as [|c a IH]; intros s; simpl.
  - split; eauto. intros _. destruct s; reflexivity.
  - destruct s as [|d s]; simpl.
    + split; [discriminate|]. intros (r & Hr). discriminate.
    + destruct (ascii_dec c d) as [->|Hne].
      * rewrite IH. split; intros (r & Hr); exists r; congruence.
      * split; [discriminate|]. intros (r & Hr). congruence.
Qed.

(** [needle in hay] is literal containment. *)
Lemma is_substring_spec (a s : string) :
  is_substring a s = true <-> exists l r, s = (l ++ a ++ r)%string.
Proof.
  induction s as [|d s IH].
  - change (is_substring a "") with (String.prefix a "" || false).
    rewrite orb_true_iff, prefix_spec. split.
    + intros [(r & Hr) | H]; [|discriminate]. exists "", r. exact Hr.
    + intros (l & r & H). left. destruct l; simpl in H.
      * eauto.
      * discriminate.
  - change (is_substring a (String d s))
      with (String.prefix a (String d s) || is_substring a s).
    rewrite orb_true_iff, prefix_spec, IH. split.
    + intros [(r & Hr) | (l & r & Hr)].
      * exists "", r. exact Hr.
      * exists (String d l), r. simpl. now rewrite Hr.
    + intros (l & r & H). destruct l as [|c l]; simpl in H.
      * left. eauto.
      * right. injection H as _ H. eauto.
Qed.

Lemma is_substring_empty (s : string) : is_substring "" s = true.
Proof. destruct s; reflexivity. Qed.

(** ** The two content checks *)

Lemma collect_Ok {A : Type} (rs : list (result A)) (l : list A) :
  collect rs = Ok l <-> rs = map Ok l.
Proof.
  revert l. induction rs as [|r rs IH]; intros l; simpl.
  - split.
    + intros H. injection H as <-. reflexivity.
    + destruct l; [reflexivity | discriminate].
  - destruct r as [a|e]; simpl.
    + destruct (collect rs) as [l'|e'] eqn:E; simpl.
      * split.
        -- intros H. injection H as <-. simpl. f_equal. now apply IH.
        -- destruct l as [|b l]; [discriminate|]. simpl. intros H.
           injection H as -> H. apply IH in H. congruence.
      * split; [discriminate|].
        destruct l as [|b l]; [discriminate|]. simpl. intros H.
        injection H as _ H. apply IH in H. discriminate.
    + split; [discriminate|]. destruct l; discriminate.
Qed.

Lemma pages_contain_true (pages : list (result string)) (account_id : string) :
  pages_contain pages account_id = Ok true <->
  exists before text after,
    pages = map Ok before ++ Ok text :: after /\
    is_substring account_id text = true.
Proof.
  induction pages as [|p pages IH]; simpl.
  - split; [discriminate|]. intros ([|b before] & text & after & H & _); discriminate.
  - destruct p as [t|e]; simpl.
    + destruct (is_substring account_id t) eqn:E.
      * split; auto. intros _. exists [], t, pages. auto.
      * rewrite IH. split.
        -- intros (before & text & after & -> & Hs).
           exists (t :: before), text, after. auto.
        -- intros ([|b before] & text & after & H & Hs); simpl in H.
           ++ injection H as -> _. congruence.
           ++ injection H as -> H. eauto.
    + split; [discriminate|].
      intros ([|b before] & text & after & H & _); discriminate.
Qed.

Lemma collect_rows {A B : Type} (f : A -> result B) (rows : list (list A))
    (hits : list (list B)) :
  collect (map (fun row => collect (map f row)) rows) = Ok hits <->
  map (map f) rows = map (map Ok) hits.
Proof.
  rewrite collect_Ok. revert hits.
  induction rows as [|row rows IH]; intros [|h hits]; simpl;
    try (split; discriminate); [tauto|].
  split; intros H; injection H as H1 H2; f_equal.
  - now apply collect_Ok.
  - now apply IH.
  - now apply collect_Ok.
  - now apply IH.
Qed.

Lemma row_hit {A : Type} (f : A -> result bool) : forall (row : list A) (h : list bool),
  map f row = map Ok h ->
  (existsb (fun hit => hit) h = true <-> exists cell, In cell row /\ f cell = Ok true).
Proof.
  induction row as [|cell row IH]; intros [|b h] H; try discriminate; simpl.
  - split; [discriminate|]. intros (cell & [] & _).
  - simpl in H. injection H as Hc Hr. rewrite orb_true_iff, (IH h Hr). split.
    + intros [-> | (cell' & Hin & Hs)]; eauto.
    + intros (cell' & [<- | Hin] & Hs); [left; congruence | right; eauto].
Qed.

Lemma rows_hit {A : Type} (f : A -> result bool) :
  forall (rows : list (list A)) (hits : list (list bool)),
  map (map f) rows = map (map Ok) hits ->
  (existsb (fun row => existsb (fun hit => hit) row) hits = true <->
   exists row cell, In row rows /\ In cell row /\ f cell = Ok true).
Proof.
  induction rows as [|row rows IH]; intros [|h hits] H; try discriminate; simpl.
  - split; [discriminate|]. intros (row & cell & [] & _).
  - simpl in H. injection H as Hrow Hrows.
    rewrite orb_true_iff, (row_hit f row h Hrow), (IH hits Hrows). split.
    + intros [(cell & Hc & Hs) | (row' & cell & Hr & Hc & Hs)]; eauto 7.
    + intros (row' & cell & [<- | Hr] & Hc & Hs); [left | right]; eauto.
Qed.

Section Content.

Variable re_search : string -> string -> result bool.

(** C5.  On a file [read_csv] parses, the CSV check answers [True] exactly
    when the search for the account ID as a pattern returns on every cell
    and finds the pattern in the text of some cell of some row.  On a file
    [fitz] opens, the PDF check answers [True] exactly when some page, all
    pages before it being readable, has a text of which the account ID is a
    literal part: the pattern search plays no role in it. *)
Theorem content_checks_by_file_type (root : node) (file : path) (account_id : string) :
  (check_csv_for_account_id re_search root file account_id = true <->
   exists c rows hits,
     fs_get root file = Some (File c) /\ as_csv c = Ok rows /\
     map (map (re_search account_id)) rows = map (map Ok) hits /\
     exists row cell, In row rows /\ In cell row /\
                      re_search account_id cell = Ok true) /\
  (check_pdf_for_account_id root file account_id = true <->
   exists c before text after l r,
     fs_get root file = Some (File c) /\
     as_pdf c = Ok (map Ok before ++ Ok text :: after) /\
     text = (l ++ account_id ++ r)%string).
Proof.
  split.
  - unfold check_csv_for_account_id, csv_contains.
    destruct (fs_get root file) as [[c|d]|].
    2:{ split; [discriminate|]. intros (c & rows & hits & H & _). discriminate. }
    2:{ split; [discriminate|]. intros (c & rows & hits & H & _). discriminate. }
    destruct (as_csv c) as [rows|e] eqn:Ecsv; simpl.
    2:{ split; [discriminate|].
        intros (c' & rows & hits & H & H' & _). congruence. }
    destruct (collect _) as [hits|e] eqn:Ecol; simpl.
    + apply collect_rows in Ecol. rewrite (rows_hit _ _ _ Ecol). split.
      * intros Hex. exists c, rows, hits. auto.
      * intros (c' & rows' & hits' & Hget & Hcsv & _ & Hex).
        injection Hget as <-. rewrite Ecsv in Hcsv. now injection Hcsv as <-.
    + split; [discriminate|].
      intros (c' & rows' & hits' & Hget & Hcsv & Hmap & _).
      injection Hget as <-. rewrite Ecsv in Hcsv. injection Hcsv as <-.
      apply collect_rows in Hmap. congruence.
  - unfold check_pdf_for_account_id, pdf_contains.
    destruct (fs_get root file) as [[c|d]|].
    2:{ split; [discriminate|]. intros (c & b & t & a & l & r & H & _). discriminate. }
    2:{ split; [discriminate|]. intros (c & b & t & a & l & r & H & _). discriminate. }
    destruct (as_pdf c) as [pages|e] eqn:Epdf; simpl.
    2:{ split; [discriminate|].
        intros (c' & b & t & a & l & r & H & H' & _). congruence. }
    assert (Hiff : pages_contain pages account_id = Ok true <->
                   exists c' before text after l r,
                     Some (File c) = Some (File c') /\
                     as_pdf c' = Ok (map Ok before ++ Ok text :: after) /\
                     text = (l ++ account_id ++ r)%string).
    { rewrite pages_contain_true. split.
      - intros (before & text & after & -> & Hs).
        apply is_substring_spec in Hs. destruct Hs as (l & r & ->).
        exists c, before, (l ++ account_id ++ r)%string, after, l, r. auto.
      - intros (c' & before & text & after & l & r & Hget & Hpdf & Ht).
        injection Hget as <-. rewrite Epdf in Hpdf. injection Hpdf as ->.
        exists before, text, after. split; auto.
        apply is_substring_spec. eauto. }
    rewrite <- Hiff.
    destruct (pages_contain pages account_id) as [[|]|e]; split;
      try discriminate; auto.
Qed.

End Content.

(** ** Attribution of one file *)

Section Attribution.

Variable re_search : string -> string -> result bool.

#[local] Abbreviation banks_loop := (banks_loop re_search).
#[local] Abbreviation first_match := (first_match re_search).
#[local] Abbreviation try_attempt := (try_attempt re_search).
#[local] Abbreviation by_content := (by_content re_search).
#[local] Abbreviation accounts_by_filename := (accounts_by_filename re_search).
#[local] Abbreviation check_csv := (check_csv_for_account_id re_search).

Variables (type_folder : path) (name : string).

Lemma first_match_app (root : node) (l1 l2 : list attempt) :
  first_match root type_folder name (l1 ++ l2) =
  match first_match root type_folder name l1 with
  | Ok None => first_match root type_folder name l2
  | other => other
  end.
Proof.
  induction l1 as [|a l1 IH]; simpl; auto.
  destruct (try_attempt root type_folder name a) as [[|]|e]; simpl; auto.
Qed.

Lemma accounts_by_filename_first_match (root : node) (bank : string) (data : bank_data)
    (accounts : list account) :
  accounts_by_filename type_folder name bank accounts root =
  settle root type_folder name
    (first_match root type_folder name
       (map (fun acc => (bank, data, AccountInFilename acc)) accounts)).
Proof.
  induction accounts as [|acc accounts IH]; simpl; auto.
  destruct (re_search (get_default (Account_ID acc) "") name) as [[|]|e]; simpl; auto.
  destruct (get_item (Account_Name acc)) as [n|e]; simpl; auto.
Qed.

Lemma accounts_by_content_first_match (root : node) (bank : string) (data : bank_data)
    (accounts : list account) :
  by_content type_folder name bank accounts root =
  settle root type_folder name
    (first_match root type_folder name
       (map (fun acc => (bank, data, AccountInContent acc)) accounts)).
Proof.
  unfold by_content.
  destruct (String.eqb (lower (suffix name)) ".csv") eqn:Ecsv;
    [|destruct (String.eqb (lower (suffix name)) ".pdf") eqn:Epdf].
  - induction accounts as [|acc accounts IH]; simpl; auto. rewrite Ecsv.
    destruct (get_item (Account_ID acc)) as [id|e]; simpl; auto.
    destruct (check_csv_for_account_id re_search root (type_folder ++ [name]) id);
      simpl; auto.
    destruct (get_item (Account_Name acc)) as [n|e]; simpl; auto.
  - induction accounts as [|acc accounts IH]; simpl; auto. rewrite Ecsv, Epdf.
    destruct (get_item (Account_ID acc)) as [id|e]; simpl; auto.
    destruct (check_pdf_for_account_id root (type_folder ++ [name]) id);
      simpl; auto.
    destruct (get_item (Account_Name acc)) as [n|e]; simpl; auto.
  - induction accounts as [|acc accounts IH]; simpl; auto. now rewrite Ecsv, Epdf.
Qed.

Lemma banks_loop_first_match (json : json_data) (root : node) :
  banks_loop type_folder name json root =
  settle root type_folder name (first_match root type_folder name (attempts json)).
Proof.
  induction json as [|[bank data] json IH]; simpl; auto.
  unfold attempts in *. simpl. unfold attempts_of_bank at 1. simpl.
  destruct (if is_substring bank name then Ok true
            else re_search (get_default (Bank_ID data) "") name) as [[|]|e];
    simpl; auto.
  rewrite map_app, !map_map. simpl. rewrite !first_match_app.
  rewrite (accounts_by_filename_first_match root bank data).
  destruct (first_match root type_folder name
              (map (fun acc => (bank, data, AccountInFilename acc))
                 (get_default (Accounts data) []))) as [[b|]|e]; simpl; auto.
  - destruct (move_to_bank_folder root type_folder (type_folder ++ [name]) b);
      simpl; auto.
  - rewrite (accounts_by_content_first_match root bank data).
    destruct (first_match root type_folder name
                (map (fun acc => (bank, data, AccountInContent acc))
                   (get_default (Accounts data) []))) as [[b|]|e]; simpl; auto.
    destruct (move_to_bank_folder root type_folder (type_folder ++ [name]) b);
      simpl; auto.
Qed.

Lemma banks_loop_no_match (json : json_data) (root r : node) :
  banks_loop type_folder name json root = Ok (r, false) -> r = root.
Proof.
  rewrite banks_loop_first_match.
  destruct (first_match root type_folder name (attempts json)) as [[b|]|e]; simpl.
  - destruct (move_to_bank_folder root type_folder (type_folder ++ [name]) b);
      simpl; discriminate.
  - congruence.
  - discriminate.
Qed.

Lemma banks_loop_app (before after : json_data) (root : node) :
  banks_loop type_folder name before root = Ok (root, false) ->
  banks_loop type_folder name (before ++ after) root =
  banks_loop type_folder name after root.
Proof.
  rewrite !banks_loop_first_match. unfold attempts.
  rewrite flat_map_app, first_match_app.
  destruct (first_match root type_folder name (flat_map attempts_of_bank before))
    as [[b|]|e]; simpl; auto; [|discriminate].
  destruct (move_to_bank_folder root type_folder (type_folder ++ [name]) b);
    simpl; discriminate.
Qed.

Lemma accounts_by_content_all_false (check : node -> path -> string -> bool)
    (root : node) (bank : string) (l : list account) :
  (forall a, In a l ->
     exists id, Account_ID a = Some id /\
                check root (type_folder ++ [name]) id = false) ->
  accounts_by_content check type_folder name bank l root = Ok (root, false).
Proof.
  induction l as [|a l IH]; simpl; intros Hall; auto.
  destruct (Hall a (or_introl eq_refl)) as (id & Ha & Hc).
  rewrite Ha. simpl. rewrite Hc. apply IH. intros b Hb. apply Hall. now right.
Qed.

(** C9, as the code has it.  When [re.search] finds the empty pattern in
    every text, a bank whose [Bank_ID] is absent or empty takes every file
    that no bank before it in the registry has matched: the test of the
    bank against the file name succeeds, whatever the name and the content
    of the file, and the file is moved to that bank's subfolder. *)
Theorem empty_bank_id_takes_unmatched_files
    (re_search_empty : forall text, re_search "" text = Ok true)
    (before after : json_data) (bank : string) (data : bank_data) (root : node) :
  Bank_ID data = None \/ Bank_ID data = Some "" ->
  banks_loop type_folder name before root = Ok (root, false) ->
  try_attempt root type_folder name (bank, data, BankInFilename) = Ok true /\
  banks_loop type_folder name (before ++ (bank, data) :: after) root =
    (root' <- move_to_bank_folder root type_folder (type_folder ++ [name]) bank ;;
     Ok (root', true)).
Proof.
  intros Hid Hbefore.
  assert (Hhit : (if is_substring bank name then Ok true
                  else re_search (get_default (Bank_ID data) "") name) = Ok true).
  { destruct (is_substring bank name); auto.
    destruct Hid as [-> | ->]; simpl; apply re_search_empty. }
  split; [exact Hhit|].
  rewrite (banks_loop_app _ _ Hbefore). simpl. rewrite Hhit. reflexivity.
Qed.

End Attribution.

(** ** The attribution theorems on sample data *)

Lemma literal_search_empty (text : string) : literal_search "" text = Ok true.
Proof. unfold literal_search. now rewrite is_substring_empty. Qed.

Lemma empty_bank_id_takes_unmatched_files_witness :
  let root := Dir [("CSV_1", Dir [("random.csv", csv_file [["x"]])])] in
  try_attempt literal_search root ["CSV_1"] "random.csv"
    ("Beta", mkBank (Some "") (Some []), BankInFilename) = Ok true /\
  banks_loop literal_search ["CSV_1"] "random.csv" two_banks root =
    (root' <- move_to_bank_folder root ["CSV_1"] ["CSV_1"; "random.csv"] "Beta" ;;
     Ok (root', true)).
Proof.
  intros root.
  apply (@empty_bank_id_takes_unmatched_files literal_search ["CSV_1"] "random.csv"
           literal_search_empty
           [("Alpha", mkBank (Some "AAA") (Some []))] []
           "Beta" (mkBank (Some "") (Some [])) root).
  - right. reflexivity.
  - reflexivity.
Defined.

(** C9, as the claim has it, fails: [Beta] is the first bank with an empty
    [Bank_ID], and the file [AAA.csv] goes to [Alpha], the bank before it,
    whose ID is in the file name. *)
Lemma earlier_bank_wins_over_empty_bank_id :
  let root := Dir [("CSV_1", Dir [("AAA.csv", csv_file [["x"]])])] in
  exists root',
    banks_loop literal_search ["CSV_1"] "AAA.csv" two_banks root = Ok (root', true) /\
    fs_get root' ["CSV_1"; "Alpha"; "AAA.csv"] = Some (csv_file [["x"]]) /\
    fs_get root' ["CSV_1"; "Beta"; "AAA.csv"] = None.
Proof. eexists. repeat split. Qed.

(** The tests on the file of the scenario: the bank's name and ID are not in
    the file name, the account ID is, and the second test decides. *)
Example statement_matches_by_account_id :
  let root := Dir [("CSV_2", Dir [("statement_9988.csv", csv_file [["x"]])])] in
  map (try_attempt literal_search root ["CSV_2"] "statement_9988.csv")
      (attempts chase_registry) = [Ok false; Ok true; Ok false] /\
  first_match literal_search root ["CSV_2"] "statement_9988.csv"
    (attempts chase_registry) = Ok (Some "Chase").
Proof. split; reflexivity. Qed.

(** ** The run of the scenario *)

(** C2: categorization moves both files into [CSV_2]; association then lists
    the folder [CSV], which does not exist, and the run ends on the
    exception with both files still directly in [CSV_2]. *)
Theorem scenario_run_raises :
  let categorized :=
    Dir [("CSV_2", Dir [("statement_9988.csv", csv_file [["date"; "amount"]]);
                        ("random.csv", csv_file [["x"]])])] in
  categorize_files_by_type scenario_folder [] = Ok (categorized, [".csv"]) /\
  path_exists categorized ["CSV"] = false /\
  associate_files_with_sources literal_search categorized [] [".csv"] chase_registry
    = Raise FileNotFoundError /\
  main literal_search (Some scenario_folder) (Some chase_registry)
    = Raise FileNotFoundError.
Proof. repeat split. Qed.

(** Given the folder [CSV_2], the loop body moves [statement_9988.csv] to
    the bank's subfolder, leaves [random.csv], and the update names the
    subfolder [Chase_1]. *)
Example scenario_loop_body :
  let categorized :=
    Dir [("CSV_2", Dir [("statement_9988.csv", csv_file [["date"; "amount"]]);
                        ("random.csv", csv_file [["x"]])])] in
  (root' <- for_each (associate_file literal_search ["CSV_2"] chase_registry)
              ["statement_9988.csv"; "random.csv"] categorized ;;
   update_subfolder_counts root' ["CSV_2"]) =
  Ok (Dir [("CSV_2",
            Dir [("random.csv", csv_file [["x"]]);
                 ("Chase_1",
                  Dir [("statement_9988.csv", csv_file [["date"; "amount"]])])])]).
Proof. reflexivity. Qed.

(** ** The lookup of the type folder *)

(** The guard of line 60: when the folder named by the bare extension can
    be listed and the folder the count names does not exist, the type is
    skipped and the file system is as it was. *)
Lemma associate_type_skips (re_search : string -> string -> result bool)
    (json : json_data) (root : node) (file_type : string) (type_folder : path) :
  resolve_type_folder root [] file_type = Ok type_folder ->
  path_exists root type_folder = false ->
  associate_type re_search [] json root file_type = Ok root.
Proof.
  intros Hres Hex. unfold associate_type. rewrite Hres. simpl. now rewrite Hex.
Qed.

(** Listing the folder named by the bare extension raises when that folder
    does not exist, before the guard is reached. *)
Lemma associate_type_raises (re_search : string -> string -> result bool)
    (json : json_data) (root : node) (file_type : string) :
  fs_get root (path_join [] (upper (drop 1 file_type))) = None ->
  associate_type re_search [] json root file_type = Raise FileNotFoundError.
Proof.
  intros H. unfold associate_type, resolve_type_folder, iterdir. now rewrite H.
Qed.

(** C1.  When the folder the associator resolves for an extension (of ASCII
    characters) does not exist, the round for that extension returns the
    file system as it was, without an exception, and the loop over the
    extensions goes on with the next one: the whole association is the
    association of the extensions that follow. *)
Theorem missing_type_folder_is_skipped (re_search : string -> string -> result bool)
    (json : json_data) (before after : list string) (file_type : string)
    (root0 root : node) (type_folder : path) :
  is_ascii_name file_type = true ->
  associate_files_with_sources re_search root0 [] before json = Ok root ->
  resolve_type_folder root [] file_type = Ok type_folder ->
  path_exists root type_folder = false ->
  associate_type re_search [] json root file_type = Ok root /\
  associate_files_with_sources re_search root0 [] (before ++ file_type :: after) json =
  associate_files_with_sources re_search root [] after json.
Proof.
  intros _ Hbefore Hres Hex.
  pose proof (@associate_type_skips re_search json root file_type type_folder Hres Hex)
    as Hskip.
  split; [exact Hskip|]. unfold associate_files_with_sources in *.
  rewrite for_each_app, Hbefore. simpl. now rewrite Hskip.
Qed.

Lemma missing_type_folder_is_skipped_witness :
  let root0 :=
    Dir [("PDF", Dir [("x", Dir [])]);
         ("PDF_1", Dir [("Chase_2024.pdf", pdf_file ["p"])]);
         ("CSV", Dir []);
         ("TXT", Dir [("y", Dir [])]);
         ("TXT_1", Dir [("notes.txt", File unreadable)])] in
  let root :=
    Dir [("PDF", Dir [("x", Dir [])]);
         ("PDF_1", Dir [("Chase_1", Dir [("Chase_2024.pdf", pdf_file ["p"])])]);
         ("CSV", Dir []);
         ("TXT", Dir [("y", Dir [])]);
         ("TXT_1", Dir [("notes.txt", File unreadable)])] in
  associate_type literal_search [] chase_registry root ".csv" = Ok root /\
  associate_files_with_sources literal_search root0 [] ([".pdf"] ++ ".csv" :: [".txt"])
    chase_registry =
  associate_files_with_sources literal_search root [] [".txt"] chase_registry.
Proof.
  intros root0 root.
  apply (@missing_type_folder_is_skipped literal_search chase_registry
           [".pdf"] [".txt"] ".csv" root0 root ["CSV_0"]); reflexivity.
Defined.

(** ** Renaming the subfolders of a type folder *)

Lemma counted_name_nonempty (name : string) (n : nat) :
  String.eqb (counted_name name n) "" = false.
Proof.
  apply String.eqb_neq. unfold counted_name. intros H.
  assert (O : occurs "_" (before_underscore (stem name) ++ "_" ++ str_nat n)%string = true).
  { rewrite occurs_append. simpl. now rewrite orb_true_r. }
  rewrite H in O. discriminate.
Qed.

Lemma path_join_counted (name : string) (n : nat) :
  path_join [] (counted_name name n) = [counted_name name n].
Proof. unfold path_join. now rewrite counted_name_nonempty. Qed.

Lemma names_length (es : dir) : List.length (names es) = List.length es.
Proof. apply length_map. Qed.

(** One round, seen from the type folder itself. *)
Lemma update_subfolder_step (es : dir) (S : string) (r : node) :
  update_subfolder [] (Dir es) S = Ok r ->
  exists es1,
    r = Dir es1 /\
    (forall N inside, dir_get es1 N = Some (Dir inside) ->
       (N <> S /\ dir_get es N = Some (Dir inside)) \/
       (dir_get es S = Some (Dir inside) /\
        N = counted_name S (List.length inside))) /\
    (forall x c, dir_get es x = Some (File c) -> dir_get es1 x = Some (File c)).
Proof.
  unfold update_subfolder, is_dir, iterdir. simpl.
  destruct (dir_get es S) as [[c|inside_S]|] eqn:ES; simpl.
  - intros H. injection H as <-. exists es. split; [|split]; auto.
    intros N inside HN. left. split; auto. intros ->. congruence.
  - rewrite path_join_counted, names_length.
    set (T := counted_name S (List.length inside_S)).
    unfold rename. simpl. rewrite ES. simpl.
    destruct (String.eqb S T) eqn:EST; simpl.
    + apply String.eqb_eq in EST. intros H. injection H as <-.
      exists es. split; [|split]; auto. intros N inside HN.
      destruct (string_dec N S) as [-> | Hne]; [|now left].
      right. rewrite ES in HN. injection HN as <-. auto.
    + apply String.eqb_neq in EST.
      assert (Hput : forall r0,
                 (forall c, dir_get es T <> Some (File c)) ->
                 Ok (Dir (dir_set (dir_del es S) T (Dir inside_S))) = Ok r0 ->
                 exists es1, r0 = Dir es1 /\
                   (forall N inside, dir_get es1 N = Some (Dir inside) ->
                      (N <> S /\ dir_get es N = Some (Dir inside)) \/
                      (Some (Dir inside_S) = Some (Dir inside) /\
                       N = counted_name S (List.length inside))) /\
                   (forall x c, dir_get es x = Some (File c) ->
                                dir_get es1 x = Some (File c))).
      { intros r0 HT H. injection H as <-. eexists. split; [reflexivity|]. split.
        - intros N inside HN. destruct (string_dec T N) as [<- | Hne].
          + right. rewrite dir_get_set_eq in HN. injection HN as <-. auto.
          + left. rewrite dir_get_set_neq in HN by auto.
            destruct (string_dec S N) as [<- | Hne'].
            * now rewrite dir_get_del_eq in HN.
            * rewrite dir_get_del_neq in HN by auto. auto.
        - intros x c Hx. rewrite dir_get_set_neq, dir_get_del_neq; auto.
          + intros ->. congruence.
          + intros ->. now apply (HT c). }
      destruct (dir_get es T) as [[c|[|e0 l0]]|]; simpl; try discriminate;
        intros H; apply Hput; auto; discriminate.
  - intros H. injection H as <-. exists es. split; [|split]; auto.
    intros N inside HN. left. split; auto. intros ->. congruence.
Qed.

Lemma update_loop_names (es0 : dir) : forall (rest : list string) (es : dir) (r : node),
  incl rest (names es0) ->
  (forall N inside, dir_get es N = Some (Dir inside) ->
     In N rest \/
     exists M before, dir_get es0 M = Some (Dir before) /\
                      N = counted_name M (List.length inside)) ->
  (forall x c, dir_get es0 x = Some (File c) -> dir_get es x = Some (File c)) ->
  for_each (update_subfolder []) rest (Dir es) = Ok r ->
  exists es',
    r = Dir es' /\
    (forall N inside, dir_get es' N = Some (Dir inside) ->
       exists M before, dir_get es0 M = Some (Dir before) /\
                        N = counted_name M (List.length inside)) /\
    (forall x c, dir_get es0 x = Some (File c) -> dir_get es' x = Some (File c)).
Proof.
  induction rest as [|S rest IH]; intros es r Hincl Hinv Hfiles Hrun.
  - simpl in Hrun. injection Hrun as <-. exists es. split; [|split]; auto.
    intros N inside HN. destruct (Hinv N inside HN) as [[] | H]. exact H.
  - simpl in Hrun.
    destruct (update_subfolder [] (Dir es) S) as [r1|e] eqn:E1; [|discriminate].
    simpl in Hrun.
    destruct (@update_subfolder_step es S r1 E1) as (es1 & -> & Hstep & Hkeep).
    apply (IH es1 r); auto.
    + intros x Hx. apply Hincl. now right.
    + intros N inside HN. destruct (Hstep N inside HN) as [[Hne Hold] | [HS ->]].
      * destruct (Hinv N inside Hold) as [[<- | Hin] | H]; auto. contradiction.
      * right. assert (HSin : In S (names es0)) by (apply Hincl; now left).
        destruct (dir_get es0 S) as [[c|before]|] eqn:E0.
        -- rewrite (Hfiles S c E0) in HS. discriminate.
        -- exists S, before. auto.
        -- apply dir_get_None in E0. contradiction.
Qed.

Lemma update_counts_at_root (es : dir) (r : node) :
  update_subfolder_counts (Dir es) [] = Ok r ->
  exists es',
    r = Dir es' /\
    (forall N inside, dir_get es' N = Some (Dir inside) ->
       exists M before, dir_get es M = Some (Dir before) /\
                        N = counted_name M (List.length inside)) /\
    (forall x c, dir_get es x = Some (File c) -> dir_get es' x = Some (File c)).
Proof.
  unfold update_subfolder_counts, iterdir. simpl. intros H.
  apply (@update_loop_names es (names es) es r); auto.
  - apply incl_refl.
  - intros N inside HN. left. eapply dir_get_In; eauto.
Qed.

(** ** Operations below a path leave the rest of the tree alone *)

Lemma dir_set_same (es : dir) (n : string) (child : node) :
  dir_get es n = Some child -> dir_set es n child = es.
Proof.
  induction es as [|[k v] es IH]; simpl; [discriminate|].
  destruct (String.eqb k n) eqn:E; intros H.
  - now injection H as ->.
  - now rewrite IH.
Qed.

Lemma dir_set_set (es : dir) (n : string) (a b : node) :
  dir_set (dir_set es n a) n b = dir_set es n b.
Proof.
  induction es as [|[k v] es IH]; simpl.
  - now rewrite String.eqb_refl.
  - destruct (String.eqb k n) eqn:E; simpl; rewrite E; auto. now rewrite IH.
Qed.

Lemma bind_ret {A : Type} (m : result A) : (x <- m ;; Ok x) = m.
Proof. now destruct m. Qed.

Lemma fs_get_app : forall (p : path) (root : node) (q : path),
  fs_get root (p ++ q) =
  match fs_get root p with Some nd => fs_get nd q | None => None end.
Proof.
  induction p as [|n p IH]; intros root q; simpl; auto.
  destruct root as [c|es]; auto. destruct (dir_get es n); auto.
Qed.

Lemma fs_get_replace : forall (p : path) (root nd new : node),
  fs_get root p = Some nd -> fs_get (fs_replace root p new) p = Some new.
Proof.
  induction p as [|n p IH]; intros root nd new; simpl; auto.
  destruct root as [c|es]; [discriminate|].
  destruct (dir_get es n) as [child|] eqn:E; [|discriminate].
  intros H. simpl. rewrite dir_get_set_eq. eauto.
Qed.

Lemma fs_replace_replace : forall (p : path) (root nd a b : node),
  fs_get root p = Some nd ->
  fs_replace (fs_replace root p a) p b = fs_replace root p b.
Proof.
  induction p as [|n p IH]; intros root nd a b; simpl; auto.
  destruct root as [c|es]; [discriminate|].
  destruct (dir_get es n) as [child|] eqn:E; [|discriminate].
  intros H. simpl. rewrite dir_get_set_eq, dir_set_set. f_equal. f_equal. eauto.
Qed.

Lemma fs_replace_same : forall (p : path) (root nd : node),
  fs_get root p = Some nd -> fs_replace root p nd = root.
Proof.
  induction p as [|n p IH]; intros root nd; simpl.
  - congruence.
  - destruct root as [c|es]; [discriminate|].
    destruct (dir_get es n) as [child|] eqn:E; [|discriminate].
    intros H. rewrite (IH _ _ H). now rewrite dir_set_same.
Qed.

Lemma fs_remove_under : forall (p : path) (root nd : node) (q : path),
  fs_get root p = Some nd -> q <> [] ->
  fs_remove root (p ++ q) = (nd' <- fs_remove nd q ;; Ok (fs_replace root p nd')).
Proof.
  induction p as [|n p IH]; intros root nd q Hget Hq.
  - simpl in *. injection Hget as <-. now rewrite bind_ret.
  - simpl in Hget. destruct root as [c|es]; [discriminate|].
    destruct (dir_get es n) as [child|] eqn:E; [|discriminate].
    change ((n :: p) ++ q) with (n :: (p ++ q)). simpl. rewrite E.
    destruct (p ++ q) eqn:Epq.
    + apply app_eq_nil in Epq. tauto.
    + rewrite <- Epq. rewrite (IH child nd q Hget Hq).
      destruct (fs_remove nd q); reflexivity.
Qed.

Lemma fs_put_under : forall (p : path) (root nd : node) (q : path) (x : node),
  fs_get root p = Some nd -> q <> [] ->
  fs_put root (p ++ q) x = (nd' <- fs_put nd q x ;; Ok (fs_replace root p nd')).
Proof.
  induction p as [|n p IH]; intros root nd q x Hget Hq.
  - simpl in *. injection Hget as <-. now rewrite bind_ret.
  - simpl in Hget. destruct root as [c|es]; [discriminate|].
    destruct (dir_get es n) as [child|] eqn:E; [|discriminate].
    change ((n :: p) ++ q) with (n :: (p ++ q)). simpl. rewrite E.
    destruct (p ++ q) eqn:Epq.
    + apply app_eq_nil in Epq. tauto.
    + rewrite <- Epq. rewrite (IH child nd q x Hget Hq).
      destruct (fs_put nd q x); reflexivity.
Qed.

Lemma path_eqb_app (p a b : path) : path_eqb (p ++ a) (p ++ b) = path_eqb a b.
Proof. induction p as [|n p IH]; simpl; auto. now rewrite String.eqb_refl. Qed.

Lemma is_prefix_app (p a b : path) : is_prefix (p ++ a) (p ++ b) = is_prefix a b.
Proof. induction p as [|n p IH]; simpl; auto. now rewrite String.eqb_refl. Qed.

Lemma rename_under (p : path) (root nd : node) (a b : path) :
  fs_get root p = Some nd -> a <> [] -> b <> [] ->
  rename root (p ++ a) (p ++ b) =
  (nd' <- rename nd a b ;; Ok (fs_replace root p nd')).
Proof.
  intros Hget Ha Hb. unfold rename.
  rewrite !fs_get_app, Hget, path_eqb_app, is_prefix_app.
  destruct (fs_get nd a) as [moved|]; auto.
  destruct (path_eqb a b).
  { simpl. now rewrite (@fs_replace_same p root nd Hget). }
  destruct (is_prefix a b); auto.
  destruct (match fs_get nd b with
            | Some (File _) => match moved with
                               | File _ => Ok tt | Dir _ => Raise NotADirectoryError end
            | Some (Dir []) => match moved with
                               | File _ => Raise IsADirectoryError | Dir _ => Ok tt end
            | Some (Dir (_ :: _)) => match moved with
                                     | File _ => Raise IsADirectoryError
                                     | Dir _ => Raise DirectoryNotEmpty end
            | None => Ok tt
            end) as [[]|e]; simpl; auto.
  rewrite (@fs_remove_under p root nd a Hget Ha).
  destruct (fs_remove nd a) as [nd1|e]; simpl; auto.
  rewrite (@fs_put_under p _ nd1 b moved (@fs_get_replace p root nd nd1 Hget) Hb).
  destruct (fs_put nd1 b moved) as [nd2|e]; simpl; auto.
  now rewrite (@fs_replace_replace p root nd _ _ Hget).
Qed.

Lemma update_subfolder_under (type_folder : path) (root nd : node) (S : string) :
  fs_get root type_folder = Some nd ->
  update_subfolder type_folder root S =
  (nd' <- update_subfolder [] nd S ;; Ok (fs_replace root type_folder nd')).
Proof.
  intros Hget. unfold update_subfolder, is_dir, iterdir.
  rewrite fs_get_app, Hget. change ([] ++ [S]) with [S].
  destruct (fs_get nd [S]) as [[c|inside]|]; simpl;
    try now rewrite (@fs_replace_same type_folder root nd Hget).
  rewrite path_join_counted. unfold path_join. rewrite counted_name_nonempty.
  apply (@rename_under type_folder root nd _ _ Hget); discriminate.
Qed.

Lemma update_loop_under (type_folder : path) : forall (l : list string) (root nd : node),
  fs_get root type_folder = Some nd ->
  for_each (update_subfolder type_folder) l root =
  (nd' <- for_each (update_subfolder []) l nd ;; Ok (fs_replace root type_folder nd')).
Proof.
  induction l as [|S l IH]; intros root nd Hget; simpl.
  - now rewrite (@fs_replace_same type_folder root nd Hget).
  - rewrite (@update_subfolder_under type_folder root nd S Hget).
    destruct (update_subfolder [] nd S) as [nd1|e]; simpl; auto.
    rewrite (IH _ nd1 (@fs_get_replace type_folder root nd nd1 Hget)).
    destruct (for_each (update_subfolder []) l nd1) as [nd2|e]; simpl; auto.
    now rewrite (@fs_replace_replace type_folder root nd _ _ Hget).
Qed.

Lemma update_counts_under (type_folder : path) (root nd : node) :
  fs_get root type_folder = Some nd ->
  update_subfolder_counts root type_folder =
  (nd' <- update_subfolder_counts nd [] ;; Ok (fs_replace root type_folder nd')).
Proof.
  intros Hget. unfold update_subfolder_counts, iterdir. simpl. rewrite Hget.
  destruct nd as [c|es]; simpl; auto. now apply update_loop_under.
Qed.

(** ** Renaming without collisions *)

Section NoCollision.

Variable es : dir.

(** The new name of a subdirectory is its own name or a name no entry
    bears, and two subdirectories do not get the same new name. *)
Hypothesis new_names_free : forall M inside,
  dir_get es M = Some (Dir inside) ->
  counted_name M (List.length inside) = M \/
  dir_get es (counted_name M (List.length inside)) = None.

Hypothesis new_names_differ : forall M1 M2 in1 in2,
  dir_get es M1 = Some (Dir in1) -> dir_get es M2 = Some (Dir in2) ->
  counted_name M1 (List.length in1) = counted_name M2 (List.length in2) ->
  M1 = M2.

Lemma update_loop_total : forall (rest : list string) (cur : dir),
  NoDup rest ->
  incl rest (names es) ->
  (forall M, In M rest -> dir_get cur M = dir_get es M) ->
  (forall M inside, ~ In M rest -> dir_get es M = Some (Dir inside) ->
     dir_get cur (counted_name M (List.length inside)) = Some (Dir inside)) ->
  (forall x, dir_get es x = None -> dir_get cur x <> None ->
     exists M inside, ~ In M rest /\ dir_get es M = Some (Dir inside) /\
                      x = counted_name M (List.length inside)) ->
  (forall x c, dir_get es x = Some (File c) -> dir_get cur x = Some (File c)) ->
  exists es',
    for_each (update_subfolder []) rest (Dir cur) = Ok (Dir es') /\
    (forall M inside, dir_get es M = Some (Dir inside) ->
       dir_get es' (counted_name M (List.length inside)) = Some (Dir inside)) /\
    (forall x c, dir_get es x = Some (File c) -> dir_get es' x = Some (File c)).
Proof.
  induction rest as [|S rest IH]; intros cur Hnd Hincl Hkeep Hdone Hnew Hfiles.
  - exists cur. simpl. split; auto.
  - inversion Hnd as [|? ? HSrest Hnd']; subst.
    assert (HS : dir_get cur S = dir_get es S) by (apply Hkeep; now left).
    assert (HSin : dir_get es S <> None).
    { apply (proj2 (not_iff_compat (dir_get_None es S))).
      intros H. apply H. apply Hincl. now left. }
    assert (Hincl' : incl rest (names es)) by (intros x Hx; apply Hincl; now right).
    simpl. unfold update_subfolder at 1, is_dir, iterdir. simpl. rewrite HS.
    destruct (dir_get es S) as [[c|inside]|] eqn:ES; [| |contradiction].
    + simpl. apply IH; auto.
      * intros M HM. apply Hkeep. now right.
      * intros M ins HM Hd. apply Hdone; auto. intros [<- | Hin]; congruence.
      * intros x Hx Hc. destruct (Hnew x Hx Hc) as (M & ins & HM & Hd & ->).
        exists M, ins. split; auto. intros Hin. apply HM. now right.
    + simpl. rewrite path_join_counted, names_length.
      set (T := counted_name S (List.length inside)).
      unfold rename. simpl. rewrite HS. simpl.
      destruct (String.eqb S T) eqn:EST; simpl.
      * apply String.eqb_eq in EST. apply IH; auto.
        -- intros M HM. apply Hkeep. now right.
        -- intros M ins HM Hd. destruct (string_dec M S) as [-> | Hne].
           ++ rewrite ES in Hd. injection Hd as <-. fold T. rewrite <- EST. exact HS.
           ++ apply Hdone; auto. intros [E | Hin]; [congruence | contradiction].
        -- intros x Hx Hc. destruct (Hnew x Hx Hc) as (M & ins & HM & Hd & ->).
           exists M, ins. split; auto. intros Hin. apply HM. now right.
      * apply String.eqb_neq in EST.
        assert (HTes : dir_get es T = None).
        { destruct (new_names_free _ ES) as [E | E]; [|exact E].
          fold T in E. congruence. }
        assert (HTcur : dir_get cur T = None).
        { destruct (dir_get cur T) eqn:ET; auto. exfalso.
          destruct (Hnew T HTes) as (M & ins & HM & Hd & E); [congruence|].
          apply HM. left. symmetry. eapply new_names_differ; eauto. }
        rewrite HTcur. simpl.
        set (cur1 := dir_set (dir_del cur S) T (Dir inside)).
        assert (Hcur1 : forall x, x <> S -> x <> T -> dir_get cur1 x = dir_get cur x).
        { intros x HxS HxT. unfold cur1.
          rewrite dir_get_set_neq, dir_get_del_neq; auto. }
        assert (HTnew : forall x, dir_get es x <> None -> x <> T).
        { intros x Hx ->. contradiction. }
        apply (IH cur1); auto.
        -- intros M HM. rewrite Hcur1.
           ++ apply Hkeep. now right.
           ++ intros ->. contradiction.
           ++ apply HTnew. apply (proj2 (not_iff_compat (dir_get_None es M))).
              intros H. apply H. now apply Hincl'.
        -- intros M ins HM Hd. destruct (string_dec M S) as [-> | Hne].
           ++ rewrite ES in Hd. injection Hd as <-. unfold cur1.
              apply dir_get_set_eq.
           ++ rewrite Hcur1.
              ** apply Hdone; auto. intros [E | Hin]; [congruence | contradiction].
              ** destruct (new_names_free _ Hd) as [E | E].
                 --- rewrite E. exact Hne.
                 --- intros E'. rewrite E' in E. congruence.
              ** intros E. apply Hne. eapply new_names_differ; eauto.
        -- intros x Hx Hc. destruct (string_dec x T) as [-> | HxT].
           ++ exists S, inside. auto.
           ++ assert (HxS : x <> S) by (intros ->; congruence).
              rewrite Hcur1 in Hc by auto.
              destruct (Hnew x Hx Hc) as (M & ins & HM & Hd & ->).
              exists M, ins. split; auto. intros Hin. apply HM. now right.
        -- intros x c Hx. rewrite Hcur1.
           ++ eauto.
           ++ intros ->. congruence.
           ++ apply HTnew. congruence.
Qed.

Lemma update_counts_total :
  NoDup (names es) ->
  exists es',
    update_subfolder_counts (Dir es) [] = Ok (Dir es') /\
    (forall M inside, dir_get es M = Some (Dir inside) ->
       dir_get es' (counted_name M (List.length inside)) = Some (Dir inside)) /\
    (forall x c, dir_get es x = Some (File c) -> dir_get es' x = Some (File c)).
Proof.
  intros Hnd. unfold update_subfolder_counts, iterdir. simpl.
  apply update_loop_total; auto.
  - apply incl_refl.
  - intros M inside HM Hd. exfalso. apply HM. eapply dir_get_In; eauto.
  - intros x Hx Hc. contradiction.
Qed.

End NoCollision.

(** ** The names after the update *)

(** The update, whatever the names: when it returns, every direct
    subdirectory bears the name the code derives (the stem, cut at the first
    underscore, and the count) from the name of a directory of the listing
    the update started from, and the regular files are where they were. *)
Lemma update_names_by_stem (root root' : node) (type_folder : path) (es : dir) :
  fs_get root type_folder = Some (Dir es) ->
  update_subfolder_counts root type_folder = Ok root' ->
  (forall N inside,
     fs_get root' (type_folder ++ [N]) = Some (Dir inside) ->
     exists M before,
       dir_get es M = Some (Dir before) /\
       N = counted_name M (List.length inside)) /\
  (forall x c,
     dir_get es x = Some (File c) ->
     fs_get root' (type_folder ++ [x]) = Some (File c)).
Proof.
  intros Hget Hrun.
  rewrite (@update_counts_under type_folder root (Dir es) Hget) in Hrun.
  destruct (update_subfolder_counts (Dir es) []) as [nd'|e] eqn:E; [|discriminate].
  simpl in Hrun. injection Hrun as <-.
  destruct (@update_counts_at_root es nd' E) as (es' & -> & Hall & Hfiles).
  split.
  - intros N inside HN.
    rewrite fs_get_app, (@fs_get_replace type_folder root (Dir es) (Dir es') Hget) in HN.
    rewrite fs_get_top in HN. exact (Hall N inside HN).
  - intros x c Hx.
    rewrite fs_get_app, (@fs_get_replace type_folder root (Dir es) (Dir es') Hget).
    rewrite fs_get_top. exact (Hfiles x c Hx).
Qed.

(** C7, as the code has it.  For a type folder none of whose direct
    subdirectories has a suffix in its name (the stem of the name is the
    name):
    - when the update returns, every direct subdirectory of the type folder
      bears the name of a subdirectory the update started from, cut at its
      first underscore, followed by an underscore and the number of entries
      it holds;
    - when the entries have pairwise distinct names, the new name of each
      subdirectory is its own name or a name no entry bears, and no two
      subdirectories get the same new name, the update returns, and every
      subdirectory is found, with the entries it had, under its own name cut
      at the first underscore, an underscore and the number of its
      entries. *)
Theorem update_names_subfolders_by_count (root : node) (type_folder : path) (es : dir) :
  fs_get root type_folder = Some (Dir es) ->
  (forall M inside, dir_get es M = Some (Dir inside) -> stem M = M) ->
  (forall root',
     update_subfolder_counts root type_folder = Ok root' ->
     forall N inside,
       fs_get root' (type_folder ++ [N]) = Some (Dir inside) ->
       exists M,
         is_dir root (type_folder ++ [M]) = true /\
         N = (before_underscore M ++ "_" ++ str_nat (List.length inside))%string) /\
  (NoDup (names es) ->
   (forall M inside, dir_get es M = Some (Dir inside) ->
      counted_name M (List.length inside) = M \/
      dir_get es (counted_name M (List.length inside)) = None) ->
   (forall M1 M2 in1 in2,
      dir_get es M1 = Some (Dir in1) -> dir_get es M2 = Some (Dir in2) ->
      counted_name M1 (List.length in1) = counted_name M2 (List.length in2) ->
      M1 = M2) ->
   exists root',
     update_subfolder_counts root type_folder = Ok root' /\
     forall M inside,
       fs_get root (type_folder ++ [M]) = Some (Dir inside) ->
       fs_get root' (type_folder ++
                     [(before_underscore M ++ "_"
                       ++ str_nat (List.length inside))%string])
       = Some (Dir inside)).
Proof.
  intros Hget Hstem. split.
  - intros root' Hrun N inside HN.
    destruct (@update_names_by_stem root root' type_folder es Hget Hrun) as [Hall _].
    destruct (Hall N inside HN) as (M & before & HM & ->).
    exists M. split.
    + unfold is_dir. now rewrite fs_get_app, Hget, fs_get_top, HM.
    + unfold counted_name. now rewrite (Hstem M before HM).
  - intros Hnd Hfree Hdiff.
    destruct (@update_counts_total es Hfree Hdiff Hnd) as (es' & Hrun & Hdirs & _).
    exists (fs_replace root type_folder (Dir es')). split.
    + rewrite (@update_counts_under type_folder root (Dir es) Hget), Hrun. reflexivity.
    + intros M inside HM. rewrite fs_get_app, Hget, fs_get_top in HM.
      rewrite fs_get_app, (@fs_get_replace type_folder root (Dir es) (Dir es') Hget).
      rewrite fs_get_top. rewrite <- (Hstem M inside HM) at 1.
      exact (Hdirs M inside HM).
Qed.

(** Case analysis on the entry a lookup in a literal directory finds. *)
Ltac lookup_cases H :=
  cbn [dir_get] in H;
  repeat match type of H with
         | (if String.eqb ?a ?M then _ else _) = _ =>
             let E := fresh "E" in
             destruct (String.eqb a M) eqn:E;
             [apply String.eqb_eq in E; subst M|]
         end;
  try discriminate H;
  try (injection H as <-).

Lemma update_names_subfolders_by_count_witness :
  let es := [("random.csv", csv_file []);
             ("Chase", Dir [("s1.csv", csv_file []); ("s2.csv", csv_file [])]);
             ("Wells_9", Dir [])] in
  let root := Dir [("CSV_3", Dir es)] in
  let root' := Dir [("CSV_3", Dir [("random.csv", csv_file []);
                                   ("Chase_2", Dir [("s1.csv", csv_file []);
                                                    ("s2.csv", csv_file [])]);
                                   ("Wells_0", Dir [])])] in
  (update_subfolder_counts root ["CSV_3"] = Ok root' /\
   forall N inside,
     fs_get root' (["CSV_3"] ++ [N]) = Some (Dir inside) ->
     exists M,
       is_dir root (["CSV_3"] ++ [M]) = true /\
       N = (before_underscore M ++ "_" ++ str_nat (List.length inside))%string) /\
  (exists root'',
     update_subfolder_counts root ["CSV_3"] = Ok root'' /\
     forall M inside,
       fs_get root (["CSV_3"] ++ [M]) = Some (Dir inside) ->
       fs_get root'' (["CSV_3"] ++
                      [(before_underscore M ++ "_"
                        ++ str_nat (List.length inside))%string])
       = Some (Dir inside)).
Proof.
  intros es root root'.
  assert (Hstem : forall M inside, dir_get es M = Some (Dir inside) -> stem M = M).
  { intros M inside H. unfold es, csv_file in H. lookup_cases H; reflexivity. }
  destruct (@update_names_subfolders_by_count root ["CSV_3"] es eq_refl Hstem)
    as [Hany Htotal].
  split.
  - split; [reflexivity|]. apply Hany. reflexivity.
  - apply Htotal.
    + repeat constructor; simpl; intuition discriminate.
    + intros M inside H. unfold es, csv_file in H. lookup_cases H; right; reflexivity.
    + intros M1 M2 in1 in2 H1 H2. unfold es, csv_file in H1, H2.
      lookup_cases H1; lookup_cases H2; intros Hsame; try reflexivity; discriminate Hsame.
Defined.

(** C7, as the claim has it, fails: the subfolder [First.Bank] holds one
    file and is renamed [First_1]; its name before the first underscore is
    [First.Bank], and no subfolder [First.Bank_1] exists. *)
Lemma dotted_subfolder_loses_its_suffix :
  let root := Dir [("CSV_1", Dir [("First.Bank", Dir [("s.csv", csv_file [])])])] in
  before_underscore "First.Bank" = "First.Bank" /\
  update_subfolder_counts root ["CSV_1"] =
    Ok (Dir [("CSV_1", Dir [("First_1", Dir [("s.csv", csv_file [])])])]) /\
  path_exists (Dir [("CSV_1", Dir [("First_1", Dir [("s.csv", csv_file [])])])])
    ["CSV_1"; "First.Bank_1"] = false.
Proof. repeat split. Qed.

(** * Further properties of the code

    ** [create_folder] *)

Lemma fs_get_fresh_dirs (p : path) : fs_get (fresh_dirs p) p = Some (Dir []).
Proof. induction p as [|n p IH]; simpl; auto. now rewrite String.eqb_refl. Qed.

Lemma mkdir_parents_creates : forall (p : path) (root root' : node),
  mkdir_parents root p = Ok root' ->
  fs_get root p = None ->
  fs_get root' p = Some (Dir []).
Proof.
  induction p as [|n p IH]; intros root root' Hrun Hnone; [discriminate|].
  simpl in *. destruct root as [c|es]; [discriminate|].
  destruct (dir_get es n) as [nd|] eqn:E.
  - destruct (mkdir_parents nd p) as [nd'|e] eqn:E'; [|discriminate].
    simpl in Hrun. injection Hrun as <-. simpl. rewrite dir_get_set_eq. eauto.
  - injection Hrun as <-. simpl. rewrite (@dir_get_app es n n _ E), String.eqb_refl.
    apply fs_get_fresh_dirs.
Qed.

Lemma mkdir_parents_keeps : forall (p : path) (root root' : node) (q : path) (nd : node),
  mkdir_parents root p = Ok root' ->
  fs_get root q = Some nd ->
  match nd with
  | File c => fs_get root' q = Some (File c)
  | Dir _ => is_dir root' q = true
  end.
Proof.
  induction p as [|n p IH]; intros root root' q nd Hrun Hq; [discriminate|].
  simpl in Hrun. destruct root as [c|es]; [discriminate|].
  assert (Hroot' : exists es', root' = Dir es').
  { destruct (dir_get es n) as [c0|].
    - destruct (mkdir_parents c0 p); [|discriminate]. injection Hrun as <-. eauto.
    - injection Hrun as <-. eauto. }
  destruct q as [|m q].
  - simpl in Hq. injection Hq as <-. destruct Hroot' as (es' & ->). reflexivity.
  - simpl in Hq. destruct (dir_get es m) as [child|] eqn:Em; [|discriminate].
    assert (Hsame : forall es', dir_get es' m = Some child ->
              match nd with
              | File c => fs_get (Dir es') (m :: q) = Some (File c)
              | Dir _ => is_dir (Dir es') (m :: q) = true
              end).
    { intros es' H. unfold is_dir. simpl. rewrite H, Hq. now destruct nd. }
    destruct (dir_get es n) as [c0|] eqn:En.
    + destruct (mkdir_parents c0 p) as [nd'|e] eqn:E'; [|discriminate].
      simpl in Hrun. injection Hrun as <-.
      destruct (String.eqb n m) eqn:Enm.
      * apply String.eqb_eq in Enm. subst m. rewrite En in Em. injection Em as ->.
        pose proof (IH child nd' q nd E' Hq) as H.
        unfold is_dir in *. simpl. rewrite dir_get_set_eq. exact H.
      * apply String.eqb_neq in Enm. apply Hsame.
        now rewrite dir_get_set_neq.
    + injection Hrun as <-. apply Hsame. rewrite (@dir_get_app es n m _ En).
      destruct (String.eqb n m) eqn:Enm; auto.
      apply String.eqb_eq in Enm. subst m. congruence.
Qed.

(** X1.  When [create_folder] returns, the path exists; a path that did not exist
    is now an empty directory; every regular file is where it was, with its
    content, and every directory is still a directory; and a second call
    changes nothing. *)
Theorem create_folder_postcondition (root root' : node) (p : path) :
  create_folder root p = Ok root' ->
  path_exists root' p = true /\
  (path_exists root p = false -> fs_get root' p = Some (Dir [])) /\
  (path_exists root p = true -> root' = root) /\
  (forall q c, fs_get root q = Some (File c) -> fs_get root' q = Some (File c)) /\
  (forall q, is_dir root q = true -> is_dir root' q = true) /\
  create_folder root' p = Ok root'.
Proof.
  unfold create_folder. intros Hrun.
  destruct (path_exists root p) eqn:Hex; simpl in Hrun.
  - injection Hrun as <-. rewrite Hex. simpl. repeat split; auto. discriminate.
  - assert (Hnone : fs_get root p = None).
    { unfold path_exists in Hex. now destruct (fs_get root p). }
    pose proof (@mkdir_parents_creates p root root' Hrun Hnone) as Hnew.
    assert (Hex' : path_exists root' p = true).
    { unfold path_exists. now rewrite Hnew. }
    rewrite Hex'. simpl. repeat split; auto.
    + discriminate.
    + intros q c Hq. exact (@mkdir_parents_keeps p root root' q (File c) Hrun Hq).
    + intros q Hq. unfold is_dir in Hq.
      destruct (fs_get root q) as [[c|d]|] eqn:E; try discriminate.
      exact (@mkdir_parents_keeps p root root' q (Dir d) Hrun E).
Qed.

Lemma create_folder_postcondition_witness :
  let root := Dir [("CSV_2", Dir [("a.csv", csv_file [["1"]])])] in
  let root' := Dir [("CSV_2", Dir [("a.csv", csv_file [["1"]]); ("Chase", Dir [])])] in
  path_exists root' ["CSV_2"; "Chase"] = true /\
  (path_exists root ["CSV_2"; "Chase"] = false ->
   fs_get root' ["CSV_2"; "Chase"] = Some (Dir [])) /\
  (path_exists root ["CSV_2"; "Chase"] = true -> root' = root) /\
  (forall q c, fs_get root q = Some (File c) -> fs_get root' q = Some (File c)) /\
  (forall q, is_dir root q = true -> is_dir root' q = true) /\
  create_folder root' ["CSV_2"; "Chase"] = Ok root'.
Proof.
  intros root root'.
  apply (@create_folder_postcondition root root' ["CSV_2"; "Chase"]). reflexivity.
Defined.

(** ** More on categorization *)

Lemma inventory_from_no_files (root : node) (base : path) :
  forall (listing : list string) (inv : inventory),
  (forall f, In f listing -> is_file root (base ++ [f]) = false) ->
  inventory_from root base listing inv = inv.
Proof.
  induction listing as [|f l IH]; intros inv H; simpl; auto.
  rewrite (H f (or_introl eq_refl)). apply IH. intros g Hg. apply H. now right.
Qed.

Lemma categorize_no_files (es : dir) :
  (forall f, In f (names es) -> is_file (Dir es) [f] = false) ->
  categorize_files_by_type (Dir es) [] = Ok (Dir es, []).
Proof.
  intros Hno. unfold categorize_files_by_type, iterdir, build_inventory. simpl.
  now rewrite (inventory_from_no_files (Dir es) [] (names es) [] Hno).
Qed.

(** X2.  A folder without direct regular files (empty, or holding directories
    only) is left as it is: categorization returns no key, and the whole run
    returns with the folder unchanged, whatever the registry. *)
Theorem nothing_to_categorize (es : dir) :
  (forall f, In f (names es) -> is_file (Dir es) [f] = false) ->
  categorize_files_by_type (Dir es) [] = Ok (Dir es, []) /\
  forall re_search json,
    main re_search (Some (Dir es)) (Some json) = Ok (Some (Dir es)).
Proof.
  intros Hno. pose proof (categorize_no_files es Hno) as Hcat.
  split; [exact Hcat|]. intros re_search json. unfold main. now rewrite Hcat.
Qed.

Lemma nothing_to_categorize_witness :
  let es := [("CSV_1", Dir [("a.csv", csv_file [["1"]])]); ("archive", Dir [])] in
  categorize_files_by_type (Dir es) [] = Ok (Dir es, []) /\
  forall re_search json,
    main re_search (Some (Dir es)) (Some json) = Ok (Some (Dir es)).
Proof.
  intros es. apply (@nothing_to_categorize es).
  intros f [<- | [<- | []]]; reflexivity.
Defined.

(** The groups of the inventory, with the frame of the second loop. *)
Lemma categorize_ok_frame (es : dir) :
  NoDup (names es) ->
  type_folders_free es ->
  exists es',
    categorize_files_by_type (Dir es) [] =
      Ok (Dir es', map fst (build_inventory (Dir es) [] (names es))) /\
    (forall x, is_type_folder_of es x -> exists inside, dir_get es' x = Some (Dir inside)) /\
    (forall x c, dir_get es x = Some (File c) -> dir_get es' x = None) /\
    (forall x, ~ is_type_folder_of es x ->
               (forall c, dir_get es x <> Some (File c)) ->
               dir_get es' x = dir_get es x).
Proof.
  intros Hes Hfree.
  set (inv := build_inventory (Dir es) [] (names es)).
  assert (Hfolder : forall x, In x (map folder_of inv) <-> is_type_folder_of es x).
  { intros x. rewrite in_map_iff. split.
    - intros (g & <- & Hg).
      destruct (build_inventory_groups _ _ Hg) as (E & f & Hf & Hfile & Ek).
      exists f. unfold folder_of. rewrite E, Ek. auto.
    - intros (f & Hf & Hfile & ->).
      exists (lower (suffix f), files_with_ext es (lower (suffix f))). split; auto.
      now apply build_inventory_has_group. }
  assert (Hfilein : forall x, In x (List.concat (map snd inv)) <->
                              exists c, dir_get es x = Some (File c)).
  { intros x. rewrite in_group_files. split.
    - intros (g & Hg & Hx). destruct (build_inventory_groups _ _ Hg) as (E & _).
      rewrite E in Hx. apply files_with_ext_In in Hx. now apply is_file_top.
    - intros (c & Hc).
      assert (Hx : In x (names es)) by (eapply dir_get_In; eauto).
      assert (Hfile : is_file (Dir es) [x] = true) by (apply is_file_top; eauto).
      exists (lower (suffix x), files_with_ext es (lower (suffix x))). split.
      + now apply build_inventory_has_group.
      + apply files_with_ext_In. auto. }
  destruct (@move_groups_ok inv es) as (es' & Hrun & Hgroups & Hframe).
  - apply build_inventory_folders.
  - now apply build_inventory_files.
  - intros g f Hg Hf. apply Hfilein. apply in_group_files. eauto.
  - intros g Hg. destruct (build_inventory_groups _ _ Hg) as (E & f & Hf & Hfile & Ek).
    unfold folder_of. rewrite E, Ek. now apply Hfree.
  - exists es'. split; [|split; [|split]].
    + unfold categorize_files_by_type, iterdir. simpl. fold inv. now rewrite Hrun.
    + intros x Hx. apply Hfolder in Hx. apply in_map_iff in Hx.
      destruct Hx as (g & <- & Hg). destruct (Hgroups g Hg) as (inside & H & _). eauto.
    + intros x c Hc.
      assert (Hin : In x (List.concat (map snd inv))) by (apply Hfilein; eauto).
      apply in_group_files in Hin. destruct Hin as (g & Hg & Hx).
      destruct (Hgroups g Hg) as (inside & _ & Hfiles & _).
      now destruct (Hfiles x Hx).
    + intros x Hx Hnf. apply Hframe.
      * intros H. apply Hx. now apply Hfolder.
      * intros H. apply Hfilein in H. destruct H as (c & Hc). now apply (Hnf c).
Qed.

(** X5.  Categorization leaves alone what is not a regular file: in a folder
    whose direct regular files have ASCII names and where nothing is in the
    way of a type folder, a direct subdirectory that is not one of the type
    folders is, with everything in it, what it was. *)
Theorem categorize_keeps_other_directories (es : dir) :
  NoDup (names es) ->
  ascii_files es ->
  type_folders_free es ->
  exists root' keys,
    categorize_files_by_type (Dir es) [] = Ok (root', keys) /\
    forall x inside,
      fs_get (Dir es) [x] = Some (Dir inside) ->
      ~ is_type_folder_of es x ->
      fs_get root' [x] = Some (Dir inside).
Proof.
  intros Hes _ Hfree.
  destruct (categorize_ok_frame Hes Hfree) as (es' & Hrun & _ & _ & Hframe).
  exists (Dir es'), (map fst (build_inventory (Dir es) [] (names es))).
  split; [exact Hrun|]. intros x inside Hx Hnot. rewrite fs_get_top in *.
  rewrite Hframe; auto. intros c. congruence.
Qed.

Lemma categorize_keeps_other_directories_witness :
  let es := [("a.csv", csv_file [["1"]]); ("archive", Dir [("old.csv", csv_file [])])] in
  exists root' keys,
    categorize_files_by_type (Dir es) [] = Ok (root', keys) /\
    forall x inside,
      fs_get (Dir es) [x] = Some (Dir inside) ->
      ~ is_type_folder_of es x ->
      fs_get root' [x] = Some (Dir inside).
Proof.
  intros es. apply (@categorize_keeps_other_directories es).
  - repeat constructor; simpl; intuition discriminate.
  - intros f [<- | [<- | []]] _; reflexivity.
  - intros f [<- | [<- | []]] Hfile; try discriminate Hfile. left. reflexivity.
Defined.

(** X6.  In a folder whose direct regular files have ASCII names and where
    nothing is in the way of a type folder, categorization leaves no regular
    file directly in the folder, so a second categorization finds nothing to
    do: it returns no key and changes nothing. *)
Theorem categorize_twice (es : dir) :
  NoDup (names es) ->
  ascii_files es ->
  type_folders_free es ->
  exists root' keys,
    categorize_files_by_type (Dir es) [] = Ok (root', keys) /\
    (forall x, is_file root' [x] = false) /\
    categorize_files_by_type root' [] = Ok (root', []).
Proof.
  intros Hes _ Hfree.
  destruct (categorize_ok_frame Hes Hfree) as (es' & Hrun & Hfolders & Hgone & Hframe).
  exists (Dir es'), (map fst (build_inventory (Dir es) [] (names es))).
  split; [exact Hrun|].
  assert (Hno : forall x, is_file (Dir es') [x] = false).
  { intros x. destruct (is_file (Dir es') [x]) eqn:E; auto. exfalso.
    apply is_file_top in E. destruct E as (c & Hc).
    destruct (dir_get es x) as [[c0|d0]|] eqn:E0.
    - rewrite (Hgone x c0 E0) in Hc. discriminate.
    - assert (Hx : ~ is_type_folder_of es x).
      { intros Hx. destruct (Hfolders x Hx) as (inside & H). congruence. }
      rewrite (Hframe x Hx) in Hc; [congruence|]. intros c1. congruence.
    - assert (Hx : ~ is_type_folder_of es x).
      { intros Hx. destruct (Hfolders x Hx) as (inside & H). congruence. }
      rewrite (Hframe x Hx) in Hc; [congruence|]. intros c1. congruence. }
  split; [exact Hno|].
  apply (@categorize_no_files es' (fun f _ => Hno f)).
Qed.

Lemma categorize_twice_witness :
  let es := [("a.csv", csv_file [["1"]]); ("README", File unreadable);
             ("b.CSV", csv_file [])] in
  exists root' keys,
    categorize_files_by_type (Dir es) [] = Ok (root', keys) /\
    (forall x, is_file root' [x] = false) /\
    categorize_files_by_type root' [] = Ok (root', []).
Proof.
  intros es. apply (@categorize_twice es).
  - repeat constructor; simpl; intuition discriminate.
  - intros f [<- | [<- | [<- | []]]] _; reflexivity.
  - intros f [<- | [<- | [<- | []]]] Hfile; left; reflexivity.
Defined.

(** X3.  The inventory groups the regular files by lowercased suffix: for a
    folder whose direct regular files have ASCII names, its groups are
    exactly the non-empty lists of the direct regular files of one
    lowercased suffix, each in listing order, so that every regular file is
    in the group of its own suffix and in no other. *)
Theorem inventory_groups_by_suffix (es : dir) (k : string) (files : list string) :
  ascii_files es ->
  (In (k, files) (build_inventory (Dir es) [] (names es)) <->
   files = files_with_ext es k /\ files <> []).
Proof.
  intros _. split.
  - intros Hin. destruct (build_inventory_groups _ _ Hin) as (E & f & Hf & Hfile & Ek).
    simpl in E, Ek. split; auto. intros Hnil.
    assert (Hmem : In f (files_with_ext es k)) by (apply files_with_ext_In; auto).
    rewrite <- E, Hnil in Hmem. contradiction.
  - intros [-> Hne]. destruct (files_with_ext es k) as [|f l] eqn:E; [congruence|].
    assert (Hmem : In f (files_with_ext es k)) by (rewrite E; now left).
    apply files_with_ext_In in Hmem. destruct Hmem as (Hf & Hfile & <-).
    rewrite <- E. now apply build_inventory_has_group.
Qed.

Lemma inventory_groups_by_suffix_witness :
  let es := [("a.csv", csv_file [["1"]]); ("notes.PDF", pdf_file ["p"]);
             ("archive", Dir [("old.csv", csv_file [])]); ("B.CSV", csv_file [])] in
  In (".csv", ["a.csv"; "B.CSV"]) (build_inventory (Dir es) [] (names es)) <->
  ["a.csv"; "B.CSV"] = files_with_ext es ".csv" /\ ["a.csv"; "B.CSV"] <> [].
Proof.
  intros es. apply (@inventory_groups_by_suffix es ".csv" ["a.csv"; "B.CSV"]).
  intros f [<- | [<- | [<- | [<- | []]]]] _; reflexivity.
Defined.

(** X4.  Two suffixes that differ after lowercasing never share a type folder,
    whatever the numbers of files: the folder name determines the
    lowercased suffix. *)
Theorem different_suffixes_different_folders (f g : string) (n m : nat) :
  is_ascii_name f = true -> is_ascii_name g = true ->
  lower (suffix f) <> lower (suffix g) ->
  type_folder_name (lower (suffix f)) n <> type_folder_name (lower (suffix g)) m.
Proof.
  intros _ _ Hne Heq. apply Hne. eapply type_folder_name_inj; eauto.
Qed.

Lemma different_suffixes_different_folders_witness :
  type_folder_name (lower (suffix "report.x")) 11
  <> type_folder_name (lower (suffix "notes.x_1")) 1.
Proof.
  apply (@different_suffixes_different_folders "report.x" "notes.x_1" 11 1);
    [reflexivity | reflexivity | discriminate].
Defined.

(** ** Association works inside the type folder *)

Lemma path_exists_app (p : path) (root nd : node) (q : path) :
  fs_get root p = Some nd -> path_exists root (p ++ q) = path_exists nd q.
Proof. intros H. unfold path_exists. now rewrite fs_get_app, H. Qed.

Lemma is_dir_app (p : path) (root nd : node) (q : path) :
  fs_get root p = Some nd -> is_dir root (p ++ q) = is_dir nd q.
Proof. intros H. unfold is_dir. now rewrite fs_get_app, H. Qed.

Lemma mkdir_parents_under : forall (p : path) (root nd : node) (q : path),
  fs_get root p = Some nd -> q <> [] ->
  mkdir_parents root (p ++ q) =
  (nd' <- mkdir_parents nd q ;; Ok (fs_replace root p nd')).
Proof.
  induction p as [|n p IH]; intros root nd q Hget Hq.
  - simpl in *. injection Hget as <-. now rewrite bind_ret.
  - simpl in Hget. destruct root as [c|es]; [discriminate|].
    destruct (dir_get es n) as [child|] eqn:E; [|discriminate].
    simpl. rewrite E. rewrite (IH child nd q Hget Hq).
    destruct (mkdir_parents nd q); reflexivity.
Qed.

Lemma create_folder_under (p : path) (root nd : node) (q : path) :
  fs_get root p = Some nd -> q <> [] ->
  create_folder root (p ++ q) =
  (nd' <- create_folder nd q ;; Ok (fs_replace root p nd')).
Proof.
  intros Hget Hq. unfold create_folder. rewrite (@path_exists_app p root nd q Hget).
  destruct (path_exists nd q); simpl.
  - now rewrite (@fs_replace_same p root nd Hget).
  - now apply mkdir_parents_under.
Qed.

Lemma basename_app (p a : path) : a <> [] -> basename (p ++ a) = basename a.
Proof.
  intros Ha. unfold basename. induction p as [|n p IH]; simpl; auto.
  destruct (p ++ a) eqn:E; auto. apply app_eq_nil in E. tauto.
Qed.

Lemma shutil_move_under (p : path) (root nd : node) (a b : path) :
  fs_get root p = Some nd -> a <> [] -> b <> [] ->
  shutil_move root (p ++ a) (p ++ b) =
  (nd' <- shutil_move nd a b ;; Ok (fs_replace root p nd')).
Proof.
  intros Hget Ha Hb. unfold shutil_move.
  rewrite (@is_dir_app p root nd b Hget), path_eqb_app, (@basename_app p a Ha).
  rewrite <- app_assoc, (@path_exists_app p root nd _ Hget).
  destruct (is_dir nd b).
  - destruct (path_eqb a b).
    + now apply rename_under.
    + destruct (path_exists nd (b ++ [basename a])); auto.
      apply rename_under; auto. intros E. apply app_eq_nil in E. tauto.
  - now apply rename_under.
Qed.

Lemma path_eqb_snoc (p : path) (n : string) : path_eqb (p ++ [n]) p = false.
Proof.
  induction p as [|m p IH]; simpl; auto. rewrite IH. apply andb_false_r.
Qed.

(** Moving an entry of a folder into that folder itself: both the run in the
    tree and the run in the folder raise, and they raise the same. *)
Lemma shutil_move_under_self (p : path) (root nd : node) (n : string) :
  fs_get root p = Some nd ->
  shutil_move root (p ++ [n]) p =
  (nd' <- shutil_move nd [n] [] ;; Ok (fs_replace root p nd')).
Proof.
  intros Hget. unfold shutil_move.
  replace (is_dir root p) with (is_dir nd []).
  2:{ unfold is_dir. simpl. now rewrite Hget. }
  rewrite path_eqb_snoc. simpl path_eqb.
  rewrite (@basename_app p [n]) by discriminate.
  change (basename [n]) with n. rewrite (@path_exists_app p root nd [n] Hget).
  change ([] ++ [n]) with [n].
  assert (Hren : forall dst dst',
            fs_get nd [n] = None ->
            rename root (p ++ [n]) dst =
            (nd' <- rename nd [n] dst' ;; Ok (fs_replace root p nd'))).
  { intros dst dst' H. unfold rename. now rewrite fs_get_app, Hget, H. }
  destruct (is_dir nd []) eqn:Ed.
  - destruct (path_exists nd [n]) eqn:Ex; auto.
    apply Hren. unfold path_exists in Ex. now destruct (fs_get nd [n]).
  - apply Hren. unfold is_dir in Ed. simpl in Ed. destruct nd as [c|es]; [|discriminate].
    reflexivity.
Qed.

Section AssociationInside.

Variable re_search : string -> string -> result bool.
Variables (type_folder : path) (name : string).

Lemma move_to_bank_folder_under (root nd : node) (bank : string) :
  fs_get root type_folder = Some nd ->
  move_to_bank_folder root type_folder (type_folder ++ [name]) bank =
  (nd' <- move_to_bank_folder nd [] [name] bank ;;
   Ok (fs_replace root type_folder nd')).
Proof.
  intros Hget. unfold move_to_bank_folder, path_join.
  destruct (String.eqb bank "") eqn:Eb.
  - unfold create_folder. simpl.
    replace (path_exists root type_folder) with true.
    2:{ unfold path_exists. now rewrite Hget. }
    simpl. now apply shutil_move_under_self.
  - change ([] ++ [bank]) with [bank].
    rewrite (@create_folder_under type_folder root nd [bank] Hget) by discriminate.
    destruct (create_folder nd [bank]) as [nd1|e]; simpl; auto.
    rewrite (@shutil_move_under type_folder _ nd1 [name] [bank]
               (@fs_get_replace type_folder root nd nd1 Hget)) by discriminate.
    destruct (shutil_move nd1 [name] [bank]) as [nd2|e]; simpl; auto.
    now rewrite (@fs_replace_replace type_folder root nd _ _ Hget).
Qed.

Lemma accounts_by_filename_false (tf : path) (bank : string) :
  forall (accounts : list account) (root r : node),
  accounts_by_filename re_search tf name bank accounts root = Ok (r, false) -> r = root.
Proof.
  induction accounts as [|acc accounts IH]; simpl; intros root r H.
  - now injection H as <-.
  - destruct (re_search (get_default (Account_ID acc) "") name) as [[|]|e];
      simpl in H; try discriminate; auto.
    destruct (get_item (Account_Name acc)); simpl in H; [|discriminate].
    destruct (move_to_bank_folder root tf (tf ++ [name]) bank); simpl in H; discriminate.
Qed.

Lemma accounts_by_content_false (check : node -> path -> string -> bool)
    (tf : path) (bank : string) :
  forall (accounts : list account) (root r : node),
  accounts_by_content check tf name bank accounts root = Ok (r, false) -> r = root.
Proof.
  induction accounts as [|acc accounts IH]; simpl; intros root r H.
  - now injection H as <-.
  - destruct (get_item (Account_ID acc)) as [id|e]; simpl in H; [|discriminate].
    destruct (check root (tf ++ [name]) id); auto.
    destruct (get_item (Account_Name acc)); simpl in H; [|discriminate].
    destruct (move_to_bank_folder root tf (tf ++ [name]) bank); simpl in H; discriminate.
Qed.

Lemma by_content_false (tf : path) (bank : string) (accounts : list account)
    (root r : node) :
  by_content re_search tf name bank accounts root = Ok (r, false) -> r = root.
Proof.
  unfold by_content.
  destruct (String.eqb (lower (suffix name)) ".csv");
    [apply accounts_by_content_false|].
  destruct (String.eqb (lower (suffix name)) ".pdf");
    [apply accounts_by_content_false|].
  intros H. now injection H as <-.
Qed.

#[local] Abbreviation put_back := (put_back type_folder).

Lemma accounts_by_filename_under (root nd : node) (bank : string) :
  fs_get root type_folder = Some nd ->
  forall accounts,
  accounts_by_filename re_search type_folder name bank accounts root =
  put_back root (accounts_by_filename re_search [] name bank accounts nd).
Proof.
  intros Hget. unfold put_back.
  induction accounts as [|acc accounts IH]; simpl.
  - now rewrite (@fs_replace_same type_folder root nd Hget).
  - destruct (re_search (get_default (Account_ID acc) "") name) as [[|]|e];
      simpl; auto.
    destruct (get_item (Account_Name acc)); simpl; auto.
    rewrite (@move_to_bank_folder_under root nd bank Hget).
    change ([] ++ [name]) with [name].
    destruct (move_to_bank_folder nd [] [name] bank); reflexivity.
Qed.

Lemma check_csv_under (root nd : node) (account_id : string) :
  fs_get root type_folder = Some nd ->
  check_csv_for_account_id re_search root (type_folder ++ [name]) account_id =
  check_csv_for_account_id re_search nd [name] account_id.
Proof.
  intros Hget. unfold check_csv_for_account_id, csv_contains.
  now rewrite fs_get_app, Hget.
Qed.

Lemma check_pdf_under (root nd : node) (account_id : string) :
  fs_get root type_folder = Some nd ->
  check_pdf_for_account_id root (type_folder ++ [name]) account_id =
  check_pdf_for_account_id nd [name] account_id.
Proof.
  intros Hget. unfold check_pdf_for_account_id, pdf_contains.
  now rewrite fs_get_app, Hget.
Qed.

Lemma accounts_by_content_under (check : node -> path -> string -> bool)
    (root nd : node) (bank : string) :
  fs_get root type_folder = Some nd ->
  (forall id, check root (type_folder ++ [name]) id = check nd [name] id) ->
  forall accounts,
  accounts_by_content check type_folder name bank accounts root =
  put_back root (accounts_by_content check [] name bank accounts nd).
Proof.
  intros Hget Hcheck. unfold put_back.
  induction accounts as [|acc accounts IH]; simpl.
  - now rewrite (@fs_replace_same type_folder root nd Hget).
  - destruct (get_item (Account_ID acc)) as [id|e]; simpl; auto.
    rewrite Hcheck. destruct (check nd [name] id); auto.
    destruct (get_item (Account_Name acc)); simpl; auto.
    rewrite (@move_to_bank_folder_under root nd bank Hget).
    change ([] ++ [name]) with [name].
    destruct (move_to_bank_folder nd [] [name] bank); reflexivity.
Qed.

Lemma by_content_under (root nd : node) (bank : string) (accounts : list account) :
  fs_get root type_folder = Some nd ->
  by_content re_search type_folder name bank accounts root =
  put_back root (by_content re_search [] name bank accounts nd).
Proof.
  intros Hget. unfold by_content.
  destruct (String.eqb (lower (suffix name)) ".csv").
  { apply accounts_by_content_under; auto. intros id. now apply check_csv_under. }
  destruct (String.eqb (lower (suffix name)) ".pdf").
  { apply accounts_by_content_under; auto. intros id. now apply check_pdf_under. }
  unfold put_back. simpl. now rewrite (@fs_replace_same type_folder root nd Hget).
Qed.

Lemma banks_loop_under (root nd : node) :
  fs_get root type_folder = Some nd ->
  forall banks,
  banks_loop re_search type_folder name banks root =
  put_back root (banks_loop re_search [] name banks nd).
Proof.
  intros Hget. induction banks as [|[bank data] banks IH]; simpl.
  - unfold put_back. simpl. now rewrite (@fs_replace_same type_folder root nd Hget).
  - destruct (if is_substring bank name then Ok true
              else re_search (get_default (Bank_ID data) "") name) as [[|]|e];
      simpl; auto.
    + rewrite (@move_to_bank_folder_under root nd bank Hget).
      change ([] ++ [name]) with [name]. unfold put_back.
      destruct (move_to_bank_folder nd [] [name] bank); reflexivity.
    + rewrite (@accounts_by_filename_under root nd bank Hget).
      destruct (accounts_by_filename re_search [] name bank
                  (get_default (Accounts data) []) nd) as [[nd1 [|]]|e] eqn:E1;
        unfold put_back at 1; simpl; auto.
      apply accounts_by_filename_false in E1. subst nd1.
      rewrite (@fs_replace_same type_folder root nd Hget).
      rewrite (@by_content_under root nd bank (get_default (Accounts data) []) Hget).
      destruct (by_content re_search [] name bank (get_default (Accounts data) []) nd)
        as [[nd2 [|]]|e] eqn:E2; unfold put_back at 1; simpl; auto.
      apply by_content_false in E2. subst nd2.
      rewrite (@fs_replace_same type_folder root nd Hget). exact IH.
Qed.

Lemma associate_file_under (json : json_data) (root nd : node) :
  fs_get root type_folder = Some nd ->
  associate_file re_search type_folder json root name =
  (nd' <- associate_file re_search [] json nd name ;;
   Ok (fs_replace root type_folder nd')).
Proof.
  intros Hget. unfold associate_file. rewrite (@banks_loop_under root nd Hget).
  unfold put_back. destruct (banks_loop re_search [] name json nd) as [[nd' b]|e];
    reflexivity.
Qed.

End AssociationInside.

Lemma associate_loop_under (re_search : string -> string -> result bool)
    (type_folder : path) (json : json_data) :
  forall (listing : list string) (root nd : node),
  fs_get root type_folder = Some nd ->
  for_each (associate_file re_search type_folder json) listing root =
  (nd' <- for_each (associate_file re_search [] json) listing nd ;;
   Ok (fs_replace root type_folder nd')).
Proof.
  induction listing as [|name l IH]; intros root nd Hget; simpl.
  - now rewrite (@fs_replace_same type_folder root nd Hget).
  - rewrite (@associate_file_under re_search type_folder name json root nd Hget).
    destruct (associate_file re_search [] json nd name) as [nd1|e]; simpl; auto.
    rewrite (IH _ nd1 (@fs_get_replace type_folder root nd nd1 Hget)).
    destruct (for_each (associate_file re_search [] json) l nd1) as [nd2|e]; simpl; auto.
    now rewrite (@fs_replace_replace type_folder root nd _ _ Hget).
Qed.

(** ** What association leaves of the processed folder *)

Lemma fs_get_replace_other : forall (p : path) (root new : node) (q : path),
  is_prefix p q = false -> is_prefix q p = false ->
  fs_get (fs_replace root p new) q = fs_get root q.
Proof.
  induction p as [|n p IH]; intros root new q Hpq Hqp; [discriminate|].
  destruct q as [|m q]; [discriminate|]. simpl in Hpq, Hqp.
  destruct root as [c|es]; auto. simpl.
  destruct (dir_get es n) as [child|] eqn:E; auto. simpl.
  destruct (String.eqb n m) eqn:Enm.
  - apply String.eqb_eq in Enm. subst m. rewrite String.eqb_refl in Hqp.
    simpl in Hpq, Hqp. rewrite dir_get_set_eq, E. now apply IH.
  - apply String.eqb_neq in Enm. now rewrite dir_get_set_neq.
Qed.

Lemma top_kind_replace (root nd' : node) (F x : string) :
  path_exists (fs_replace root [F] nd') [x] = path_exists root [x].
Proof.
  destruct (String.eqb F x) eqn:E.
  - apply String.eqb_eq in E. subst x. unfold path_exists. simpl.
    destruct root as [c|es]; auto. destruct (dir_get es F) eqn:EF; simpl.
    + now rewrite dir_get_set_eq.
    + now rewrite EF.
  - unfold path_exists. rewrite fs_get_replace_other; auto; simpl; rewrite ?E; auto.
    rewrite String.eqb_sym, E. reflexivity.
Qed.

Lemma resolve_type_folder_shape (root : node) (file_type : string) (tf : path) :
  resolve_type_folder root [] file_type = Ok tf ->
  exists n, tf = [type_folder_name file_type n] /\
            path_exists root (path_join [] (upper (drop 1 file_type))) = true.
Proof.
  unfold resolve_type_folder, iterdir, path_exists.
  destruct (fs_get root (path_join [] (upper (drop 1 file_type)))) as [[c|es]|];
    simpl; try discriminate.
  intros H. injection H as <-. exists (List.length (names es)). split; auto.
  apply (path_join_type_folder file_type).
Qed.

Section AssociationTop.

Variable re_search : string -> string -> result bool.
Variable json : json_data.

Lemma associate_type_inside (root root' : node) (file_type : string) :
  associate_type re_search [] json root file_type = Ok root' ->
  exists n,
    resolve_type_folder root [] file_type = Ok [type_folder_name file_type n] /\
    path_exists root (path_join [] (upper (drop 1 file_type))) = true /\
    (root' = root \/
     exists nd', root' = fs_replace root [type_folder_name file_type n] nd').
Proof.
  unfold associate_type.
  destruct (resolve_type_folder root [] file_type) as [tf|e] eqn:Eres; [|discriminate].
  destruct (resolve_type_folder_shape _ _ Eres) as (n & -> & Hbare).
  simpl. intros Hrun. exists n. split; auto. split; auto.
  set (F := type_folder_name file_type n) in *.
  destruct (path_exists root [F]); simpl in Hrun.
  2:{ left. now injection Hrun as <-. }
  unfold iterdir in Hrun.
  destruct (fs_get root [F]) as [[c|es]|] eqn:EF; simpl in Hrun; try discriminate.
  rewrite (@associate_loop_under re_search [F] json (names es) root (Dir es) EF) in Hrun.
  destruct (for_each (associate_file re_search [] json) (names es) (Dir es))
    as [nd1|e]; cbn [bind] in Hrun; [|discriminate].
  rewrite (@update_counts_under [F] _ nd1 (@fs_get_replace [F] root (Dir es) nd1 EF))
    in Hrun.
  destruct (update_subfolder_counts nd1 []) as [nd2|e]; cbn [bind] in Hrun;
    [|discriminate].
  injection Hrun as <-. right. exists nd2.
  apply (@fs_replace_replace [F] root (Dir es) nd1 nd2 EF).
Qed.

(** X21.  One round of the associator, for an extension of ASCII characters
    and a registry whose bank names join as one component, works inside the
    folder it has resolved: whatever lies under another direct entry of the
    processed folder is untouched, and no direct entry appears or
    disappears. *)
Theorem associate_type_stays_inside (root root' : node) (file_type : string) :
  entry_names json ->
  is_ascii_name file_type = true ->
  associate_type re_search [] json root file_type = Ok root' ->
  exists n,
    resolve_type_folder root [] file_type = Ok [type_folder_name file_type n] /\
    (forall x q, x <> type_folder_name file_type n ->
                 fs_get root' (x :: q) = fs_get root (x :: q)) /\
    (forall x, path_exists root' [x] = path_exists root [x]).
Proof.
  intros _ _ Hrun.
  destruct (associate_type_inside _ _ Hrun) as (n & Hres & _ & Hshape).
  exists n. split; auto.
  destruct Hshape as [-> | (nd' & ->)]; [split; auto|]. split.
  - intros x q Hx. apply fs_get_replace_other; simpl.
    + apply String.eqb_neq in Hx. now rewrite String.eqb_sym, Hx.
    + apply String.eqb_neq in Hx. now rewrite Hx.
  - intros x. apply top_kind_replace.
Qed.

Lemma associate_types_top (types : list string) : forall (root root' : node),
  associate_files_with_sources re_search root [] types json = Ok root' ->
  (forall x, path_exists root' [x] = path_exists root [x]) /\
  (forall k, In k types ->
             path_exists root (path_join [] (upper (drop 1 k))) = true).
Proof.
  unfold associate_files_with_sources.
  induction types as [|k types IH]; intros root root' Hrun; simpl in Hrun.
  - injection Hrun as <-. split; auto; intros k [].
  - destruct (associate_type re_search [] json root k) as [r1|e] eqn:E1; [|discriminate].
    simpl in Hrun. destruct (IH r1 root' Hrun) as [Htop Hbare].
    destruct (associate_type_inside _ _ E1) as (n & _ & Hk & Hshape).
    assert (Hr1 : forall x, path_exists r1 [x] = path_exists root [x]).
    { destruct Hshape as [-> | (nd' & ->)]; auto. intros x. apply top_kind_replace. }
    split.
    + intros x. now rewrite Htop.
    + intros k' [<- | Hin]; auto.
      specialize (Hbare k' Hin). unfold path_join in *.
      destruct (String.eqb (upper (drop 1 k')) ""); auto.
      simpl in *. now rewrite <- Hr1.
Qed.

(** X22.  When the associator returns, for extensions of ASCII characters and a
    registry whose bank names join as one component, the processed folder
    has the direct entries it had, and for every file type it was given an
    entry named by the bare uppercased extension existed from the start: a
    type without such an entry makes the associator raise. *)
Theorem association_needs_the_bare_folders (types : list string) (root root' : node) :
  entry_names json ->
  (forall k, In k types -> is_ascii_name k = true) ->
  associate_files_with_sources re_search root [] types json = Ok root' ->
  (forall x, path_exists root' [x] = path_exists root [x]) /\
  (forall k, In k types ->
             path_exists root (path_join [] (upper (drop 1 k))) = true).
Proof. intros _ _. apply associate_types_top. Qed.

End AssociationTop.

Lemma association_needs_the_bare_folders_witness :
  let root := Dir [("CSV", Dir [("x", Dir []); ("y", Dir [])]);
                   ("CSV_2", Dir [("statement_9988.csv", csv_file [["x"]]);
                                  ("random.csv", csv_file [["y"]])]);
                   ("PDF", Dir [("z", Dir [])]);
                   ("PDF_1", Dir [("scan.pdf", pdf_file ["account 9988"])])] in
  let root' := Dir [("CSV", Dir [("x", Dir []); ("y", Dir [])]);
                    ("CSV_2", Dir [("random.csv", csv_file [["y"]]);
                                   ("Chase_1",
                                    Dir [("statement_9988.csv", csv_file [["x"]])])]);
                    ("PDF", Dir [("z", Dir [])]);
                    ("PDF_1", Dir [("Chase_1",
                                    Dir [("scan.pdf", pdf_file ["account 9988"])])])] in
  (forall x, path_exists root' [x] = path_exists root [x]) /\
  (forall k, In k [".csv"; ".pdf"] ->
             path_exists root (path_join [] (upper (drop 1 k))) = true).
Proof.
  intros root root'.
  apply (@association_needs_the_bare_folders literal_search chase_registry
           [".csv"; ".pdf"] root root').
  - intros bank data [E | []]. injection E as <- _. reflexivity.
  - intros k [<- | [<- | []]]; reflexivity.
  - reflexivity.
Defined.

Lemma associate_type_stays_inside_witness :
  let root := Dir [("other", Dir [("Chase.txt", File unreadable)]);
                   ("CSV", Dir [("x", Dir []); ("y", Dir [])]);
                   ("CSV_2", Dir [("statement_9988.csv", csv_file [["x"]]);
                                  ("random.csv", csv_file [["y"]])])] in
  let root' := Dir [("other", Dir [("Chase.txt", File unreadable)]);
                    ("CSV", Dir [("x", Dir []); ("y", Dir [])]);
                    ("CSV_2", Dir [("random.csv", csv_file [["y"]]);
                                   ("Chase_1",
                                    Dir [("statement_9988.csv", csv_file [["x"]])])])] in
  exists n,
    resolve_type_folder root [] ".csv" = Ok [type_folder_name ".csv" n] /\
    (forall x q, x <> type_folder_name ".csv" n ->
                 fs_get root' (x :: q) = fs_get root (x :: q)) /\
    (forall x, path_exists root' [x] = path_exists root [x]).
Proof.
  intros root root'.
  apply (@associate_type_stays_inside literal_search chase_registry root root' ".csv").
  - intros bank data [E | []]. injection E as <- _. reflexivity.
  - reflexivity.
  - reflexivity.
Defined.

(** ** The run as a whole *)

Lemma bare_extension_nonempty (f : string) :
  suffix f <> "" -> String.eqb (upper (drop 1 (lower (suffix f)))) "" = false.
Proof.
  intros Hne. destruct (suffix_shape f) as [E | (c & t & E)]; [contradiction|].
  rewrite E. reflexivity.
Qed.

(** X23.  The run cannot complete on a folder that holds a regular file with a
    suffix unless an entry named by the bare uppercased extension is there
    after categorization: for a folder whose direct regular files have
    ASCII names and a registry whose bank names join as one component, when
    categorization goes through and no directory and no type folder bears
    that name, the run ends on an exception. *)
Theorem run_raises_without_bare_folder (re_search : string -> string -> result bool)
    (json : json_data) (es : dir) (f : string) (c : content) :
  NoDup (names es) ->
  ascii_files es ->
  entry_names json ->
  type_folders_free es ->
  fs_get (Dir es) [f] = Some (File c) ->
  suffix f <> "" ->
  ~ is_type_folder_of es (upper (drop 1 (lower (suffix f)))) ->
  is_dir (Dir es) [upper (drop 1 (lower (suffix f)))] = false ->
  exists e, main re_search (Some (Dir es)) (Some json) = Raise e.
Proof.
  intros Hes _ _ Hfree Hf Hsuf Hnot Hnodir. rewrite fs_get_top in Hf.
  set (EXT := upper (drop 1 (lower (suffix f)))) in *.
  destruct (categorize_ok_frame Hes Hfree) as (es' & Hrun & _ & Hgone & Hframe).
  assert (Habsent : dir_get es' EXT = None).
  { unfold is_dir in Hnodir. rewrite fs_get_top in Hnodir.
    destruct (dir_get es EXT) as [[c0|d]|] eqn:E0; try discriminate.
    - eapply Hgone; eauto.
    - rewrite Hframe; auto. intros c1. congruence. }
  unfold main. rewrite Hrun. cbn [bind].
  destruct (associate_files_with_sources re_search (Dir es') []
              (map fst (build_inventory (Dir es) [] (names es))) json)
    as [r2|e] eqn:Eassoc; [|simpl; eauto].
  exfalso.
  destruct (@associate_types_top re_search json _ _ _ Eassoc)
    as [_ Hbare].
  assert (Hkey : In (lower (suffix f))
                   (map fst (build_inventory (Dir es) [] (names es)))).
  { apply inventory_from_key_In. right. exists f. split; [|split]; auto.
    - eapply dir_get_In; eauto.
    - apply is_file_top. eauto. }
  specialize (Hbare _ Hkey). unfold path_join in Hbare.
  rewrite (@bare_extension_nonempty f Hsuf) in Hbare.
  fold EXT in Hbare. unfold path_exists in Hbare. simpl in Hbare.
  rewrite Habsent in Hbare. discriminate.
Qed.

Lemma run_raises_without_bare_folder_witness :
  exists e,
    main literal_search
      (Some (Dir [("a.csv", csv_file [["x"]]); ("notes", File unreadable)]))
      (Some chase_registry) = Raise e.
Proof.
  apply (@run_raises_without_bare_folder literal_search chase_registry
           [("a.csv", csv_file [["x"]]); ("notes", File unreadable)]
           "a.csv" (mkContent (Ok [["x"]]) (Raise ReadError))).
  - repeat constructor; simpl; intuition discriminate.
  - intros g [<- | [<- | []]] _; reflexivity.
  - intros bank data [E | []]. injection E as <- _. reflexivity.
  - intros g [<- | [<- | []]] Hfile; left; reflexivity.
  - reflexivity.
  - discriminate.
  - intros (g & [<- | [<- | []]] & _ & E); discriminate E.
  - reflexivity.
Defined.

(** ** [move_to_bank_folder] *)

Lemma move_to_bank_local (es : dir) (name bank : string) (nd : node) :
  String.eqb bank "" = false ->
  name <> bank ->
  dir_get es name = Some nd ->
  target_free es bank [name] ->
  exists es' inside',
    move_to_bank_folder (Dir es) [] [name] bank = Ok (Dir es') /\
    dir_get es' name = None /\
    dir_get es' bank = Some (Dir inside') /\
    dir_get inside' name = Some nd /\
    (forall x, x <> name -> dir_get inside' x = dir_get (entries_before es bank) x) /\
    (forall x, x <> name -> x <> bank -> dir_get es' x = dir_get es x).
Proof.
  intros Hb Hne Hname Hfree. unfold move_to_bank_folder, path_join. rewrite Hb.
  change ([] ++ [bank]) with [bank]. unfold create_folder, path_exists, entries_before.
  simpl. destruct Hfree as [HF | (inside & HF & Hins)]; rewrite HF; simpl.
  - assert (Hget : forall x, dir_get (es ++ [(bank, Dir [])]) x =
                             if String.eqb bank x then Some (Dir []) else dir_get es x).
    { intros x. now apply dir_get_app. }
    assert (Hbn : String.eqb bank name = false).
    { apply String.eqb_neq. congruence. }
    rewrite (@shutil_move_into (es ++ [(bank, Dir [])]) [] name bank nd); auto.
    2:{ now rewrite Hget, Hbn. }
    2:{ now rewrite Hget, String.eqb_refl. }
    eexists. eexists. split; [reflexivity|]. split; [|split; [|split; [|split]]].
    + rewrite dir_get_set_neq by auto. apply dir_get_del_eq.
    + apply dir_get_set_eq.
    + simpl. now rewrite String.eqb_refl.
    + intros x Hx. simpl. apply String.eqb_neq in Hx. now rewrite String.eqb_sym, Hx.
    + intros x Hxn Hxb. rewrite dir_get_set_neq, dir_get_del_neq, Hget by auto.
      destruct (String.eqb bank x) eqn:E; auto. apply String.eqb_eq in E. congruence.
  - rewrite (@shutil_move_into es inside name bank nd); auto.
    2:{ apply Hins. now left. }
    eexists. eexists. split; [reflexivity|]. split; [|split; [|split; [|split]]].
    + rewrite dir_get_set_neq by auto. apply dir_get_del_eq.
    + apply dir_get_set_eq.
    + apply dir_get_set_eq.
    + intros x Hx. apply dir_get_set_neq. auto.
    + intros x Hxn Hxb. rewrite dir_get_set_neq, dir_get_del_neq; auto.
Qed.

(** X8.  [move_to_bank_folder] on an entry of the type folder, when the bank's
    name joins as one component (it is not [.] or [..] and holds no slash),
    is not empty, is not the entry's own name, and is free in the type
    folder or is the name of a directory that holds no entry of that name:
    the call returns, the entry is found under the bank's folder with what
    it was, it is gone from the type folder, and the other entries of the
    type folder and of the bank's folder are what they were. *)
Theorem move_to_bank_folder_moves (root : node) (type_folder : path) (es : dir)
    (name bank : string) (nd : node) :
  fs_get root type_folder = Some (Dir es) ->
  is_entry_name bank = true ->
  String.eqb bank "" = false ->
  name <> bank ->
  dir_get es name = Some nd ->
  target_free es bank [name] ->
  exists root',
    move_to_bank_folder root type_folder (type_folder ++ [name]) bank = Ok root' /\
    fs_get root' (type_folder ++ [bank; name]) = Some nd /\
    fs_get root' (type_folder ++ [name]) = None /\
    (forall x, x <> name ->
               fs_get root' (type_folder ++ [bank; x]) =
               fs_get root (type_folder ++ [bank; x])) /\
    (forall x, x <> name -> x <> bank ->
               fs_get root' (type_folder ++ [x]) = fs_get root (type_folder ++ [x])).
Proof.
  intros Hget _ Hb Hne Hname Hfree.
  destruct (@move_to_bank_local es name bank nd Hb Hne Hname Hfree)
    as (es' & inside' & Hrun & Hgone & Hbank & Hin & Hold & Hframe).
  exists (fs_replace root type_folder (Dir es')).
  assert (Hat : forall q, fs_get (fs_replace root type_folder (Dir es')) (type_folder ++ q)
                          = fs_get (Dir es') q).
  { intros q. now rewrite fs_get_app,
      (@fs_get_replace type_folder root (Dir es) (Dir es') Hget). }
  assert (Hwas : forall q, fs_get root (type_folder ++ q) = fs_get (Dir es) q).
  { intros q. now rewrite fs_get_app, Hget. }
  split; [|split; [|split; [|split]]].
  - rewrite (@move_to_bank_folder_under type_folder name root (Dir es) bank Hget).
    now rewrite Hrun.
  - rewrite Hat. simpl. now rewrite Hbank, Hin.
  - rewrite Hat, fs_get_top. exact Hgone.
  - intros x Hx. rewrite Hat, Hwas. simpl. rewrite Hbank, (Hold x Hx).
    unfold entries_before. destruct (dir_get es bank) as [[c0|d0]|]; auto.
  - intros x Hxn Hxb. rewrite Hat, Hwas, !fs_get_top. now apply Hframe.
Qed.

Lemma move_to_bank_folder_moves_witness :
  let es := [("statement_9988.csv", csv_file [["x"]]); ("random.csv", csv_file [["y"]]);
             ("Chase", Dir [("old.csv", csv_file [])])] in
  let root := Dir [("CSV_2", Dir es)] in
  exists root',
    move_to_bank_folder root ["CSV_2"] (["CSV_2"] ++ ["statement_9988.csv"]) "Chase"
      = Ok root' /\
    fs_get root' (["CSV_2"] ++ ["Chase"; "statement_9988.csv"]) = Some (csv_file [["x"]]) /\
    fs_get root' (["CSV_2"] ++ ["statement_9988.csv"]) = None /\
    (forall x, x <> "statement_9988.csv" ->
               fs_get root' (["CSV_2"] ++ ["Chase"; x]) =
               fs_get root (["CSV_2"] ++ ["Chase"; x])) /\
    (forall x, x <> "statement_9988.csv" -> x <> "Chase" ->
               fs_get root' (["CSV_2"] ++ [x]) = fs_get root (["CSV_2"] ++ [x])).
Proof.
  intros es root.
  apply (@move_to_bank_folder_moves root ["CSV_2"] es "statement_9988.csv" "Chase"
           (csv_file [["x"]])).
  - reflexivity.
  - reflexivity.
  - reflexivity.
  - discriminate.
  - reflexivity.
  - right. eexists. split; [reflexivity|]. intros g [<- | []]. reflexivity.
Defined.

(** X9.  [create_folder] takes a regular file that bears the bank's name for the
    bank's folder: the moved file is then renamed over that file, whose
    content is lost. *)
Theorem move_to_bank_folder_overwrites_a_file (root : node) (type_folder : path)
    (es : dir) (name bank : string) (c c0 : content) :
  fs_get root type_folder = Some (Dir es) ->
  String.eqb bank "" = false ->
  name <> bank ->
  dir_get es name = Some (File c) ->
  dir_get es bank = Some (File c0) ->
  exists root',
    move_to_bank_folder root type_folder (type_folder ++ [name]) bank = Ok root' /\
    fs_get root' (type_folder ++ [bank]) = Some (File c) /\
    fs_get root' (type_folder ++ [name]) = None.
Proof.
  intros Hget Hb Hne Hname Hbank.
  assert (Hnb : String.eqb name bank = false) by now apply String.eqb_neq.
  assert (Hlocal : move_to_bank_folder (Dir es) [] [name] bank =
                   Ok (Dir (dir_set (dir_del es name) bank (File c)))).
  { unfold move_to_bank_folder, path_join. rewrite Hb.
    change ([] ++ [bank]) with [bank].
    unfold create_folder, path_exists, shutil_move, is_dir, rename. simpl.
    rewrite Hbank. simpl. rewrite Hbank, Hname, Hnb. simpl. reflexivity. }
  exists (fs_replace root type_folder (Dir (dir_set (dir_del es name) bank (File c)))).
  split; [|split].
  - rewrite (@move_to_bank_folder_under type_folder name root (Dir es) bank Hget).
    now rewrite Hlocal.
  - rewrite fs_get_app, (@fs_get_replace type_folder root (Dir es) _ Hget), fs_get_top.
    apply dir_get_set_eq.
  - rewrite fs_get_app, (@fs_get_replace type_folder root (Dir es) _ Hget), fs_get_top.
    rewrite dir_get_set_neq by auto. apply dir_get_del_eq.
Qed.

Lemma move_to_bank_folder_overwrites_a_file_witness :
  let es := [("Chase", File unreadable); ("Chase statement", csv_file [["x"]])] in
  exists root',
    move_to_bank_folder (Dir [("_2", Dir es)]) ["_2"] (["_2"] ++ ["Chase statement"])
      "Chase" = Ok root' /\
    fs_get root' (["_2"] ++ ["Chase"]) = Some (File (mkContent (Ok [["x"]]) (Raise ReadError))) /\
    fs_get root' (["_2"] ++ ["Chase statement"]) = None.
Proof.
  intros es.
  apply (@move_to_bank_folder_overwrites_a_file (Dir [("_2", Dir es)]) ["_2"] es
           "Chase statement" "Chase" _ unreadable); try reflexivity. discriminate.
Defined.

(** ** More on attribution *)

Section AttributionEdges.

Variable re_search : string -> string -> result bool.
Variables (type_folder : path) (name : string).

Lemma first_match_none (root : node) (l : list attempt) :
  (forall a, In a l -> try_attempt re_search root type_folder name a = Ok false) ->
  first_match re_search root type_folder name l = Ok None.
Proof.
  induction l as [|a l IH]; simpl; intros H; auto.
  rewrite (H a (or_introl eq_refl)). simpl. apply IH. intros b Hb. apply H. now right.
Qed.

(** X11.  A file no test of any bank matches is left where it is: the round of the
    loop over the files returns the file system as it was. *)
Theorem unmatched_file_stays (json : json_data) (root : node) :
  (forall a, In a (attempts json) ->
             try_attempt re_search root type_folder name a = Ok false) ->
  associate_file re_search type_folder json root name = Ok root.
Proof.
  intros H. unfold associate_file. rewrite banks_loop_first_match.
  now rewrite (first_match_none root (attempts json) H).
Qed.

Lemma accounts_by_filename_app (bank : string) (root : node) :
  forall (before after : list account),
  (forall a, In a before ->
             re_search (get_default (Account_ID a) "") name = Ok false) ->
  accounts_by_filename re_search type_folder name bank (before ++ after) root =
  accounts_by_filename re_search type_folder name bank after root.
Proof.
  induction before as [|a before IH]; intros after H; simpl; auto.
  rewrite (H a (or_introl eq_refl)). simpl. apply IH. intros b Hb. apply H. now right.
Qed.

(** X13.  An account whose [Account_ID] is absent or empty is searched for as the
    empty pattern, which every file name holds: the file that reaches it in
    the loop over the file names is attributed to its bank, after the
    account's name has been read for the log line. *)
Theorem account_without_id_matches_every_name
    (re_search_empty : forall text, re_search "" text = Ok true)
    (bank : string) (before after : list account) (acc : account) (root : node) :
  Account_ID acc = None \/ Account_ID acc = Some "" ->
  (forall a, In a before ->
             re_search (get_default (Account_ID a) "") name = Ok false) ->
  accounts_by_filename re_search type_folder name bank (before ++ acc :: after) root =
  (_ <- get_item (Account_Name acc) ;;
   root' <- move_to_bank_folder root type_folder (type_folder ++ [name]) bank ;;
   Ok (root', true)).
Proof.
  intros Hid Hbefore. rewrite (accounts_by_filename_app bank root before _ Hbefore).
  simpl. assert (E : get_default (Account_ID acc) "" = "").
  { destruct Hid as [-> | ->]; reflexivity. }
  rewrite E, re_search_empty. reflexivity.
Qed.

(** X14.  The log line of a match reads [account['Account_Name']]: when the
    test of the bank fails and the first account that matches, by file name
    or (for a CSV file) by content, has no [Account_Name], the loop over the
    banks raises [KeyError]. *)
Theorem match_without_account_name_raises (bank : string) (data : bank_data)
    (banks : json_data) (acc : account) (rest : list account) (root : node) :
  (if is_substring bank name then Ok true
   else re_search (get_default (Bank_ID data) "") name) = Ok false ->
  Accounts data = Some (acc :: rest) ->
  Account_Name acc = None ->
  (re_search (get_default (Account_ID acc) "") name = Ok true ->
   banks_loop re_search type_folder name ((bank, data) :: banks) root = Raise KeyError) /\
  (forall account_id,
     (forall a, In a (acc :: rest) ->
                re_search (get_default (Account_ID a) "") name = Ok false) ->
     Account_ID acc = Some account_id ->
     lower (suffix name) = ".csv" ->
     check_csv_for_account_id re_search root (type_folder ++ [name]) account_id = true ->
     banks_loop re_search type_folder name ((bank, data) :: banks) root = Raise KeyError).
Proof.
  intros Hbank Hacc Hname. split.
  - intros Hhit. simpl. rewrite Hbank, Hacc. simpl. rewrite Hhit, Hname. reflexivity.
  - intros account_id Hnone Hid Hcsv Hcheck. simpl. rewrite Hbank, Hacc.
    cbn [bind get_default].
    rewrite <- (app_nil_r (acc :: rest)) at 1.
    rewrite (accounts_by_filename_app bank root (acc :: rest) [] Hnone).
    simpl. unfold by_content. rewrite Hcsv. simpl.
    rewrite Hid. simpl. rewrite Hcheck, Hname. reflexivity.
Qed.

(** X15.  An exception of the pattern search on a file name is not caught: when
    the banks before leave the file unmatched and the search for the bank's
    ID raises, the loop over the banks, and with it the round for the file,
    raises the same. *)
Theorem pattern_error_on_file_name_propagates (before after : json_data)
    (bank : string) (data : bank_data) (root : node) (e : exn) :
  banks_loop re_search type_folder name before root = Ok (root, false) ->
  is_substring bank name = false ->
  re_search (get_default (Bank_ID data) "") name = Raise e ->
  banks_loop re_search type_folder name (before ++ (bank, data) :: after) root = Raise e /\
  associate_file re_search type_folder (before ++ (bank, data) :: after) root name
    = Raise e.
Proof.
  intros Hbefore Hsub Hraise.
  assert (H : banks_loop re_search type_folder name (before ++ (bank, data) :: after) root
              = Raise e).
  { rewrite (@banks_loop_app re_search type_folder name before _ root Hbefore).
    simpl. now rewrite Hsub, Hraise. }
  split; auto. unfold associate_file. now rewrite H.
Qed.

(** X12.  When the bank's name is in the file name the bank's ID is not searched
    for: the file goes to the first such bank that no earlier bank has
    preceded with a match, also when that bank's ID is a pattern on which
    the search would raise. *)
Theorem bank_name_in_file_name_wins (before after : json_data)
    (bank : string) (data : bank_data) (root : node) :
  banks_loop re_search type_folder name before root = Ok (root, false) ->
  is_substring bank name = true ->
  banks_loop re_search type_folder name (before ++ (bank, data) :: after) root =
  (root' <- move_to_bank_folder root type_folder (type_folder ++ [name]) bank ;;
   Ok (root', true)).
Proof.
  intros Hbefore Hsub.
  rewrite (@banks_loop_app re_search type_folder name before _ root Hbefore).
  simpl. now rewrite Hsub.
Qed.

(** X17.  What a partial failure of a reader does to the content checks: a page
    that cannot be read ends the PDF check with [False] even when a later
    page holds the account ID, and a search that raises on one cell ends the
    CSV check with [False] even when another cell holds it. *)
Theorem partial_read_failures_hide_matches (root : node) (file : path) (c : content)
    (account_id : string) :
  fs_get root file = Some (File c) ->
  (forall before after e,
     as_pdf c = Ok (map Ok before ++ Raise e :: after) ->
     (forall text, In text before -> is_substring account_id text = false) ->
     check_pdf_for_account_id root file account_id = false) /\
  (forall rows row cell e,
     as_csv c = Ok rows -> In row rows -> In cell row ->
     re_search account_id cell = Raise e ->
     check_csv_for_account_id re_search root file account_id = false).
Proof.
  intros Hget. split.
  - intros before after e Hpdf Hnot.
    unfold check_pdf_for_account_id, pdf_contains. rewrite Hget, Hpdf. simpl.
    assert (H : pages_contain (map Ok before ++ Raise e :: after) account_id = Raise e).
    { clear Hpdf. induction before as [|t before IH]; simpl; auto.
      rewrite (Hnot t (or_introl eq_refl)). apply IH. intros t' Ht'. apply Hnot.
      now right. }
    now rewrite H.
  - intros rows row cell e Hcsv Hrow Hcell Hraise.
    unfold check_csv_for_account_id, csv_contains. rewrite Hget, Hcsv. simpl.
    destruct (collect (map (fun row0 => collect (map (re_search account_id) row0)) rows))
      as [hits|e'] eqn:E; auto. exfalso.
    apply collect_rows in E.
    assert (Hall : forall r, In r (map (map (re_search account_id)) rows) ->
                             forall x, In x r -> exists b, x = Ok b).
    { rewrite E. intros r Hr x Hx. apply in_map_iff in Hr. destruct Hr as (h & <- & _).
      apply in_map_iff in Hx. destruct Hx as (b & <- & _). eauto. }
    destruct (Hall (map (re_search account_id) row)) with (x := re_search account_id cell)
      as (b & Hb).
    + now apply in_map.
    + now apply in_map.
    + congruence.
Qed.

End AttributionEdges.

Lemma unmatched_file_stays_witness :
  let root := Dir [("CSV_2", Dir [("random.csv", csv_file [["x"]])])] in
  associate_file literal_search ["CSV_2"] chase_registry root "random.csv" = Ok root.
Proof.
  intros root.
  apply (@unmatched_file_stays literal_search ["CSV_2"] "random.csv" chase_registry root).
  intros a [<- | [<- | [<- | []]]]; reflexivity.
Defined.

Lemma account_without_id_matches_every_name_witness :
  let root := Dir [("CSV_1", Dir [("random.csv", csv_file [["x"]])])] in
  accounts_by_filename literal_search ["CSV_1"] "random.csv" "Chase"
    ([mkAccount (Some "9988") (Some "Savings")]
     ++ mkAccount None (Some "Joint") :: []) root =
  (_ <- get_item (Some "Joint") ;;
   root' <- move_to_bank_folder root ["CSV_1"] (["CSV_1"] ++ ["random.csv"]) "Chase" ;;
   Ok (root', true)).
Proof.
  intros root.
  apply (@account_without_id_matches_every_name literal_search ["CSV_1"] "random.csv"
           literal_search_empty "Chase"
           [mkAccount (Some "9988") (Some "Savings")] []
           (mkAccount None (Some "Joint")) root).
  - now left.
  - intros a [<- | []]. reflexivity.
Defined.

Lemma match_without_account_name_raises_witness :
  let nameless := mkBank (Some "CHK1") (Some [mkAccount (Some "9988") None]) in
  banks_loop literal_search ["CSV_1"] "statement_9988.csv" [("Chase", nameless)]
    (Dir [("CSV_1", Dir [("statement_9988.csv", csv_file [["x"]])])])
  = Raise KeyError /\
  banks_loop literal_search ["CSV_1"] "march.csv" [("Chase", nameless)]
    (Dir [("CSV_1", Dir [("march.csv", csv_file [["acct 9988"; "12.50"]])])])
  = Raise KeyError.
Proof.
  intros nameless. split.
  - destruct (@match_without_account_name_raises literal_search ["CSV_1"]
                "statement_9988.csv" "Chase" nameless []
                (mkAccount (Some "9988") None) []
                (Dir [("CSV_1", Dir [("statement_9988.csv", csv_file [["x"]])])])
                eq_refl eq_refl eq_refl) as [Hname _].
    apply Hname. reflexivity.
  - destruct (@match_without_account_name_raises literal_search ["CSV_1"]
                "march.csv" "Chase" nameless []
                (mkAccount (Some "9988") None) []
                (Dir [("CSV_1", Dir [("march.csv", csv_file [["acct 9988"; "12.50"]])])])
                eq_refl eq_refl eq_refl) as [_ Hcontent].
    apply (Hcontent "9988"); try reflexivity.
    intros a [<- | []]. reflexivity.
Defined.

Lemma pattern_error_on_file_name_propagates_witness :
  let re := fun pattern text =>
              if String.eqb pattern "(" then Raise ReError
              else literal_search pattern text in
  let root := Dir [("CSV_1", Dir [("a.csv", csv_file [["x"]])])] in
  banks_loop re ["CSV_1"] "a.csv"
    ([("Alpha", mkBank (Some "AAA") (Some []))]
     ++ ("Beta", mkBank (Some "(") (Some [])) :: []) root = Raise ReError /\
  associate_file re ["CSV_1"]
    ([("Alpha", mkBank (Some "AAA") (Some []))]
     ++ ("Beta", mkBank (Some "(") (Some [])) :: []) root "a.csv" = Raise ReError.
Proof.
  intros re root.
  apply (@pattern_error_on_file_name_propagates re ["CSV_1"] "a.csv"
           [("Alpha", mkBank (Some "AAA") (Some []))] []
           "Beta" (mkBank (Some "(") (Some [])) root ReError); reflexivity.
Defined.

Lemma bank_name_in_file_name_wins_witness :
  let re := fun pattern text =>
              if String.eqb pattern "(" then Raise ReError
              else literal_search pattern text in
  let root := Dir [("CSV_1", Dir [("Beta_2024.csv", csv_file [["x"]])])] in
  banks_loop re ["CSV_1"] "Beta_2024.csv"
    ([("Alpha", mkBank (Some "AAA") (Some []))]
     ++ ("Beta", mkBank (Some "(") (Some [])) :: []) root =
  (root' <- move_to_bank_folder root ["CSV_1"] (["CSV_1"] ++ ["Beta_2024.csv"]) "Beta" ;;
   Ok (root', true)).
Proof.
  intros re root.
  apply (@bank_name_in_file_name_wins re ["CSV_1"] "Beta_2024.csv"
           [("Alpha", mkBank (Some "AAA") (Some []))] []
           "Beta" (mkBank (Some "(") (Some [])) root); reflexivity.
Defined.

Lemma partial_read_failures_hide_matches_witness :
  let re := fun pattern text =>
              if String.eqb pattern "(" then Raise ReError
              else literal_search pattern text in
  let c := mkContent (Ok [["a"; "("]])
                     (Ok [Ok "cover"; Raise ReadError; Ok "account ( 1"]) in
  let root := Dir [("PDF_1", Dir [("s.pdf", File c)])] in
  check_pdf_for_account_id root ["PDF_1"; "s.pdf"] "(" = false /\
  check_csv_for_account_id re root ["PDF_1"; "s.pdf"] "(" = false.
Proof.
  intros re c root.
  destruct (@partial_read_failures_hide_matches re root ["PDF_1"; "s.pdf"]
              c "(" eq_refl) as [Hpdf Hcsv].
  split.
  - apply (Hpdf ["cover"] [Ok "account ( 1"] ReadError).
    + reflexivity.
    + intros text [<- | []]. reflexivity.
  - apply (Hcsv [["a"; "("]] ["a"; "("] "a" ReError).
    + reflexivity.
    + now left.
    + now left.
    + reflexivity.
Defined.

(** ** More on the update of the subfolder names *)

Lemma rfind_absent (c : ascii) (s : string) : occurs c s = false -> rfind c s = None.
Proof.
  induction s as [|a s IH]; simpl; auto. intros H.
  apply orb_false_iff in H. destruct H as [Ha Hs]. now rewrite (IH Hs), Ha.
Qed.

Lemma stem_without_dot (s : string) : occurs "." s = false -> stem s = s.
Proof. intros H. unfold stem, split_point. now rewrite (rfind_absent _ _ H). Qed.

Lemma digits_no_dot (d : Decimal.uint) : occurs "." (NilEmpty.string_of_uint d) = false.
Proof. induction d; simpl; auto. Qed.

Lemma str_nat_no_dot (n : nat) : occurs "." (str_nat n) = false.
Proof.
  unfold str_nat, NilZero.string_of_uint.
  destruct (Nat.to_uint n) eqn:E; try reflexivity;
    rewrite <- E at 1; rewrite E; apply digits_no_dot.
Qed.

Lemma occurs_before_underscore (c : ascii) (s : string) :
  occurs c s = false -> occurs c (before_underscore s) = false.
Proof.
  induction s as [|a s IH]; simpl; auto. intros H.
  apply orb_false_iff in H. destruct H as [Ha Hs].
  destruct (Ascii.eqb a "_"); simpl; auto. now rewrite Ha, IH.
Qed.

Lemma before_underscore_counted (s d : string) :
  before_underscore (before_underscore s ++ String "_" d) = before_underscore s.
Proof.
  induction s as [|a s IH]; simpl; auto.
  destruct (Ascii.eqb a "_") eqn:E; simpl; auto. now rewrite E, IH.
Qed.

(** The name the update gives is a name the update keeps. *)
Lemma counted_name_stable (M : string) (n : nat) :
  occurs "." M = false ->
  counted_name (counted_name M n) n = counted_name M n.
Proof.
  intros H. unfold counted_name at 1.
  assert (Hdot : occurs "." (counted_name M n) = false).
  { unfold counted_name. rewrite (stem_without_dot _ H).
    rewrite !occurs_append. simpl.
    now rewrite (occurs_before_underscore _ _ H), str_nat_no_dot. }
  rewrite (stem_without_dot _ Hdot). unfold counted_name.
  change ("_" ++ str_nat n)%string with (String "_" (str_nat n)).
  now rewrite before_underscore_counted.
Qed.

Lemma update_loop_fixed (es : dir) :
  (forall N inside, dir_get es N = Some (Dir inside) ->
                    counted_name N (List.length inside) = N) ->
  forall listing, for_each (update_subfolder []) listing (Dir es) = Ok (Dir es).
Proof.
  intros Hfix. induction listing as [|S l IH]; simpl; auto.
  assert (Hstep : update_subfolder [] (Dir es) S = Ok (Dir es)).
  { unfold update_subfolder, is_dir, iterdir. simpl.
    destruct (dir_get es S) as [[c|inside]|] eqn:ES; simpl; auto.
    rewrite path_join_counted, names_length, (Hfix S inside ES).
    unfold rename. simpl. rewrite ES. simpl. now rewrite String.eqb_refl. }
  now rewrite Hstep.
Qed.

Lemma update_fixed (root : node) (type_folder : path) (es : dir) :
  fs_get root type_folder = Some (Dir es) ->
  (forall N inside, dir_get es N = Some (Dir inside) ->
                    counted_name N (List.length inside) = N) ->
  update_subfolder_counts root type_folder = Ok root.
Proof.
  intros Hget Hfix.
  rewrite (@update_counts_under type_folder root (Dir es) Hget).
  unfold update_subfolder_counts at 1, iterdir. simpl.
  rewrite (@update_loop_fixed es Hfix). simpl.
  apply f_equal. apply (@fs_replace_same type_folder root (Dir es) Hget).
Qed.

(** X18.  A type folder all of whose subdirectories already bear the name the
    update would give them, in particular one without subdirectories, is
    left as it is. *)
Theorem update_leaves_counted_names (root : node) (type_folder : path) (es : dir) :
  fs_get root type_folder = Some (Dir es) ->
  (forall N inside, dir_get es N = Some (Dir inside) ->
                    (before_underscore (stem N) ++ "_"
                     ++ str_nat (List.length inside))%string = N) ->
  update_subfolder_counts root type_folder = Ok root.
Proof. apply update_fixed. Qed.

Lemma update_leaves_counted_names_witness :
  let root := Dir [("CSV_3", Dir [("random.csv", csv_file []);
                                  ("Chase_2", Dir [("s1.csv", csv_file []);
                                                   ("s2.csv", csv_file [])])])] in
  update_subfolder_counts root ["CSV_3"] = Ok root.
Proof.
  intros root.
  apply (@update_leaves_counted_names root ["CSV_3"]
           [("random.csv", csv_file []);
            ("Chase_2", Dir [("s1.csv", csv_file []); ("s2.csv", csv_file [])])]).
  - reflexivity.
  - intros N inside H. unfold csv_file in H. lookup_cases H; reflexivity.
Defined.

(** X19.  The update is idempotent on a type folder whose subdirectories have no
    dot in their names: run on its own result, it returns that result. *)
Theorem update_twice (root root' : node) (type_folder : path) (es : dir) :
  fs_get root type_folder = Some (Dir es) ->
  (forall M inside, dir_get es M = Some (Dir inside) -> occurs "." M = false) ->
  update_subfolder_counts root type_folder = Ok root' ->
  update_subfolder_counts root' type_folder = Ok root'.
Proof.
  intros Hget Hdots Hrun.
  rewrite (@update_counts_under type_folder root (Dir es) Hget) in Hrun.
  destruct (update_subfolder_counts (Dir es) []) as [nd'|e] eqn:E; [|discriminate].
  simpl in Hrun. injection Hrun as <-.
  destruct (@update_counts_at_root es nd' E) as (es' & -> & Hall & _).
  apply (@update_fixed _ type_folder es').
  - apply (@fs_get_replace type_folder root (Dir es) (Dir es') Hget).
  - intros N inside HN. destruct (Hall N inside HN) as (M & before & HM & ->).
    apply counted_name_stable. eapply Hdots; eauto.
Qed.

Lemma update_twice_witness :
  let root := Dir [("CSV_3", Dir [("random.csv", csv_file []);
                                  ("Chase", Dir [("s1.csv", csv_file []);
                                                 ("s2.csv", csv_file [])]);
                                  ("Wells_9", Dir [])])] in
  let root' := Dir [("CSV_3", Dir [("random.csv", csv_file []);
                                   ("Chase_2", Dir [("s1.csv", csv_file []);
                                                    ("s2.csv", csv_file [])]);
                                   ("Wells_0", Dir [])])] in
  update_subfolder_counts root' ["CSV_3"] = Ok root'.
Proof.
  intros root root'.
  apply (@update_twice root root' ["CSV_3"]
           [("random.csv", csv_file []);
            ("Chase", Dir [("s1.csv", csv_file []); ("s2.csv", csv_file [])]);
            ("Wells_9", Dir [])]).
  - reflexivity.
  - intros M inside H. unfold csv_file in H. lookup_cases H; reflexivity.
  - reflexivity.
Defined.

(** X20.  The update renames subdirectories of the type folder and nothing else:
    when it returns, the regular files directly in the type folder are where
    they were, and so is everything that is neither under the type folder nor
    above it. *)
Theorem update_touches_subfolders_only (root root' : node) (type_folder : path)
    (es : dir) :
  fs_get root type_folder = Some (Dir es) ->
  update_subfolder_counts root type_folder = Ok root' ->
  (forall x c, fs_get root (type_folder ++ [x]) = Some (File c) ->
               fs_get root' (type_folder ++ [x]) = Some (File c)) /\
  (forall q, is_prefix type_folder q = false -> is_prefix q type_folder = false ->
             fs_get root' q = fs_get root q).
Proof.
  intros Hget Hrun. split.
  - intros x c Hx. rewrite fs_get_app, Hget, fs_get_top in Hx.
    destruct (@update_names_by_stem root root' type_folder es Hget Hrun) as [_ Hfiles].
    exact (Hfiles x c Hx).
  - intros q H1 H2.
    rewrite (@update_counts_under type_folder root (Dir es) Hget) in Hrun.
    destruct (update_subfolder_counts (Dir es) []) as [nd'|e]; [|discriminate].
    simpl in Hrun. injection Hrun as <-. now apply fs_get_replace_other.
Qed.

Lemma update_touches_subfolders_only_witness :
  let root := Dir [("PDF_1", Dir [("b.pdf", pdf_file ["p"])]);
                   ("CSV_3", Dir [("random.csv", csv_file []);
                                  ("Chase", Dir [("s1.csv", csv_file [])])])] in
  let root' := Dir [("PDF_1", Dir [("b.pdf", pdf_file ["p"])]);
                    ("CSV_3", Dir [("random.csv", csv_file []);
                                   ("Chase_1", Dir [("s1.csv", csv_file [])])])] in
  (forall x c, fs_get root (["CSV_3"] ++ [x]) = Some (File c) ->
               fs_get root' (["CSV_3"] ++ [x]) = Some (File c)) /\
  (forall q, is_prefix ["CSV_3"] q = false -> is_prefix q ["CSV_3"] = false ->
             fs_get root' q = fs_get root q).
Proof.
  intros root root'.
  apply (@update_touches_subfolders_only root root' ["CSV_3"]
           [("random.csv", csv_file []); ("Chase", Dir [("s1.csv", csv_file [])])]);
    reflexivity.
Defined.

(** ** Edges of categorization *)

(** X7.  One round of the second loop of categorization, for an extension of
    ASCII characters, raises when its type folder is a directory that
    already holds an entry named like one of the files of the group: the
    files listed before that one are moved into the folder, and the move of
    that one raises (the destination path already exists), which ends the
    round. *)
Theorem move_group_raises_on_collision (es inside : dir) (ext : string)
    (before after : list string) (f : string) :
  let files := before ++ f :: after in
  let F := type_folder_name ext (List.length files) in
  is_ascii_name ext = true ->
  NoDup files ->
  (forall g, In g files -> exists c, dir_get es g = Some (File c)) ->
  dir_get es F = Some (Dir inside) ->
  (forall g, In g before -> dir_get inside g = None) ->
  dir_get inside f <> None ->
  exists root1,
    create_folder (Dir es) [F] = Ok (Dir es) /\
    for_each (fun r file => shutil_move r [file] [F]) before (Dir es) = Ok root1 /\
    (forall g, In g before ->
               fs_get root1 [g] = None /\ fs_get root1 [F; g] = dir_get es g) /\
    shutil_move root1 [f] [F] = Raise DestinationExists /\
    move_group [] (Dir es) (ext, files) = Raise DestinationExists.
Proof.
  intros files F _ Hnd Hfiles HF Hbefore Hcoll.
  assert (HneF : forall g, In g files -> g <> F).
  { intros g Hg -> . destruct (Hfiles F Hg) as (c & Hc). congruence. }
  assert (Hf : In f files) by (unfold files; apply in_or_app; right; now left).
  assert (Hfnot : ~ In f before).
  { unfold files in Hnd. apply NoDup_remove_2 in Hnd. intros H. apply Hnd.
    apply in_or_app. now left. }
  assert (Hcreate : create_folder (Dir es) [F] = Ok (Dir es)).
  { unfold create_folder, path_exists. simpl. now rewrite HF. }
  destruct (@move_files_ok F before es inside)
    as (es1 & inside1 & Hrun & HF1 & Hmoved & Hkeep & Hframe & _); auto.
  - unfold files in Hnd. eapply NoDup_app_remove_r; eauto.
  - intros g Hg. assert (Hgf : In g files) by (unfold files; apply in_or_app; now left).
    split; [auto|]. split; auto. destruct (Hfiles g Hgf) as (c & Hc). eauto.
  - simpl in Hrun.
    assert (Hmove : shutil_move (Dir es1) [f] [F] = Raise DestinationExists).
    { unfold shutil_move, is_dir, path_exists. simpl. rewrite HF1. simpl.
      assert (Hb : String.eqb f F = false) by (apply String.eqb_neq; auto).
      rewrite Hb. simpl. change (basename [f]) with f. rewrite (Hkeep f Hfnot).
      destruct (dir_get inside f); [reflexivity | contradiction]. }
    exists (Dir es1). split; [exact Hcreate|]. split; [exact Hrun|].
    split; [|split; [exact Hmove|]].
    + intros g Hg. destruct (Hmoved g Hg) as [H1 H2]. split.
      * now rewrite fs_get_top.
      * simpl. rewrite HF1. simpl. rewrite H2. now destruct (dir_get es g).
    + unfold move_group. fold files. rewrite path_join_type_folder. fold F.
      rewrite Hcreate. cbn [bind]. unfold files at 1. rewrite for_each_app.
      simpl. rewrite Hrun. cbn [bind for_each]. now rewrite Hmove.
Qed.

Lemma move_group_raises_on_collision_witness :
  let es := [("a.csv", csv_file [["1"]]); ("b.csv", csv_file [["2"]]);
             ("CSV_2", Dir [("b.csv", csv_file [["old"]])])] in
  exists root1,
    create_folder (Dir es) ["CSV_2"] = Ok (Dir es) /\
    for_each (fun r file => shutil_move r [file] ["CSV_2"]) ["a.csv"] (Dir es) = Ok root1 /\
    (forall g, In g ["a.csv"] ->
               fs_get root1 [g] = None /\ fs_get root1 ["CSV_2"; g] = dir_get es g) /\
    shutil_move root1 ["b.csv"] ["CSV_2"] = Raise DestinationExists /\
    move_group [] (Dir es) (".csv", ["a.csv"] ++ "b.csv" :: []) = Raise DestinationExists.
Proof.
  intros es.
  apply (@move_group_raises_on_collision es [("b.csv", csv_file [["old"]])]
           ".csv" ["a.csv"] [] "b.csv").
  - reflexivity.
  - repeat constructor; simpl; intuition discriminate.
  - intros g [<- | [<- | []]]; eexists; reflexivity.
  - reflexivity.
  - intros g [<- | []]. reflexivity.
  - discriminate.
Defined.

(** ** Files without suffix through the whole run *)

Lemma to_uint_not_nil (n : nat) : Nat.to_uint n <> Decimal.Nil.
Proof.
  intros H. pose proof (DecimalNat.Unsigned.of_to n) as E. rewrite H in E.
  simpl in E. subst n. discriminate H.
Qed.

Lemma str_nat_inj (n m : nat) : str_nat n = str_nat m -> n = m.
Proof.
  unfold str_nat. intros H. apply DecimalNat.Unsigned.to_uint_inj.
  pose proof (NilZero.usu _ (to_uint_not_nil n)) as Hn.
  pose proof (NilZero.usu _ (to_uint_not_nil m)) as Hm.
  rewrite H in Hn. congruence.
Qed.

Lemma dir_del_absent (es : dir) (n : string) : ~ In n (names es) -> dir_del es n = es.
Proof.
  induction es as [|[k v] es IH]; simpl; auto. intros H.
  destruct (String.eqb k n) eqn:E.
  - apply String.eqb_eq in E. tauto.
  - rewrite IH; auto.
Qed.

Lemma dir_set_last (es : dir) (n : string) (v w : node) :
  ~ In n (names es) -> dir_set (es ++ [(n, v)]) n w = es ++ [(n, w)].
Proof.
  induction es as [|[k u] es IH]; simpl; intros H.
  - now rewrite String.eqb_refl.
  - destruct (String.eqb k n) eqn:E.
    + apply String.eqb_eq in E. tauto.
    + rewrite IH; auto.
Qed.

Lemma move_all_exact (F : string) : forall (rest acc : dir),
  NoDup (names rest) ->
  ~ In F (names rest) ->
  (forall f, In f (names rest) -> dir_get acc f = None) ->
  for_each (fun r file => shutil_move r [file] [F]) (names rest)
    (Dir (rest ++ [(F, Dir acc)])) =
  Ok (Dir [(F, Dir (acc ++ rest))]).
Proof.
  induction rest as [|[f nd] rest IH]; intros acc Hnd HF Hacc; simpl.
  - now rewrite app_nil_r.
  - simpl in Hnd, HF. inversion Hnd as [|? ? Hf Hnd']; subst.
    assert (HfF : f <> F) by tauto.
    assert (HFrest : ~ In F (names rest)) by tauto.
    rewrite (@shutil_move_into ((f, nd) :: rest ++ [(F, Dir acc)]) acc f F nd); auto.
    + simpl. rewrite String.eqb_refl.
      rewrite dir_del_absent.
      2:{ unfold names. rewrite map_app, in_app_iff. simpl. intuition congruence. }
      rewrite dir_set_last by exact HFrest.
      rewrite dir_set_absent by (apply Hacc; now left).
      rewrite (IH (acc ++ [(f, nd)])); auto.
      * now rewrite <- app_assoc.
      * intros g Hg. rewrite dir_get_app by (apply Hacc; now left).
        destruct (String.eqb f g) eqn:E; [|apply Hacc; now right].
        apply String.eqb_eq in E. subst g. contradiction.
    + simpl. now rewrite String.eqb_refl.
    + simpl. apply String.eqb_neq in HfF. rewrite HfF.
      apply dir_get_None in HFrest. rewrite dir_get_app by exact HFrest.
      now rewrite String.eqb_refl.
    + apply Hacc. now left.
Qed.

Lemma inventory_all_suffixless (root : node) : forall (l acc : list string),
  (forall f, In f l -> is_file root [f] = true /\ lower (suffix f) = "") ->
  inventory_from root [] l [("", acc)] = [("", acc ++ l)].
Proof.
  induction l as [|f l IH]; intros acc H; simpl.
  - now rewrite app_nil_r.
  - destruct (H f (or_introl eq_refl)) as [H1 H2]. rewrite H1, H2. simpl.
    rewrite IH; [now rewrite <- app_assoc|]. intros g Hg. apply H. now right.
Qed.

(** X24.  A folder that holds two or more regular files, none with a suffix, and
    nothing else: categorization moves them all into the folder named by an
    underscore and their number; the associator, for the empty extension,
    counts the entries of the processed folder itself, of which there is
    one, looks for the folder [_1], finds none and skips the type.  The run
    returns with no file attributed, whatever the registry. *)
Theorem suffixless_files_are_not_associated
    (re_search : string -> string -> result bool) (json : json_data) (es : dir) :
  NoDup (names es) ->
  (forall f nd, In (f, nd) es -> suffix f = "" /\ exists c, nd = File c) ->
  2 <= List.length es ->
  ~ In ("_" ++ str_nat (List.length es))%string (names es) ->
  categorize_files_by_type (Dir es) [] =
    Ok (Dir [(("_" ++ str_nat (List.length es))%string, Dir es)], [""]) /\
  resolve_type_folder (Dir [(("_" ++ str_nat (List.length es))%string, Dir es)]) [] ""
    = Ok ["_1"] /\
  main re_search (Some (Dir es)) (Some json) =
    Ok (Some (Dir [(("_" ++ str_nat (List.length es))%string, Dir es)])).
Proof.
  intros Hnd Hall Hlen Hfree.
  set (F := ("_" ++ str_nat (List.length es))%string) in *.
  assert (Hfile : forall f, In f (names es) ->
                            is_file (Dir es) [f] = true /\ lower (suffix f) = "").
  { intros f Hf. unfold names in Hf. apply in_map_iff in Hf.
    destruct Hf as ([g nd] & <- & Hin). simpl.
    destruct (Hall g nd Hin) as (Hs & c & ->). rewrite Hs. split; auto.
    apply is_file_top. clear Hfree Hlen Hall F.
    induction es as [|[k v] es IH]; [contradiction|]. simpl in *.
    inversion Hnd as [|? ? Hk Hnd']; subst.
    destruct Hin as [E | Hin].
    - injection E as -> ->. rewrite String.eqb_refl. eauto.
    - destruct (String.eqb k g) eqn:E; [|now apply IH].
      apply String.eqb_eq in E. subst k. exfalso. apply Hk.
      change g with (fst (g, File c)). now apply in_map. }
  assert (Hinv : build_inventory (Dir es) [] (names es) = [("", names es)]).
  { unfold build_inventory. destruct es as [|[f nd] es0] eqn:Ees; [simpl in Hlen; lia|].
    simpl. destruct (Hfile f (or_introl eq_refl)) as [Hf1 Hf2].
    simpl in Hf1. rewrite Hf1, Hf2. simpl.
    rewrite (@inventory_all_suffixless (Dir ((f, nd) :: es0)) (names es0) [f]); auto.
    intros g Hg. apply Hfile. now right. }
  assert (Hcat : categorize_files_by_type (Dir es) [] = Ok (Dir [(F, Dir es)], [""])).
  { unfold categorize_files_by_type, iterdir. simpl. rewrite Hinv. simpl.
    rewrite names_length.
    change (type_folder_name "" (List.length es)) with F.
    unfold path_join. replace (String.eqb F "") with false by reflexivity.
    unfold create_folder, path_exists. simpl.
    rewrite (proj2 (dir_get_None es F) Hfree). simpl.
    rewrite (@move_all_exact F es [] Hnd Hfree (fun f _ => eq_refl)). reflexivity. }
  assert (HF1 : String.eqb (str_nat (List.length es)) (str_nat 1) = false).
  { apply String.eqb_neq. intros E. apply str_nat_inj in E. lia. }
  split; [exact Hcat|]. split; [reflexivity|].
  unfold main. rewrite Hcat. cbn [bind].
  unfold associate_files_with_sources. simpl.
  unfold associate_type, resolve_type_folder, iterdir, path_exists. simpl.
  now rewrite HF1.
Qed.

Lemma suffixless_files_are_not_associated_witness :
  let es := [("Chase statement", File unreadable); ("README", File unreadable)] in
  categorize_files_by_type (Dir es) [] = Ok (Dir [("_2", Dir es)], [""]) /\
  resolve_type_folder (Dir [("_2", Dir es)]) [] "" = Ok ["_1"] /\
  main literal_search (Some (Dir es)) (Some chase_registry) =
    Ok (Some (Dir [("_2", Dir es)])).
Proof.
  intros es.
  apply (@suffixless_files_are_not_associated literal_search chase_registry es).
  - repeat constructor; simpl; intuition discriminate.
  - intros f nd [E | [E | []]]; injection E as <- <-; split; eauto.
  - simpl. lia.
  - simpl. intuition discriminate.
Defined.

(** ** Edges of [move_to_bank_folder] *)

(** X10.  The entry of the type folder that bears the bank's own name, met in the
    listing, is moved onto itself: nothing changes. *)
Theorem bank_entry_stays_in_place (root : node) (type_folder : path) (es : dir)
    (bank : string) (nd : node) :
  fs_get root type_folder = Some (Dir es) ->
  String.eqb bank "" = false ->
  dir_get es bank = Some nd ->
  move_to_bank_folder root type_folder (type_folder ++ [bank]) bank = Ok root.
Proof.
  intros Hget Hb Hbank.
  rewrite (@move_to_bank_folder_under type_folder bank root (Dir es) bank Hget).
  assert (Hlocal : move_to_bank_folder (Dir es) [] [bank] bank = Ok (Dir es)).
  { unfold move_to_bank_folder, path_join. rewrite Hb. change ([] ++ [bank]) with [bank].
    unfold create_folder, path_exists, shutil_move, is_dir, rename. simpl.
    rewrite Hbank. simpl. rewrite Hbank. rewrite String.eqb_refl. simpl.
    destruct nd; simpl; rewrite ?Hbank; reflexivity. }
  rewrite Hlocal. simpl. apply f_equal.
  apply (@fs_replace_same type_folder root (Dir es) Hget).
Qed.

Lemma bank_entry_stays_in_place_witness :
  let root := Dir [("CSV_2", Dir [("Chase", Dir [("s.csv", csv_file [])]);
                                  ("random.csv", csv_file [])])] in
  move_to_bank_folder root ["CSV_2"] (["CSV_2"] ++ ["Chase"]) "Chase" = Ok root.
Proof.
  intros root.
  apply (@bank_entry_stays_in_place root ["CSV_2"]
           [("Chase", Dir [("s.csv", csv_file [])]); ("random.csv", csv_file [])]
           "Chase" (Dir [("s.csv", csv_file [])])); reflexivity.
Defined.

(** X16.  A bank whose name is the empty string: the empty string is in every file
    name, the bank's folder is the type folder itself, and moving the entry
    there finds it in the way.  The loop over the banks raises on the first
    entry that no earlier bank has matched. *)
Theorem empty_bank_name_raises (re_search : string -> string -> result bool)
    (root : node) (type_folder : path) (es : dir) (name : string) (nd : node)
    (before after : json_data) (data : bank_data) :
  fs_get root type_folder = Some (Dir es) ->
  dir_get es name = Some nd ->
  banks_loop re_search type_folder name before root = Ok (root, false) ->
  banks_loop re_search type_folder name (before ++ ("", data) :: after) root
    = Raise DestinationExists.
Proof.
  intros Hget Hname Hbefore.
  rewrite (@banks_loop_app re_search type_folder name before _ root Hbefore).
  simpl. rewrite is_substring_empty. simpl.
  rewrite (@move_to_bank_folder_under type_folder name root (Dir es) "" Hget).
  assert (Hlocal : move_to_bank_folder (Dir es) [] [name] "" = Raise DestinationExists).
  { unfold move_to_bank_folder, path_join, create_folder, shutil_move, is_dir,
      path_exists. simpl. change (basename [name]) with name. now rewrite Hname. }
  now rewrite Hlocal.
Qed.

Lemma empty_bank_name_raises_witness :
  let root := Dir [("CSV_1", Dir [("a.csv", csv_file [["x"]])])] in
  banks_loop literal_search ["CSV_1"] "a.csv"
    ([("Alpha", mkBank (Some "AAA") (Some []))]
     ++ ("", mkBank (Some "ZZZ") (Some [])) :: []) root
  = Raise DestinationExists.
Proof.
  intros root.
  apply (@empty_bank_name_raises literal_search root ["CSV_1"]
           [("a.csv", csv_file [["x"]])] "a.csv" (csv_file [["x"]])
           [("Alpha", mkBank (Some "AAA") (Some []))] []
           (mkBank (Some "ZZZ") (Some []))); reflexivity.
Defined.
(** ** The outcome of attribution *)


Section AttributionOutcome.

Variable re_search : string -> string -> result bool.
Variables (type_folder : path) (name : string).


End AttributionOutcome.


(** ** Errors of the readers *)

Lemma page_of_contains (account_id : string) :
  forall (pages : list (result string)) (n : nat),
  pages_contain pages account_id =
  (found <- page_of pages account_id n ;;
   Ok (match found with Some _ => true | None => false end)).
Proof.
  induction pages as [|page pages IH]; intros n; simpl; auto.
  destruct page as [text|e]; simpl; auto.
  destruct (is_substring account_id text); simpl; auto.
Qed.

Lemma pdf_page_contains (root : node) (file : path) (account_id : string) :
  pdf_contains root file account_id =
  (found <- pdf_page root file account_id ;;
   Ok (match found with Some _ => true | None => false end)).
Proof.
  unfold pdf_contains, pdf_page.
  destruct (fs_get root file) as [[c|es]|]; simpl; auto.
  destruct (as_pdf c) as [pdf|e]; simpl; auto. apply page_of_contains.
Qed.

Section ReadErrors.

Variable re_search : string -> string -> result bool.
Variables (type_folder : path) (name : string).

(** The values the checks return are those of the checks with output. *)
Lemma check_csv_with_output_value (root : node) (file : path) (account_id : string) :
  fst (check_csv_with_output re_search root file account_id) =
  check_csv_for_account_id re_search root file account_id.
Proof.
  unfold check_csv_with_output, check_csv_for_account_id.
  now destruct (csv_contains re_search root file account_id) as [[|]|e].
Qed.

Lemma check_pdf_with_output_value (root : node) (file : path) (account_id : string) :
  fst (check_pdf_with_output root file account_id) =
  check_pdf_for_account_id root file account_id.
Proof.
  unfold check_pdf_with_output, check_pdf_for_account_id.
  rewrite pdf_page_contains.
  now destruct (pdf_page root file account_id) as [[n|]|e].
Qed.

(** C6.  When reading the content of a file raises, the check catches the
    exception: it prints the line that reports the error with the
    exception, after the line that announces the check, and answers
    [False]; the loop over the accounts goes on with the next account.  A
    bank all of whose accounts have an ID and make the reading raise yields
    no match and no exception, and when the tests on the file name have
    failed for it as well, the loop over the banks goes on with the next
    bank. *)
Theorem content_read_errors_are_no_match (root : node) (bank : string)
    (data : bank_data) (banks : json_data)
    (acc : account) (accounts : list account) (account_id : string) (e : exn) :
  Account_ID acc = Some account_id ->
  (csv_contains re_search root (type_folder ++ [name]) account_id = Raise e ->
   check_csv_with_output re_search root (type_folder ++ [name]) account_id =
     (false, [Checking CSV (type_folder ++ [name]) account_id;
              ErrorReading CSV (type_folder ++ [name]) e]) /\
   check_csv_for_account_id re_search root (type_folder ++ [name]) account_id = false /\
   accounts_by_content (check_csv_for_account_id re_search) type_folder name bank
     (acc :: accounts) root =
   accounts_by_content (check_csv_for_account_id re_search) type_folder name bank
     accounts root) /\
  (pdf_contains root (type_folder ++ [name]) account_id = Raise e ->
   check_pdf_with_output root (type_folder ++ [name]) account_id =
     (false, [Checking PDF (type_folder ++ [name]) account_id;
              ErrorReading PDF (type_folder ++ [name]) e]) /\
   check_pdf_for_account_id root (type_folder ++ [name]) account_id = false /\
   accounts_by_content check_pdf_for_account_id type_folder name bank
     (acc :: accounts) root =
   accounts_by_content check_pdf_for_account_id type_folder name bank accounts root) /\
  ((forall a, In a (acc :: accounts) ->
      exists id e1 e2,
        Account_ID a = Some id /\
        csv_contains re_search root (type_folder ++ [name]) id = Raise e1 /\
        pdf_contains root (type_folder ++ [name]) id = Raise e2) ->
   by_content re_search type_folder name bank (acc :: accounts) root = Ok (root, false) /\
   (Accounts data = Some (acc :: accounts) ->
    (if is_substring bank name then Ok true
     else re_search (get_default (Bank_ID data) "") name) = Ok false ->
    (forall a, In a (acc :: accounts) ->
               re_search (get_default (Account_ID a) "") name = Ok false) ->
    banks_loop re_search type_folder name ((bank, data) :: banks) root =
    banks_loop re_search type_folder name banks root)).
Proof.
  intros Hid. split; [|split].
  - intros Hraise.
    assert (Hc : check_csv_for_account_id re_search root (type_folder ++ [name])
                   account_id = false).
    { unfold check_csv_for_account_id. now rewrite Hraise. }
    split; [|split; [exact Hc|]].
    + unfold check_csv_with_output. now rewrite Hraise.
    + simpl. rewrite Hid. simpl. now rewrite Hc.
  - intros Hraise.
    assert (Hc : check_pdf_for_account_id root (type_folder ++ [name]) account_id = false).
    { unfold check_pdf_for_account_id. now rewrite Hraise. }
    split; [|split; [exact Hc|]].
    + unfold check_pdf_with_output. rewrite pdf_page_contains in Hraise.
      destruct (pdf_page root (type_folder ++ [name]) account_id) as [found|e0];
        simpl in Hraise; [discriminate|]. now injection Hraise as ->.
    + simpl. rewrite Hid. simpl. now rewrite Hc.
  - generalize (acc :: accounts). intros l Hall.
    assert (Hcontent : by_content re_search type_folder name bank l root
                       = Ok (root, false)).
    { unfold by_content.
      assert (Hcsv : accounts_by_content (check_csv_for_account_id re_search)
                       type_folder name bank l root = Ok (root, false)).
      { apply accounts_by_content_all_false. intros a Ha.
        destruct (Hall a Ha) as (id & e1 & e2 & Hi & H1 & H2).
        exists id. split; auto. unfold check_csv_for_account_id. now rewrite H1. }
      assert (Hpdf : accounts_by_content check_pdf_for_account_id
                       type_folder name bank l root = Ok (root, false)).
      { apply accounts_by_content_all_false. intros a Ha.
        destruct (Hall a Ha) as (id & e1 & e2 & Hi & H1 & H2).
        exists id. split; auto. unfold check_pdf_for_account_id. now rewrite H2. }
      destruct (String.eqb (lower (suffix name)) ".csv"); auto.
      destruct (String.eqb (lower (suffix name)) ".pdf"); auto. }
    split; [exact Hcontent|]. intros Hacc Hbank Hnames.
    simpl. rewrite Hbank, Hacc. cbn [bind get_default].
    rewrite <- (app_nil_r l) at 1.
    rewrite (@accounts_by_filename_app re_search type_folder name bank root l [] Hnames).
    simpl. now rewrite Hcontent.
Qed.

End ReadErrors.

Lemma content_read_errors_are_no_match_witness :
  let root := Dir [("CSV_1", Dir [("x.csv", File unreadable)])] in
  let file := ["CSV_1"] ++ ["x.csv"] in
  let acc := mkAccount (Some "9988") (Some "Savings") in
  let chase := mkBank (Some "CHK1") (Some [acc]) in
  let later := [("Beta", mkBank (Some "") (Some []))] in
  (check_csv_with_output literal_search root file "9988" =
     (false, [Checking CSV file "9988"; ErrorReading CSV file ReadError]) /\
   check_csv_for_account_id literal_search root file "9988" = false /\
   accounts_by_content (check_csv_for_account_id literal_search)
     ["CSV_1"] "x.csv" "Chase" [acc] root =
   accounts_by_content (check_csv_for_account_id literal_search)
     ["CSV_1"] "x.csv" "Chase" [] root) /\
  (check_pdf_with_output root file "9988" =
     (false, [Checking PDF file "9988"; ErrorReading PDF file ReadError]) /\
   check_pdf_for_account_id root file "9988" = false /\
   accounts_by_content check_pdf_for_account_id ["CSV_1"] "x.csv" "Chase" [acc] root =
   accounts_by_content check_pdf_for_account_id ["CSV_1"] "x.csv" "Chase" [] root) /\
  by_content literal_search ["CSV_1"] "x.csv" "Chase" [acc] root = Ok (root, false) /\
  banks_loop literal_search ["CSV_1"] "x.csv" (("Chase", chase) :: later) root =
  banks_loop literal_search ["CSV_1"] "x.csv" later root.
Proof.
  intros root file acc chase later.
  destruct (@content_read_errors_are_no_match literal_search ["CSV_1"] "x.csv"
              root "Chase" chase later acc [] "9988" ReadError eq_refl)
    as (Hcsv & Hpdf & Hbank).
  split; [exact (Hcsv eq_refl)|]. split; [exact (Hpdf eq_refl)|].
  destruct Hbank as (Hcontent & Hnext).
  - intros a [<- | []]. exists "9988", ReadError, ReadError. repeat split.
  - split; [exact Hcontent|]. apply Hnext; [reflexivity | reflexivity |].
    intros a [<- | []]. reflexivity.
Defined.
